(** * Fitness Studio Booking API: a shallow embedding and its properties

    The development follows the layout of the Python package:
    [pystr] and [pydatetime] give the fragments of [str] and [datetime]
    the application calls, then [config], [models], [schemas],
    [database], [crud], [dependencies], [routes], [main] and
    [timezone] mirror the modules of [app/]; [sql] holds what the
    queries ask of the database.  What the libraries decide and the
    repository does not (the rules of the display zone, the validator
    of e-mail addresses, the parser of ISO texts) is a parameter of
    the code that uses it.  The theorems come last. *)

From Stdlib Require Import ZArith List Bool Lia Ascii String.
From Stdlib Require Import DecimalString Permutation Sorted.
Import ListNotations.

Local Open Scope string_scope.
Local Open Scope list_scope.
Local Open Scope Z_scope.

(* ================================================================== *)
(** ** Python [str], on the code points 0..255 *)
(* ================================================================== *)

Module pystr.

Definition code (c : ascii) : Z := Z.of_N (N_of_ascii c).

Definition chr (n : Z) : ascii := ascii_of_N (Z.to_N n).

(** [str.lower] on one code point: A-Z and the Latin-1 capitals
    (U+00C0..U+00DE, the multiplication sign U+00D7 apart) move up by 32. *)
Definition lower_char (c : ascii) : ascii :=
  let n := code c in
  if ((65 <=? n) && (n <=? 90))
     || ((192 <=? n) && (n <=? 222) && negb (n =? 215))
  then chr (n + 32) else c.

(** [str.isspace] on one code point: TAB, LF, VT, FF, CR, the separators
    FS, GS, RS, US, the space, NEL and the no-break space. *)
Definition isspace (c : ascii) : bool :=
  let n := code c in
  ((9 <=? n) && (n <=? 13)) || ((28 <=? n) && (n <=? 32))
  || (n =? 133) || (n =? 160).

Fixpoint lower (s : string) : string :=
  match s with
  | EmptyString => EmptyString
  | String c s' => String (lower_char c) (lower s')
  end.

Fixpoint lstrip (s : string) : string :=
  match s with
  | EmptyString => EmptyString
  | String c s' => if isspace c then lstrip s' else s
  end.

Definition is_empty (s : string) : bool :=
  match s with EmptyString => true | String _ _ => false end.

Fixpoint rstrip (s : string) : string :=
  match s with
  | EmptyString => EmptyString
  | String c s' =>
      let r := rstrip s' in
      if isspace c && is_empty r then EmptyString else String c r
  end.

(** [s.strip()] with no argument. *)
Definition strip (s : string) : string := rstrip (lstrip s).

(** [all(c.isspace() for c in s)]. *)
Fixpoint all_space (s : string) : bool :=
  match s with
  | EmptyString => true
  | String c s' => isspace c && all_space s'
  end.

(** [s.replace(old, new)] for a one-character [old]. *)
Fixpoint replace (old : ascii) (new : string) (s : string) : string :=
  match s with
  | EmptyString => EmptyString
  | String c s' =>
      if Ascii.eqb c old then (new ++ replace old new s')%string
      else String c (replace old new s')
  end.

(** [len(s)] as a Python int. *)
Definition len (s : string) : Z := Z.of_nat (String.length s).

(** [str(n)] for an int. *)
Definition str_of_int (n : Z) : string := NilZero.string_of_int (Z.to_int n).

End pystr.

(* ================================================================== *)
(** ** Python [datetime], on a linear time line *)
(* ================================================================== *)

Module pydatetime.

(** A [datetime] value is kept as the number of microseconds of its own
    wall clock since 0001-01-01T00:00:00 (proleptic Gregorian), with the
    UTC offset of its [tzinfo] in microseconds; [None] is a naive
    value.  [datetime.min] is tick 0 and [datetime.max] is
    9999-12-31T23:59:59.999999. *)
Record datetime : Type := mk_datetime {
  ticks : Z;
  tzinfo : option Z
}.

Definition US_PER_SECOND : Z := 1000000.
Definition US_PER_DAY : Z := 86400 * US_PER_SECOND.

(** Ordinal of 9999-12-31, [date.max.toordinal()]. *)
Definition MAX_ORDINAL : Z := 3652059.
Definition MAX_TICKS : Z := MAX_ORDINAL * US_PER_DAY - 1.

Inductive pyerror : Type :=
| ValueError
| OverflowError.

Inductive result (A : Type) : Type :=
| Return (a : A)
| Raise (e : pyerror).
Arguments Return {A} a.
Arguments Raise {A} e.

Definition rbind {A B} (r : result A) (k : A -> result B) : result B :=
  match r with
  | Return a => k a
  | Raise e => Raise e
  end.

Definition in_range (t : Z) : bool := (0 <=? t) && (t <=? MAX_TICKS).

(** [dt + timedelta(microseconds=delta)]: the time zone is kept, a
    result outside [datetime.min .. datetime.max] raises. *)
Definition add (dt : datetime) (delta : Z) : result datetime :=
  let t := ticks dt + delta in
  if in_range t then Return (mk_datetime t (tzinfo dt))
  else Raise OverflowError.

(** [tz.localize(dt)] of a fixed-offset zone such as [pytz.UTC]. *)
Definition localize_fixed (offset : Z) (dt : datetime) : datetime :=
  mk_datetime (ticks dt) (Some offset).

(** A [pytz] zone with a table of rules: the offset [localize] picks
    for a wall-clock reading, and the offset [fromutc] picks for a UTC
    reading; both in microseconds. *)
Record tz : Type := mk_tz {
  utcoffset_of_wall : Z -> Z;
  utcoffset_of_utc : Z -> Z
}.

(** [zone.localize(dt)] for a naive [dt] and a zone with a table of
    rules ([pytz]'s [DstTzInfo], the class of Asia/Kolkata): the method
    first computes [dt + timedelta(days=-1)] and [dt + timedelta(days=1)]
    to look up the rules around the reading, so a reading within a day
    of [datetime.min] or [datetime.max] raises; otherwise the offset
    the table gives for the reading is attached. *)
Definition localize (zone : tz) (dt : datetime) : result datetime :=
  rbind (add dt (- US_PER_DAY)) (fun _ =>
  rbind (add dt US_PER_DAY) (fun _ =>
  Return (mk_datetime (ticks dt) (Some (utcoffset_of_wall zone (ticks dt)))))).

(** The readings [localize] accepts. *)
Definition localizable (t : Z) : bool :=
  in_range (t - US_PER_DAY) && in_range (t + US_PER_DAY).

(** [dt.astimezone(pytz.UTC)] for an aware [dt]: subtract the offset,
    attach UTC.  A naive [dt] would be read in the zone of the host;
    every call site of the application attaches a zone first, and the
    model, which has no host zone, fails there. *)
Definition astimezone_utc (dt : datetime) : result datetime :=
  match tzinfo dt with
  | None => Raise ValueError
  | Some off =>
      match add (mk_datetime (ticks dt) None) (- off) with
      | Return u => Return (mk_datetime (ticks u) (Some 0))
      | Raise e => Raise e
      end
  end.

(** [dt.astimezone(zone)] for an aware [dt] and a [pytz] zone: go to
    UTC, then [zone.fromutc] adds the offset in force at that reading. *)
Definition astimezone (zone : tz) (dt : datetime) : result datetime :=
  match astimezone_utc dt with
  | Return u =>
      let off := utcoffset_of_utc zone (ticks u) in
      match add (mk_datetime (ticks u) None) off with
      | Return l => Return (mk_datetime (ticks l) (Some off))
      | Raise e => Raise e
      end
  | Raise e => Raise e
  end.

(** *** The constructor [datetime(year, month, day, hour, ...)] *)

Definition is_leap (year : Z) : bool :=
  (year mod 4 =? 0) && (negb (year mod 100 =? 0) || (year mod 400 =? 0)).

Definition days_before_year (year : Z) : Z :=
  let y := year - 1 in
  y * 365 + y / 4 - y / 100 + y / 400.

Definition days_in_month (year month : Z) : Z :=
  if (month =? 2) && is_leap year then 29
  else nth (Z.to_nat month)
           [0; 31; 28; 31; 30; 31; 30; 31; 31; 30; 31; 30; 31] 0.

Definition days_before_month (year month : Z) : Z :=
  nth (Z.to_nat month)
      [0; 0; 31; 59; 90; 120; 151; 181; 212; 243; 273; 304; 334] 0
  + (if (2 <? month) && is_leap year then 1 else 0).

(** [date(year, month, day).toordinal()]: 0001-01-01 is day 1. *)
Definition ymd2ord (year month day : Z) : Z :=
  days_before_year year + days_before_month year month + day.

Definition check_date_fields (year month day : Z) : bool :=
  (1 <=? year) && (year <=? 9999) && (1 <=? month) && (month <=? 12)
  && (1 <=? day) && (day <=? days_in_month year month).

Definition check_time_fields (hour minute second microsecond : Z) : bool :=
  (0 <=? hour) && (hour <=? 23) && (0 <=? minute) && (minute <=? 59)
  && (0 <=? second) && (second <=? 59)
  && (0 <=? microsecond) && (microsecond <=? 999999).

Definition wall_ticks (year month day hour minute second microsecond : Z) : Z :=
  ((ymd2ord year month day - 1) * 86400
   + hour * 3600 + minute * 60 + second) * US_PER_SECOND + microsecond.

Definition new_datetime (year month day hour minute second microsecond : Z)
  (tz : option Z) : result datetime :=
  if check_date_fields year month day
     && check_time_fields hour minute second microsecond
  then Return (mk_datetime
                 (wall_ticks year month day hour minute second microsecond) tz)
  else Raise ValueError.

(** *** [datetime.fromisoformat]

    The parser belongs to the interpreter, not to the repository, and
    its grammar has grown from one release to the next; the code of
    the application takes the parser as a parameter (see
    [timezone.parse_ist_string]).  [fromisoformat_py310] is the parser
    of the interpreters up to 3.10, for
    [YYYY-MM-DD[*HH[:MM[:SS[.fff[fff]]]][+HH:MM[:SS[.ffffff]]]]]; on
    the texts of this shape the later parsers read the same value. *)

Definition is_digit (c : ascii) : bool :=
  (48 <=? pystr.code c) && (pystr.code c <=? 57).

Fixpoint digits_value (acc : Z) (s : string) : option Z :=
  match s with
  | EmptyString => Some acc
  | String c s' =>
      if is_digit c then digits_value (10 * acc + (pystr.code c - 48)) s'
      else None
  end.

(** The value of a non-empty run of decimal digits. *)
Definition parse_digits (s : string) : option Z :=
  match s with
  | EmptyString => None
  | _ => digits_value 0 s
  end.

Definition obind {A B} (o : option A) (k : A -> option B) : option B :=
  match o with Some a => k a | None => None end.

Notation "'let?' x := o 'in' k" := (obind o (fun x => k))
  (at level 10, x name, o at level 100, k at level 200).

(** [s[a:]]. *)
Definition slice_from (a : nat) (s : string) : string :=
  substring a (String.length s - a) s.

Definition parse_isoformat_date (dtstr : string) : option (Z * Z * Z) :=
  let? year := parse_digits (substring 0 4 dtstr) in
  if negb (String.eqb (substring 4 1 dtstr) "-") then None else
  let? month := parse_digits (substring 5 2 dtstr) in
  if negb (String.eqb (substring 7 1 dtstr) "-") then None else
  let? day := parse_digits (substring 8 2 dtstr) in
  Some (year, month, day).

(** The two digits at [pos]; fewer than two characters left is an
    incomplete component. *)
Definition two_at (pos : nat) (tstr : string) : option Z :=
  if (String.length tstr - pos <? 2)%nat then None
  else parse_digits (substring pos 2 tstr).

(** [HH[:MM[:SS[.fff[fff]]]]] *)
Definition parse_hh_mm_ss_ff (tstr : string) : option (Z * Z * Z * Z) :=
  let? hh := two_at 0 tstr in
  if pystr.is_empty (substring 2 1 tstr) then Some (hh, 0, 0, 0) else
  if negb (String.eqb (substring 2 1 tstr) ":") then None else
  let? mm := two_at 3 tstr in
  if pystr.is_empty (substring 5 1 tstr) then Some (hh, mm, 0, 0) else
  if negb (String.eqb (substring 5 1 tstr) ":") then None else
  let? ss := two_at 6 tstr in
  if pystr.is_empty (substring 8 1 tstr) then Some (hh, mm, ss, 0) else
  if negb (String.eqb (substring 8 1 tstr) ".") then None else
  let frac := slice_from 9 tstr in
  let len_remainder := String.length frac in
  if negb ((len_remainder =? 3) || (len_remainder =? 6))%nat then None else
  let? ff := parse_digits frac in
  Some (hh, mm, ss, if (len_remainder =? 3)%nat then ff * 1000 else ff).

(** [s.find(c)]: the index of the first [c]. *)
Fixpoint find_char (c : ascii) (s : string) : option nat :=
  match s with
  | EmptyString => None
  | String c' s' =>
      if Ascii.eqb c' c then Some O
      else match find_char c s' with Some i => Some (S i) | None => None end
  end.

(** The zone part starts at the first ['-'] or, when there is none, at
    the first ['+']; an offset of zero is [timezone.utc], any other
    must be strictly within a day. *)
Definition parse_isoformat_time (tstr : string)
  : option (Z * Z * Z * Z * option Z) :=
  if (String.length tstr <? 2)%nat then None else
  let tz_pos :=
    match find_char "-" tstr with
    | Some i => Some i
    | None => find_char "+" tstr
    end in
  match tz_pos with
  | None =>
      let? time_comps := parse_hh_mm_ss_ff tstr in
      Some (time_comps, None)
  | Some i =>
      let? time_comps := parse_hh_mm_ss_ff (substring 0 i tstr) in
      let tzstr := slice_from (S i) tstr in
      let n := String.length tzstr in
      if negb ((n =? 5) || (n =? 8) || (n =? 15))%nat then None else
      let? tz_comps := parse_hh_mm_ss_ff tzstr in
      let '(h, m, s, us) := tz_comps in
      let tzsign := if String.eqb (substring i 1 tstr) "-" then -1 else 1 in
      let td := tzsign * (((h * 3600 + m * 60 + s) * US_PER_SECOND) + us) in
      if (- US_PER_DAY <? td) && (td <? US_PER_DAY)
      then Some (time_comps, Some td) else None
  end.

Definition fromisoformat_py310 (date_string : string) : result datetime :=
  let dstr := substring 0 10 date_string in
  let tstr := slice_from 11 date_string in
  match parse_isoformat_date dstr with
  | None => Raise ValueError
  | Some (year, month, day) =>
      if pystr.is_empty tstr then new_datetime year month day 0 0 0 0 None
      else
        match parse_isoformat_time tstr with
        | None => Raise ValueError
        | Some (hour, minute, second, microsecond, tz) =>
            new_datetime year month day hour minute second microsecond tz
        end
  end.

(** *** [datetime.isoformat], on fields *)

Definition digit (k : Z) : ascii := pystr.chr (48 + k).

Definition two_digits (n : Z) : string :=
  String (digit (n / 10)) (String (digit (n mod 10)) EmptyString).

Definition four_digits (n : Z) : string :=
  (two_digits (n / 100) ++ two_digits (n mod 100))%string.

Definition six_digits (n : Z) : string :=
  (two_digits (n / 10000) ++ four_digits (n mod 10000))%string.

(** The zone designator of an ISO-8601 text: none, [Z], or a signed
    [HH:MM] offset. *)
Inductive designator : Type :=
| Unzoned
| Zulu
| Offset (negative : bool) (hours minutes : Z).

Definition designator_text (z : designator) : string :=
  match z with
  | Unzoned => ""
  | Zulu => "Z"
  | Offset negative hh mm =>
      ((if negative then "-" else "+")
       ++ two_digits hh ++ ":" ++ two_digits mm)%string
  end.

(** The offset a designator denotes, in microseconds. *)
Definition designator_offset (z : designator) : option Z :=
  match z with
  | Unzoned => None
  | Zulu => Some 0
  | Offset negative hh mm =>
      Some ((if negative then -1 else 1)
            * ((hh * 3600 + mm * 60) * US_PER_SECOND))
  end.

Definition check_designator (z : designator) : bool :=
  match z with
  | Offset _ hh mm => (0 <=? hh) && (hh <=? 23) && (0 <=? mm) && (mm <=? 59)
  | _ => true
  end.

(** [YYYY-MM-DD]. *)
Definition date_text (year month day : Z) : string :=
  (four_digits year ++ "-" ++ two_digits month ++ "-" ++ two_digits day)%string.

(** [HH:MM:SS], then [.ffffff] when a fraction is given. *)
Definition time_text (hour minute second : Z) (fraction : option Z) : string :=
  (two_digits hour ++ ":" ++ two_digits minute ++ ":" ++ two_digits second
   ++ match fraction with
      | Some us => "." ++ six_digits us
      | None => ""
      end)%string.

(** What stands between date and time: the letter of ISO 8601 or the
    space of RFC 3339 and of [str(datetime)]. *)
Inductive separator : Type :=
| LetterT
| Space.

Definition separator_char (sep : separator) : ascii :=
  match sep with
  | LetterT => "T"
  | Space => " "
  end.

(** A well-formed ISO-8601 text: date, separator, time, designator. *)
Definition iso_text (year month day : Z) (sep : separator)
  (hour minute second : Z) (fraction : option Z) (z : designator) : string :=
  (date_text year month day
   ++ String (separator_char sep)
        (time_text hour minute second fraction ++ designator_text z))%string.

(** The microsecond field a fraction stands for. *)
Definition fraction_us (fraction : option Z) : Z :=
  match fraction with Some us => us | None => 0 end.

(** *** What [seed_data.py] asks of [datetime] *)

(** [datetime.now(zone)] for a [pytz] zone, at the UTC reading
    [utcnow]: [zone.fromutc] adds the offset in force at that reading
    and attaches it. *)
Definition now (zone : tz) (utcnow : Z) : result datetime :=
  let off := utcoffset_of_utc zone utcnow in
  rbind (add (mk_datetime utcnow None) off)
        (fun l => Return (mk_datetime (ticks l) (Some off))).

(** [dt.replace(hour=, minute=, second=, microsecond=)]: the date and
    the [tzinfo] are kept, the time of day is set. *)
Definition replace_time (dt : datetime) (hour minute second microsecond : Z)
  : result datetime :=
  if check_time_fields hour minute second microsecond
  then Return (mk_datetime
                 (ticks dt - ticks dt mod US_PER_DAY
                  + ((hour * 3600 + minute * 60 + second) * US_PER_SECOND
                     + microsecond))
                 (tzinfo dt))
  else Raise ValueError.

End pydatetime.

(* ================================================================== *)
(** ** app/config.py *)
(* ================================================================== *)

Module config.

(** [settings.timezone] names an IANA zone and [IST] is the [pytz]
    object built from it; the rule table of the zone is not part of
    the repository, so the code below takes [IST] as a parameter.
    [Asia_Kolkata] is the default zone with the rule in force since
    1945-10-15: UTC+05:30 throughout. *)
Definition Asia_Kolkata : pydatetime.tz :=
  pydatetime.mk_tz (fun _ => 19800 * pydatetime.US_PER_SECOND)
                   (fun _ => 19800 * pydatetime.US_PER_SECOND).

End config.

(* ================================================================== *)
(** ** app/models.py *)
(* ================================================================== *)

(** A [DateTime] column holds a naive UTC reading; rows carry its ticks. *)
Module FitnessClass.

Record t : Type := mk {
  id : Z;
  name : string;
  instructor : string;
  datetime_utc : Z;
  total_slots : Z
}.

End FitnessClass.

Module Booking.

Record t : Type := mk {
  id : Z;
  class_id : Z;
  client_name : string;
  client_email : string;
  booked_at : Z
}.

End Booking.

(* ================================================================== *)
(** ** app/database.py *)
(* ================================================================== *)

Module database.

(** What a session sees of the store: the two tables, rows in
    insertion order. *)
Record Session : Type := mk_Session {
  fitness_classes : list FitnessClass.t;
  bookings : list Booking.t
}.

(** The value SQLite gives an [INTEGER PRIMARY KEY] left unset: one
    more than the largest key in the table. *)
Definition next_id (ids : list Z) : Z := 1 + fold_right Z.max 0 ids.

End database.

Module models.
Import database.

(** The [bookings] relationship of a class: the rows whose foreign key
    is the id of the class. *)
Definition bookings_of (db : Session) (c : FitnessClass.t) : list Booking.t :=
  filter (fun b => Booking.class_id b =? FitnessClass.id c) (bookings db).

(** The [fitness_class] relationship of a booking. *)
Definition fitness_class_of (db : Session) (b : Booking.t)
  : option FitnessClass.t :=
  find (fun c => FitnessClass.id c =? Booking.class_id b) (fitness_classes db).

Definition available_slots (db : Session) (c : FitnessClass.t) : Z :=
  FitnessClass.total_slots c - Z.of_nat (List.length (bookings_of db c)).

Section WithZone.
Variable IST : pydatetime.tz.

(** The column value is naive, so the first branch of the source is
    the one taken: [pytz.UTC.localize], then [astimezone(IST)]. *)
Definition datetime_ist (c : FitnessClass.t)
  : pydatetime.result pydatetime.datetime :=
  let utc_dt :=
    pydatetime.localize_fixed 0
      (pydatetime.mk_datetime (FitnessClass.datetime_utc c) None) in
  pydatetime.astimezone IST utc_dt.

Definition booked_at_ist (b : Booking.t)
  : pydatetime.result pydatetime.datetime :=
  let utc_dt :=
    pydatetime.localize_fixed 0
      (pydatetime.mk_datetime (Booking.booked_at b) None) in
  pydatetime.astimezone IST utc_dt.

End WithZone.

End models.

(* ================================================================== *)
(** ** app/schemas.py *)
(* ================================================================== *)

Module schemas.

Record BookingCreate : Type := mk_BookingCreate {
  class_id : Z;
  client_name : string;
  client_email : string
}.

Fixpoint no_space (s : string) : bool :=
  match s with
  | EmptyString => true
  | String c s' => negb (pystr.isspace c) && no_space s'
  end.

(** The request body of POST /book as it arrives. *)
Record BookingRequest : Type := mk_BookingRequest {
  raw_class_id : Z;
  raw_client_name : string;
  raw_client_email : string
}.

Section WithEmailStr.

(** [EmailStr] is the validator of [pydantic]: it rejects the text
    ([None]) or returns the address it has read from it, which need
    not be the text itself (surrounding blanks are dropped, a
    [name <address>] form is reduced to the address, the domain is
    normalized).  It is not part of the repository and is a parameter
    here. *)
Variable EmailStr : string -> option string.

(** The body validated as a [BookingCreate]: [client_name] has [min_length=1] and
    [max_length=100]; [client_email] holds what [EmailStr] returns. *)
Definition validate_BookingCreate (body : BookingRequest)
  : option BookingCreate :=
  if (1 <=? pystr.len (raw_client_name body))
     && (pystr.len (raw_client_name body) <=? 100)
  then match EmailStr (raw_client_email body) with
       | Some address =>
           Some (mk_BookingCreate (raw_class_id body)
                                  (raw_client_name body) address)
       | None => None
       end
  else None.

End WithEmailStr.

(** What the routes rely on of [EmailStr]: an address it returns is
    not empty and holds no whitespace. *)
Definition EmailStr_guarantee (EmailStr : string -> option string) : Prop :=
  forall text address,
    EmailStr text = Some address ->
    pystr.is_empty address = false /\ no_space address = true.

Module FitnessClassResponse.

Record t : Type := mk {
  id : Z;
  name : string;
  instructor : string;
  datetime_ist : pydatetime.datetime;
  available_slots : Z;
  total_slots : Z
}.

End FitnessClassResponse.

Module BookingResponse.

Record t : Type := mk {
  id : Z;
  class_id : Z;
  client_name : string;
  client_email : string;
  booked_at_ist : pydatetime.datetime;
  fitness_class : FitnessClassResponse.t
}.

End BookingResponse.

Module ClassListResponse.

Record t : Type := mk {
  total : Z;
  classes : list FitnessClassResponse.t
}.

End ClassListResponse.

Module BookingListResponse.

Record t : Type := mk {
  total : Z;
  bookings : list BookingResponse.t
}.

End BookingListResponse.

(** The response models are built from the ORM rows
    ([from_attributes=True]): each field reads the attribute of its
    name, and the properties [datetime_ist], [available_slots] and
    [booked_at_ist] are computed at that moment, against the store as
    it then is.  An exception raised by a property ends the building. *)
Fixpoint build_all {A B} (build : A -> pydatetime.result B) (rows : list A)
  : pydatetime.result (list B) :=
  match rows with
  | [] => pydatetime.Return []
  | row :: rows' =>
      pydatetime.rbind (build row) (fun item =>
      pydatetime.rbind (build_all build rows') (fun items =>
      pydatetime.Return (item :: items)))
  end.

Section WithZone.
Variable IST : pydatetime.tz.

Definition FitnessClassResponse_from_attributes (db : database.Session)
  (c : FitnessClass.t) : pydatetime.result FitnessClassResponse.t :=
  pydatetime.rbind (models.datetime_ist IST c) (fun shown =>
  pydatetime.Return
    (FitnessClassResponse.mk (FitnessClass.id c) (FitnessClass.name c)
                             (FitnessClass.instructor c) shown
                             (models.available_slots db c)
                             (FitnessClass.total_slots c))).

(** A booking whose class is gone has [fitness_class] [None], which
    the nested model does not accept. *)
Definition BookingResponse_from_attributes (db : database.Session)
  (b : Booking.t) : pydatetime.result BookingResponse.t :=
  pydatetime.rbind (models.booked_at_ist IST b) (fun shown =>
  match models.fitness_class_of db b with
  | None => pydatetime.Raise pydatetime.ValueError
  | Some c =>
      pydatetime.rbind (FitnessClassResponse_from_attributes db c) (fun fc =>
      pydatetime.Return
        (BookingResponse.mk (Booking.id b) (Booking.class_id b)
                            (Booking.client_name b) (Booking.client_email b)
                            shown fc))
  end).

(** [ClassListResponse(total=len(classes), classes=classes)]. *)
Definition new_ClassListResponse (db : database.Session)
  (classes : list FitnessClass.t) : pydatetime.result ClassListResponse.t :=
  pydatetime.rbind (build_all (FitnessClassResponse_from_attributes db) classes)
    (fun items =>
       pydatetime.Return
         (ClassListResponse.mk (Z.of_nat (List.length classes)) items)).

(** [BookingListResponse(total=len(bookings), bookings=bookings)]. *)
Definition new_BookingListResponse (db : database.Session)
  (bookings : list Booking.t) : pydatetime.result BookingListResponse.t :=
  pydatetime.rbind (build_all (BookingResponse_from_attributes db) bookings)
    (fun items =>
       pydatetime.Return
         (BookingListResponse.mk (Z.of_nat (List.length bookings)) items)).

End WithZone.

End schemas.

(* ================================================================== *)
(** ** HTTP outcomes and the request monad *)
(* ================================================================== *)

Module http.
Import database.

(** The [detail] of an [HTTPException]: a message, or one of the two
    dictionaries of the booking route.  The [datetime] entry holds the
    display-zone value whose [isoformat()] text is sent. *)
Inductive Detail : Type :=
| Message (msg : string)
| FullDetail (error class_name : string) (datetime : pydatetime.datetime)
| DuplicateDetail (error class_name client_email : string).

Record HTTPException : Type := mk_HTTPException {
  status_code : Z;
  detail : Detail
}.

Definition HTTP_400_BAD_REQUEST : Z := 400.
Definition HTTP_404_NOT_FOUND : Z := 404.
Definition HTTP_409_CONFLICT : Z := 409.
Definition HTTP_422_UNPROCESSABLE_ENTITY : Z := 422.
Definition HTTP_500_INTERNAL_SERVER_ERROR : Z := 500.

Inductive Response (A : Type) : Type :=
| Ok (a : A)
| Err (e : HTTPException).
Arguments Ok {A} a.
Arguments Err {A} e.

(** A request handler reads and writes the store and answers with a
    value or an exception; the store it leaves is always explicit. *)
Definition Handler (A : Type) : Type := Session -> Response A * Session.

Definition ret {A} (a : A) : Handler A := fun db => (Ok a, db).

Definition raise {A} (code : Z) (d : Detail) : Handler A :=
  fun db => (Err (mk_HTTPException code d), db).

Definition bind {A B} (m : Handler A) (k : A -> Handler B) : Handler B :=
  fun db =>
    match m db with
    | (Ok a, db') => k a db'
    | (Err e, db') => (Err e, db')
    end.

(** A query: reads the store, leaves it as it is. *)
Definition query {A} (q : Session -> A) : Handler A :=
  fun db => (Ok (q db), db).

(** A write: the store it returns is the committed one. *)
Definition update {A} (w : Session -> A * Session) : Handler A :=
  fun db => let (a, db') := w db in (Ok a, db').

(** The outcome of a dependency, computed before the handler body. *)
Definition lift {A} (r : Response A) : Handler A := fun db => (r, db).

(** [try: body except Exception: raise HTTPException(code, detail)]
    around a body that reads the store. *)
Definition try_except {A} (body : Session -> pydatetime.result A)
  (code : Z) (d : Detail) : Handler A :=
  fun db =>
    match body db with
    | pydatetime.Return a => (Ok a, db)
    | pydatetime.Raise _ => (Err (mk_HTTPException code d), db)
    end.

(** What the catch-all handler of [app/main.py] answers when an
    exception that is not an [HTTPException] leaves a route. *)
Definition unexpected_error {A} : Handler A :=
  raise HTTP_500_INTERNAL_SERVER_ERROR
        (Message "An unexpected error occurred. Please try again later.").

(** A read of the store outside any [try]: an exception leaves the
    route and the catch-all handler answers. *)
Definition uncaught {A} (body : Session -> pydatetime.result A) : Handler A :=
  fun db =>
    match body db with
    | pydatetime.Return a => (Ok a, db)
    | pydatetime.Raise _ => unexpected_error db
    end.

End http.

Declare Scope handler_scope.
Delimit Scope handler_scope with handler.
Notation "x <- m ;; k" := (http.bind m (fun x => k))
  (at level 61, m at next level, right associativity) : handler_scope.

(* ================================================================== *)
(** ** SQL fragments used by the queries *)
(* ================================================================== *)

Module sql.

Section OrderBy.
Context {A : Type}.
Variable key : A -> Z.

Fixpoint insert_by (x : A) (l : list A) : list A :=
  match l with
  | [] => [x]
  | y :: l' => if key x <=? key y then x :: l else y :: insert_by x l'
  end.

(** [ORDER BY key]: ascending; rows with equal keys keep table order. *)
Definition order_by (l : list A) : list A := fold_right insert_by [] l.

End OrderBy.

(** [ORDER BY key DESC]. *)
Definition order_by_desc {A} (key : A -> Z) (l : list A) : list A :=
  order_by (fun x => - key x) l.

(** [OFFSET n]: a negative [n] skips nothing. *)
Definition offset {A} (n : Z) (l : list A) : list A := skipn (Z.to_nat n) l.

(** [LIMIT n]: a negative [n] is no limit. *)
Definition limit {A} (n : Z) (l : list A) : list A :=
  if n <? 0 then l else firstn (Z.to_nat n) l.

(** An integer of a statement is bound as an SQLite [INTEGER], 64 bits
    signed; the driver raises [OverflowError] for a Python [int]
    outside that range, and the statement is not run. *)
Definition INT64_MIN : Z := -9223372036854775808.
Definition INT64_MAX : Z := 9223372036854775807.

Definition bind_int (n : Z) : pydatetime.result Z :=
  if (INT64_MIN <=? n) && (n <=? INT64_MAX) then pydatetime.Return n
  else pydatetime.Raise pydatetime.OverflowError.

End sql.

(* ================================================================== *)
(** ** app/crud.py *)
(* ================================================================== *)

Module crud.
Import database.

(** [now] is the reading of [datetime.utcnow()] the function takes;
    [skip] and [limit] are bound as integers of the statement. *)
Definition get_upcoming_classes (now : Z) (db : Session) (skip limit : Z)
  : pydatetime.result (list FitnessClass.t) :=
  let current_time_utc := now in
  pydatetime.rbind (sql.bind_int limit) (fun limit =>
  pydatetime.rbind (sql.bind_int skip) (fun skip =>
  pydatetime.Return
    (sql.limit limit
       (sql.offset skip
          (sql.order_by FitnessClass.datetime_utc
             (filter (fun c => FitnessClass.datetime_utc c >? current_time_utc)
                     (fitness_classes db))))))).

Definition get_class_by_id (db : Session) (class_id : Z)
  : pydatetime.result (option FitnessClass.t) :=
  pydatetime.rbind (sql.bind_int class_id) (fun class_id =>
  pydatetime.Return
    (find (fun c => FitnessClass.id c =? class_id) (fitness_classes db))).

(** [stamp] is the reading of [datetime.utcnow] taken for the
    [booked_at] default when the row is flushed.  Nothing is checked
    here: the row is added and committed. *)
Definition create_booking (stamp : Z) (booking : schemas.BookingCreate)
  (db : Session) : Booking.t * Session :=
  let db_booking :=
    Booking.mk (next_id (map Booking.id (bookings db)))
               (schemas.class_id booking)
               (schemas.client_name booking)
               (schemas.client_email booking)
               stamp in
  (db_booking,
   mk_Session (fitness_classes db) (bookings db ++ [db_booking])).

Definition get_bookings_by_email (db : Session) (email : string)
  : list Booking.t :=
  sql.order_by_desc Booking.booked_at
    (filter (fun b => String.eqb (Booking.client_email b) email)
            (bookings db)).

Definition check_existing_booking (db : Session) (class_id : Z)
  (email : string) : bool :=
  let existing :=
    find (fun b => (Booking.class_id b =? class_id)
                   && String.eqb (Booking.client_email b) email)
         (bookings db) in
  match existing with Some _ => true | None => false end.

End crud.

(* ================================================================== *)
(** ** app/api/dependencies.py *)
(* ================================================================== *)

Module dependencies.
Import http.

Record pagination : Type := mk_pagination { skip : Z; limit : Z }.

(** What the [RequestValidationError] handler of [app/main.py] answers. *)
Definition validation_error {A} : Response A :=
  Err (mk_HTTPException HTTP_422_UNPROCESSABLE_ENTITY
                        (Message "Validation error")).

(** [skip: int = Query(0, ge=0)], [limit: int = Query(10, ge=1, le=100)];
    an absent parameter takes its default. *)
Definition get_pagination_params (skip limit : option Z)
  : Response pagination :=
  let skip := match skip with Some n => n | None => 0 end in
  let limit := match limit with Some n => n | None => 10 end in
  if negb (0 <=? skip) then validation_error
  else if negb ((1 <=? limit) && (limit <=? 100)) then validation_error
  else Ok (mk_pagination skip limit).

(** [email: str = Query(...)]: [None] is a request without the
    parameter, which the framework rejects before the body runs. *)
Definition validate_email_query (email : option string) : Response string :=
  match email with
  | None => validation_error
  | Some email =>
      if pystr.is_empty email || (pystr.len (pystr.strip email) =? 0)
      then Err (mk_HTTPException HTTP_400_BAD_REQUEST
                  (Message "Email parameter is required and cannot be empty"))
      else Ok (pystr.lower (pystr.strip email))
  end.

End dependencies.

(* ================================================================== *)
(** ** app/api/routes.py *)
(* ================================================================== *)

Module routes.
Import database http.
Local Open Scope handler_scope.

Section WithZone.
Variable IST : pydatetime.tz.

(** GET /classes.  [now] is the clock reading of the query.  The
    response model is built inside the [try], so an exception of the
    query or of a property of a listed class gives the 500 of the
    [except] branch. *)
Definition get_classes (now : Z) (skip limit : option Z)
  : Handler schemas.ClassListResponse.t :=
  pagination <- lift (dependencies.get_pagination_params skip limit) ;;
  try_except
    (fun db =>
       pydatetime.rbind
         (crud.get_upcoming_classes now db
            (dependencies.skip pagination) (dependencies.limit pagination))
         (fun classes => schemas.new_ClassListResponse IST db classes))
    HTTP_500_INTERNAL_SERVER_ERROR
    (Message "An error occurred while fetching classes").

(** The function of POST /book: what it returns is the ORM row, and an
    [HTTPException] it raises is the answer; an exception of another
    kind leaves it outside the [try] of step 5 and is answered by the
    catch-all handler.  [now] is the clock reading of step 2 and
    [stamp] the reading stored in [booked_at].  The response model is
    built by the framework from the returned row: see
    [main.post_book]. *)
Definition create_booking (now stamp : Z)
  (booking_data : schemas.BookingCreate) : Handler Booking.t :=
  (* Step 1: Validate class exists *)
  found <- uncaught (fun db =>
             crud.get_class_by_id db (schemas.class_id booking_data)) ;;
  match found with
  | None =>
      raise HTTP_404_NOT_FOUND
        (Message ("Class with ID "
                  ++ pystr.str_of_int (schemas.class_id booking_data)
                  ++ " not found")%string)
  | Some fitness_class =>
      (* Step 2: Check if class is upcoming (not in the past) *)
      if FitnessClass.datetime_utc fitness_class <? now then
        raise HTTP_400_BAD_REQUEST
          (Message "Cannot book a class that has already started or ended")
      else
        (* Step 3: Check available slots *)
        slots <- query (fun db => models.available_slots db fitness_class) ;;
        if slots <=? 0 then
          match models.datetime_ist IST fitness_class with
          | pydatetime.Return shown =>
              raise HTTP_409_CONFLICT
                (FullDetail "Class is fully booked"
                            (FitnessClass.name fitness_class) shown)
          | pydatetime.Raise _ => unexpected_error
          end
        else
          (* Step 4: Check for duplicate booking *)
          let email_normalized :=
            pystr.lower (schemas.client_email booking_data) in
          existing <- query (fun db =>
                        crud.check_existing_booking db
                          (schemas.class_id booking_data) email_normalized) ;;
          if (existing : bool) then
            raise HTTP_409_CONFLICT
              (DuplicateDetail "You have already booked this class"
                               (FitnessClass.name fitness_class)
                               email_normalized)
          else
            (* Step 5: Create the booking; the insertion of the model
               cannot raise, so the [except] branch is not reached *)
            let booking_data :=
              schemas.mk_BookingCreate (schemas.class_id booking_data)
                                       (schemas.client_name booking_data)
                                       email_normalized in
            new_booking <- update (crud.create_booking stamp booking_data) ;;
            ret new_booking
  end.

(** GET /bookings: the dependency has stripped and lowered the
    parameter; the route lowers it again.  The response model is built
    inside the [try], so an exception of a property of a listed
    booking or of its class gives the 500 of the [except] branch. *)
Definition get_bookings (email : option string)
  : Handler schemas.BookingListResponse.t :=
  email <- lift (dependencies.validate_email_query email) ;;
  let email_normalized := pystr.lower email in
  try_except
    (fun db =>
       let bookings := crud.get_bookings_by_email db email_normalized in
       schemas.new_BookingListResponse IST db bookings)
    HTTP_500_INTERNAL_SERVER_ERROR
    (Message "An error occurred while fetching bookings").

End WithZone.


End routes.

(* ================================================================== *)
(** ** app/main.py: the routes as the application serves them *)
(* ================================================================== *)

Module main.
Import database http.
Local Open Scope handler_scope.

Section WithZone.
Variable IST : pydatetime.tz.

(** [response_model=schemas.BookingResponse]: the framework builds the
    answer from the row the function has returned, after the commit;
    an exception there is answered by the catch-all handler. *)
Definition book (now stamp : Z) (booking_data : schemas.BookingCreate)
  : Handler schemas.BookingResponse.t :=
  new_booking <- routes.create_booking IST now stamp booking_data ;;
  uncaught (fun db =>
    schemas.BookingResponse_from_attributes IST db new_booking).

(** POST /book: the body is validated against [BookingCreate] first,
    and a body it rejects is answered by the validation handler. *)
Definition post_book (EmailStr : string -> option string) (now stamp : Z)
  (body : schemas.BookingRequest) : Handler schemas.BookingResponse.t :=
  match schemas.validate_BookingCreate EmailStr body with
  | None => lift dependencies.validation_error
  | Some booking_data => book now stamp booking_data
  end.


End WithZone.

End main.

(* ================================================================== *)
(** ** app/utils/timezone.py *)
(* ================================================================== *)

Module timezone.
Import pydatetime.

Section WithZone.
Variable IST : tz.

Definition datetime_to_ist (dt : datetime) : result datetime :=
  let dt := match tzinfo dt with
            | None => localize_fixed 0 dt
            | Some _ => dt
            end in
  astimezone IST dt.

Definition ist_to_utc (dt : datetime) : result datetime :=
  rbind (match tzinfo dt with
         | None => localize IST dt
         | Some _ => Return dt
         end)
        astimezone_utc.

(** [datetime.fromisoformat] is the parser of the interpreter the
    application runs on. *)
Variable fromisoformat : string -> result datetime.

Definition parse_ist_string (dt_string : string) : result datetime :=
  rbind (fromisoformat (pystr.replace "Z" "+00:00" dt_string)) (fun dt =>
  rbind (match tzinfo dt with
         | None => localize IST dt
         | Some _ => Return dt
         end)
        astimezone_utc).

End WithZone.

End timezone.


(* ================================================================== *)
(** ** seed_data.py *)
(* ================================================================== *)

Module seed_data.
Import database pydatetime.

(** One dictionary of [sample_classes]. *)
Record class_data : Type := mk_class_data {
  name : string;
  instructor : string;
  datetime_utc : datetime;
  total_slots : Z
}.

(** [db.add] of the [FitnessClass] built from one dictionary, flushed:
    the row takes the next id of the table, and the [DateTime] column
    keeps the reading of the value without its zone. *)
Definition add_class (table : list FitnessClass.t) (c : class_data)
  : list FitnessClass.t :=
  table ++ [FitnessClass.mk (next_id (map FitnessClass.id table))
                            (name c) (instructor c)
                            (ticks (datetime_utc c)) (total_slots c)].

Section WithZone.
Variable IST : tz.

(** [ist_to_utc(now_ist.replace(hour=h, minute=m, second=0,
    microsecond=0) + timedelta(days=d))]. *)
Definition at_time (now_ist : datetime) (hour minute days : Z)
  : result datetime :=
  rbind (replace_time now_ist hour minute 0 0) (fun t =>
  rbind (add t (days * US_PER_DAY)) (fun t =>
  timezone.ist_to_utc IST t)).

(** The list literal of the script; its entries are computed in order
    and the first exception ends the computation. *)
Definition sample_classes (now_ist : datetime) : result (list class_data) :=
  rbind (at_time now_ist 6 30 1) (fun t1 =>
  rbind (at_time now_ist 7 30 1) (fun t2 =>
  rbind (at_time now_ist 18 0 2) (fun t3 =>
  rbind (at_time now_ist 19 30 2) (fun t4 =>
  rbind (at_time now_ist 8 0 3) (fun t5 =>
  rbind (at_time now_ist 17 0 3) (fun t6 =>
  Return
    [mk_class_data "Morning Yoga" "Priya Sharma" t1 20;
     mk_class_data "HIIT Workout" "Raj Kumar" t2 15;
     mk_class_data "Evening Zumba" "Anita Desai" t3 25;
     mk_class_data "Power Yoga" "Priya Sharma" t4 20;
     mk_class_data "Weekend HIIT" "Raj Kumar" t5 30;
     mk_class_data "Relaxation Yoga" "Priya Sharma" t6 25])))))).

(** [create_sample_classes()] at the UTC clock reading [utcnow].  The
    bulk delete of the class table is committed first and leaves the
    booking table alone; an exception raised afterwards is caught and
    rolls back to that state; otherwise the six classes are added and
    committed. *)
Definition create_sample_classes (utcnow : Z) (db : Session) : Session :=
  let cleared := mk_Session [] (bookings db) in
  match rbind (now IST utcnow) sample_classes with
  | Return rows => mk_Session (fold_left add_class rows []) (bookings db)
  | Raise _ => cleared
  end.

End WithZone.

End seed_data.
(* ================================================================== *)
(** ** Vocabulary of the properties *)
(* ================================================================== *)

Import database http.

(** The states sequential runs of POST /book lead to from [init]; each
    run has its own clock readings and request body. *)
Inductive reachable (IST : pydatetime.tz) (init : Session) : Session -> Prop :=
| reach_init : reachable IST init init
| reach_book db now stamp booking_data :
    reachable IST init db ->
    reachable IST init
      (snd (routes.create_booking IST now stamp booking_data db)).

(** The primary key of the class table. *)
Definition class_ids_unique (db : Session) : Prop :=
  NoDup (map FitnessClass.id (fitness_classes db)).

(** Number of bookings that reference the class with id [cid]. *)
Definition booking_count (db : Session) (cid : Z) : Z :=
  Z.of_nat (List.length (filter (fun b => Booking.class_id b =? cid)
                                (bookings db))).

Definition capacity_ok (db : Session) : Prop :=
  forall c, In c (fitness_classes db) ->
    booking_count db (FitnessClass.id c) <= FitnessClass.total_slots c.

(** The row the workflow inserts for a request. *)
Definition inserted_row (stamp : Z) (booking_data : schemas.BookingCreate)
  (db : Session) : Booking.t :=
  Booking.mk (next_id (map Booking.id (bookings db)))
             (schemas.class_id booking_data)
             (schemas.client_name booking_data)
             (pystr.lower (schemas.client_email booking_data))
             stamp.

Definition with_row (db : Session) (b : Booking.t) : Session :=
  mk_Session (fitness_classes db) (bookings db ++ [b]).

(** The four gates of the workflow, all passed. *)
Definition gates_pass (now : Z) (booking_data : schemas.BookingCreate)
  (db : Session) (c : FitnessClass.t) : Prop :=
  crud.get_class_by_id db (schemas.class_id booking_data)
  = pydatetime.Return (Some c)
  /\ now <= FitnessClass.datetime_utc c
  /\ 0 < models.available_slots db c
  /\ crud.check_existing_booking db (schemas.class_id booking_data)
       (pystr.lower (schemas.client_email booking_data)) = false.

(** *** Sample data, after the fixtures of [tests/test_api.py] *)

Module sample.

(** The clock of the examples: 2024-01-05T10:00:00 UTC. *)
Definition now : Z := pydatetime.wall_ticks 2024 1 5 10 0 0 0.

Definition yoga : FitnessClass.t :=
  FitnessClass.mk 1 "Test Yoga" "Test Instructor"
                  (pydatetime.wall_ticks 2024 1 6 10 0 0 0) 10.

Definition hiit : FitnessClass.t :=
  FitnessClass.mk 2 "Test HIIT" "Test Trainer"
                  (pydatetime.wall_ticks 2024 1 7 10 0 0 0) 1.

Definition db : Session := mk_Session [yoga; hiit] [].

(** The two classes as the routes show them in Asia/Kolkata, with the
    number of free slots of the moment. *)
Definition yoga_shown (available_slots : Z) : schemas.FitnessClassResponse.t :=
  schemas.FitnessClassResponse.mk 1 "Test Yoga" "Test Instructor"
    (pydatetime.mk_datetime (pydatetime.wall_ticks 2024 1 6 15 30 0 0)
                            (Some (19800 * pydatetime.US_PER_SECOND)))
    available_slots 10.

Definition hiit_shown (available_slots : Z) : schemas.FitnessClassResponse.t :=
  schemas.FitnessClassResponse.mk 2 "Test HIIT" "Test Trainer"
    (pydatetime.mk_datetime (pydatetime.wall_ticks 2024 1 7 15 30 0 0)
                            (Some (19800 * pydatetime.US_PER_SECOND)))
    available_slots 1.

Definition john : schemas.BookingCreate :=
  schemas.mk_BookingCreate 1 "John Doe" "John@Example.com".

Definition first_user : schemas.BookingCreate :=
  schemas.mk_BookingCreate 2 "First User" "first@example.com".

Definition second_user : schemas.BookingCreate :=
  schemas.mk_BookingCreate 2 "Second User" "second@example.com".

(** POST /book on the sample clock, one second between the check and
    the stored time stamp. *)
Definition book (booking_data : schemas.BookingCreate) (s : Session)
  : Response Booking.t * Session :=
  routes.create_booking config.Asia_Kolkata now (now + 1000000) booking_data s.

(** A class in the last hours of [datetime]: 9999-12-31T20:00:00 UTC
    is past [datetime.max] on the clocks of Asia/Kolkata. *)
Definition last_night : FitnessClass.t :=
  FitnessClass.mk 3 "Last Night" "Test Instructor"
                  (pydatetime.wall_ticks 9999 12 31 20 0 0 0) 10.

Definition late_db : Session := mk_Session [yoga; hiit; last_night] [].

(** A validator for the examples; the theorems are stated for every
    validator with [schemas.EmailStr_guarantee] and use this one only
    to show an instance.  It reads plain ASCII addresses the way
    [EmailStr] does: blanks around the text are dropped, a text
    [name <address>] is reduced to the address, the address is
    [local@domain] with no empty part between dots, and the domain is
    returned in lower case.  It knows nothing of the domains the
    library reserves. *)
Fixpoint all_chars (p : ascii -> bool) (s : string) : bool :=
  match s with
  | EmptyString => true
  | String c s' => p c && all_chars p s'
  end.

Definition is_alnum (c : ascii) : bool :=
  let n := pystr.code c in
  ((48 <=? n) && (n <=? 57)) || ((65 <=? n) && (n <=? 90))
  || ((97 <=? n) && (n <=? 122)).

Definition name_char (c : ascii) : bool :=
  is_alnum c || Ascii.eqb c "_" || Ascii.eqb c " ".

Definition local_char (c : ascii) : bool :=
  is_alnum c
  || match pydatetime.find_char c "!#$%&'*+/=?^_`{|}~.-" with
     | Some _ => true
     | None => false
     end.

Definition domain_char (c : ascii) : bool :=
  is_alnum c || Ascii.eqb c "-" || Ascii.eqb c ".".

(** No part between dots is empty; [at_start] says that a part begins
    here. *)
Fixpoint parts_ok (at_start : bool) (s : string) : bool :=
  match s with
  | EmptyString => negb at_start
  | String c s' =>
      if Ascii.eqb c "." then negb at_start && parts_ok true s'
      else parts_ok false s'
  end.

Definition has_char (c : ascii) (s : string) : bool :=
  match pydatetime.find_char c s with Some _ => true | None => false end.

(** The address of a text [name <address>]. *)
Definition angle_address (text : string) : option string :=
  match pydatetime.find_char "<" text with
  | Some i =>
      let n := String.length text in
      if all_chars name_char (substring 0 i text)
         && String.eqb (substring (n - 1) 1 text) ">"
         && (i + 2 <? n)%nat
      then Some (substring (S i) (n - i - 2) text)
      else None
  | None => None
  end.

Definition EmailStr (text : string) : option string :=
  let text := pystr.strip text in
  let email :=
    pystr.strip (match angle_address text with
                 | Some address => address
                 | None => text
                 end) in
  match pydatetime.find_char "@" email with
  | Some i =>
      let local := substring 0 i email in
      let domain := pydatetime.slice_from (S i) email in
      let address := (local ++ "@" ++ pystr.lower domain)%string in
      if all_chars local_char local && parts_ok true local
         && all_chars domain_char domain && parts_ok true domain
         && has_char "." domain
         && negb (pystr.is_empty address) && schemas.no_space address
      then Some address
      else None
  | None => None
  end.


Definition padded_body : schemas.BookingRequest :=
  schemas.mk_BookingRequest 1 "Ann" " Ann@Example.com ".


End sample.

(** *** One booking per class and e-mail *)

(** [b] is a booking of class [cid] under the normalized form of [e]. *)
Definition same_pair (cid : Z) (e : string) (b : Booking.t) : bool :=
  (Booking.class_id b =? cid)
  && String.eqb (pystr.lower (Booking.client_email b)) (pystr.lower e).

Definition pair_count (db : Session) (cid : Z) (e : string) : nat :=
  List.length (filter (same_pair cid e) (bookings db)).

Definition pairs_unique (db : Session) : Prop :=
  forall cid e, (pair_count db cid e <= 1)%nat.

(** Every stored e-mail is in lower case. *)
Definition emails_normalized (db : Session) : Prop :=
  forall b, In b (bookings db) ->
    pystr.lower (Booking.client_email b) = Booking.client_email b.

(** The answer of the duplicate gate. *)
Definition already_booked (c : FitnessClass.t) (email_normalized : string)
  : HTTPException :=
  mk_HTTPException HTTP_409_CONFLICT
    (DuplicateDetail "You have already booked this class"
                     (FitnessClass.name c) email_normalized).

(** The answer of the capacity gate. *)
Definition fully_booked (c : FitnessClass.t) (shown : pydatetime.datetime)
  : HTTPException :=
  mk_HTTPException HTTP_409_CONFLICT
    (FullDetail "Class is fully booked" (FitnessClass.name c) shown).

(** The answer of the schedule gate. *)
Definition already_started : HTTPException :=
  mk_HTTPException HTTP_400_BAD_REQUEST
    (Message "Cannot book a class that has already started or ended").

(** The second half of the duplicate rule as the specification words
    it: once a request is booked, the same request sent again is
    answered "already booked" and inserts nothing. *)
Definition second_attempt_already_booked (IST : pydatetime.tz) (db : Session)
  (now stamp now' stamp' : Z) (booking_data : schemas.BookingCreate) : Prop :=
  forall b db1,
    routes.create_booking IST now stamp booking_data db = (Ok b, db1) ->
    exists c,
      routes.create_booking IST now' stamp' booking_data db1
      = (Err (already_booked c
                (pystr.lower (schemas.client_email booking_data))), db1).

(** *** Listings *)

(** Order of the rows by a key. *)
Definition le_by {A} (key : A -> Z) (a b : A) : Prop := key a <= key b.

(** [a] is scheduled no later than [b]. *)
Definition by_time : FitnessClass.t -> FitnessClass.t -> Prop :=
  le_by FitnessClass.datetime_utc.

(** The classes of the store scheduled strictly after [now]. *)
Definition upcoming (now : Z) (db : Session) : list FitnessClass.t :=
  filter (fun c => now <? FitnessClass.datetime_utc c) (fitness_classes db).

(** The rows the statement of [crud.get_upcoming_classes] selects. *)
Definition window (now : Z) (db : Session) (skip limit : Z)
  : list FitnessClass.t :=
  sql.limit limit
    (sql.offset skip
       (sql.order_by FitnessClass.datetime_utc
          (filter (fun c => FitnessClass.datetime_utc c >? now)
                  (fitness_classes db)))).

(** The answers of the [except] branches of the two list routes. *)
Definition classes_not_fetched : HTTPException :=
  mk_HTTPException HTTP_500_INTERNAL_SERVER_ERROR
    (Message "An error occurred while fetching classes").

Definition bookings_not_fetched : HTTPException :=
  mk_HTTPException HTTP_500_INTERNAL_SERVER_ERROR
    (Message "An error occurred while fetching bookings").

(** The answer of the catch-all handler. *)
Definition unexpected : HTTPException :=
  mk_HTTPException HTTP_500_INTERNAL_SERVER_ERROR
    (Message "An unexpected error occurred. Please try again later.").

(** A value was computed, no exception raised. *)
Definition shown {A} (r : pydatetime.result A) : bool :=
  match r with pydatetime.Return _ => true | pydatetime.Raise _ => false end.

(** The answer of GET /bookings to an empty or blank parameter. *)
Definition email_required : HTTPException :=
  mk_HTTPException HTTP_400_BAD_REQUEST
    (Message "Email parameter is required and cannot be empty").

(** The first half of the GET /bookings rule as the specification
    words it: a missing, empty or blank [email] is answered 422. *)
Definition missing_or_blank_is_422 (IST : pydatetime.tz)
  (email : option string) (db : Session) : Prop :=
  (email = None \/ exists s, email = Some s /\ pystr.strip s = "") ->
  exists d,
    fst (routes.get_bookings IST email db)
    = Err (mk_HTTPException HTTP_422_UNPROCESSABLE_ENTITY d).

(** [s] does not begin with a blank. *)
Definition starts_clean (s : string) : bool :=
  match s with
  | EmptyString => true
  | String c _ => negb (pystr.isspace c)
  end.

(** The bookings stored under [email] can all be shown: the response
    model of each is built without an exception. *)
Definition bookings_can_be_shown (IST : pydatetime.tz) (db : Session)
  (email : string) : bool :=
  forallb (fun b => shown (schemas.BookingResponse_from_attributes IST db b))
          (crud.get_bookings_by_email db email).


(** The last part of the stripping rule as the specification words
    it: what is stored at booking creation is the address of the body
    in lower case, blanks included. *)
Definition stored_email_is_not_stripped (EmailStr : string -> option string)
  (IST : pydatetime.tz) (now stamp : Z) (body : schemas.BookingRequest)
  (db : Session) : Prop :=
  forall booking_data b db1,
    schemas.validate_BookingCreate EmailStr body = Some booking_data ->
    routes.create_booking IST now stamp booking_data db = (Ok b, db1) ->
    Booking.client_email b = pystr.lower (schemas.raw_client_email body).

(** *** Parsing *)

(** The UTC value of an absolute instant, when [datetime] can hold it. *)
Definition utc_instant (t : Z) : pydatetime.result pydatetime.datetime :=
  if pydatetime.in_range t
  then pydatetime.Return (pydatetime.mk_datetime t (Some 0))
  else pydatetime.Raise pydatetime.OverflowError.

(** What the text reads as once [Z] is spelled out. *)
Definition spelled_out (z : pydatetime.designator) : pydatetime.designator :=
  match z with
  | pydatetime.Zulu => pydatetime.Offset false 0 0
  | _ => z
  end.

(** *** Vocabulary of the further properties *)

(** [a] was booked no earlier than [b]. *)
Definition newest_first (a b : Booking.t) : Prop :=
  Booking.booked_at b <= Booking.booked_at a.

(** Every booking points at a class of the store. *)
Definition bookings_reference_classes (db : Session) : Prop :=
  forall b, In b (bookings db) ->
    exists c, In c (fitness_classes db)
              /\ FitnessClass.id c = Booking.class_id b.

(** The primary key of the booking table. *)
Definition booking_ids_unique (db : Session) : Prop :=
  NoDup (map Booking.id (bookings db)).

(** The answer to a request for a class that is not in the store. *)
Definition class_not_found (class_id : Z) : HTTPException :=
  mk_HTTPException HTTP_404_NOT_FOUND
    (Message ("Class with ID " ++ pystr.str_of_int class_id
              ++ " not found")%string).

(** The absolute instant an aware value denotes: its reading minus
    its offset. *)
Definition instant (d : pydatetime.datetime) : option Z :=
  match pydatetime.tzinfo d with
  | Some offset => Some (pydatetime.ticks d - offset)
  | None => None
  end.

(** At the wall-clock reading [wall] the two look-ups of the zone
    agree: the offset [localize] picks is the one [fromutc] picks for
    the UTC reading it leads to.  This holds away from the changes of
    rule of a zone. *)
Definition zone_consistent (zone : pydatetime.tz) (wall : Z) : Prop :=
  pydatetime.utcoffset_of_utc zone
    (wall - pydatetime.utcoffset_of_wall zone wall)
  = pydatetime.utcoffset_of_wall zone wall.

(** One POST /book as it arrives: the two clock readings of the run
    and the body. *)
Record request : Type := mk_request {
  clock : Z;
  stamp : Z;
  body : schemas.BookingCreate
}.

(** The requests served one after the other by POST /book: the
    answers in order and the store at the end. *)
Fixpoint book_all (IST : pydatetime.tz) (requests : list request)
  (db : Session) : list (Response schemas.BookingResponse.t) * Session :=
  match requests with
  | [] => ([], db)
  | r :: rest =>
      let (answer, db1) := main.book IST (clock r) (stamp r) (body r) db in
      let (answers, db2) := book_all IST rest db1 in
      (answer :: answers, db2)
  end.

Definition is_ok {A} (r : Response A) : bool :=
  match r with Ok _ => true | Err _ => false end.

(** The lower-cased e-mail of a request. *)
Definition normalized_email (r : request) : string :=
  pystr.lower (schemas.client_email (body r)).

(* ================================================================== *)
(** ** The create-booking workflow, case by case *)
(* ================================================================== *)

Lemma get_class_by_id_return db class_id found :
  crud.get_class_by_id db class_id = pydatetime.Return found ->
  found = find (fun c => FitnessClass.id c =? class_id) (fitness_classes db)
  /\ sql.INT64_MIN <= class_id <= sql.INT64_MAX.
Proof.
  unfold crud.get_class_by_id, sql.bind_int.
  destruct (Z.leb_spec sql.INT64_MIN class_id);
    destruct (Z.leb_spec class_id sql.INT64_MAX); simpl; try discriminate.
  intros [= <-]. split; [reflexivity|lia].
Qed.

Lemma get_class_by_id_in_range db class_id :
  sql.INT64_MIN <= class_id <= sql.INT64_MAX ->
  crud.get_class_by_id db class_id
  = pydatetime.Return
      (find (fun c => FitnessClass.id c =? class_id) (fitness_classes db)).
Proof.
  intros [Hlo Hhi]. unfold crud.get_class_by_id, sql.bind_int.
  apply Z.leb_le in Hlo, Hhi. now rewrite Hlo, Hhi.
Qed.


Lemma get_class_by_id_found db class_id c :
  crud.get_class_by_id db class_id = pydatetime.Return (Some c) ->
  In c (fitness_classes db) /\ FitnessClass.id c = class_id.
Proof.
  intros H. apply get_class_by_id_return in H as [H _].
  symmetry in H. apply find_some in H as [Hin Hid].
  split; [exact Hin|now apply Z.eqb_eq].
Qed.

Section Workflow.
Variable IST : pydatetime.tz.

Lemma create_booking_cases now stamp booking_data db :
  (exists e, routes.create_booking IST now stamp booking_data db = (Err e, db))
  \/ (exists c, gates_pass now booking_data db c
        /\ routes.create_booking IST now stamp booking_data db
           = (Ok (inserted_row stamp booking_data db),
              with_row db (inserted_row stamp booking_data db))).
Proof.
  unfold routes.create_booking, gates_pass, bind, query, raise, update, ret,
    uncaught.
  destruct (crud.get_class_by_id db (schemas.class_id booking_data))
    as [[c|]|err] eqn:Hc; [|left; eauto|left; unfold unexpected_error, raise; eauto].
  destruct (Z.ltb_spec (FitnessClass.datetime_utc c) now); [left; eauto|].
  destruct (Z.leb_spec (models.available_slots db c) 0).
  { left. unfold unexpected_error, raise.
    destruct (models.datetime_ist IST c); eauto. }
  destruct (crud.check_existing_booking db (schemas.class_id booking_data)
              (pystr.lower (schemas.client_email booking_data))) eqn:Hd;
    [left; eauto|].
  right. exists c. repeat split; auto.
Qed.

Lemma create_booking_classes now stamp booking_data db :
  fitness_classes (snd (routes.create_booking IST now stamp booking_data db))
  = fitness_classes db.
Proof.
  destruct (create_booking_cases now stamp booking_data db)
    as [[e ->]|[c [_ ->]]]; reflexivity.
Qed.

Lemma reachable_classes init db :
  reachable IST init db -> fitness_classes db = fitness_classes init.
Proof.
  induction 1; [reflexivity|].
  now rewrite create_booking_classes.
Qed.

(** Rows are only ever added, at the end of the table. *)
Lemma reachable_bookings_grow init db :
  reachable IST init db -> exists more, bookings db = bookings init ++ more.
Proof.
  induction 1 as [|db now stamp bd _ [more IH]].
  - exists []. now rewrite app_nil_r.
  - destruct (create_booking_cases now stamp bd db) as [[e ->]|[c [_ ->]]];
      simpl.
    + now exists more.
    + exists (more ++ [inserted_row stamp bd db]).
      now rewrite IH, app_assoc.
Qed.

End Workflow.

Lemma find_class_unique (l : list FitnessClass.t) c k :
  NoDup (map FitnessClass.id l) -> In c l -> FitnessClass.id c = k ->
  find (fun x => FitnessClass.id x =? k) l = Some c.
Proof.
  induction l as [|x l IH]; simpl; [tauto|].
  intros Hnd Hin Hk. inversion Hnd as [|? ? Hx Hnd']; subst.
  destruct Hin as [->|Hin].
  - now rewrite Z.eqb_refl.
  - destruct (Z.eqb_spec (FitnessClass.id x) (FitnessClass.id c)) as [E|_].
    + exfalso. apply Hx. rewrite E. now apply in_map.
    + now apply IH.
Qed.

Lemma booking_count_with_row db b cid :
  booking_count (with_row db b) cid
  = booking_count db cid + (if Booking.class_id b =? cid then 1 else 0).
Proof.
  unfold booking_count, with_row. simpl.
  rewrite filter_app, length_app. simpl.
  destruct (Booking.class_id b =? cid); simpl; lia.
Qed.

Lemma available_slots_count db c :
  models.available_slots db c
  = FitnessClass.total_slots c - booking_count db (FitnessClass.id c).
Proof. reflexivity. Qed.

Lemma capacity_step IST now stamp booking_data db :
  class_ids_unique db -> capacity_ok db ->
  capacity_ok (snd (routes.create_booking IST now stamp booking_data db)).
Proof.
  intros Hu Hc.
  destruct (create_booking_cases IST now stamp booking_data db)
    as [[e ->]|[c [(Hf & _ & Hs & _) ->]]]; [exact Hc|].
  simpl. intros c' Hin. simpl in Hin.
  rewrite booking_count_with_row. simpl.
  specialize (Hc c' Hin).
  destruct (Z.eqb_spec (schemas.class_id booking_data) (FitnessClass.id c'))
    as [E|_]; [|lia].
  apply get_class_by_id_return in Hf as [Hf _].
  rewrite (find_class_unique _ c' _ Hu Hin (eq_sym E)) in Hf.
  injection Hf as <-. rewrite available_slots_count in Hs. lia.
Qed.

(* ================================================================== *)
(** ** Facts about [str.lower] and [str.strip] *)
(* ================================================================== *)

Ltac each_char c := destruct c as [[] [] [] [] [] [] [] []].

Lemma lower_char_idempotent c :
  pystr.lower_char (pystr.lower_char c) = pystr.lower_char c.
Proof. each_char c; reflexivity. Qed.

Lemma isspace_lower_char c :
  pystr.isspace (pystr.lower_char c) = pystr.isspace c.
Proof. each_char c; reflexivity. Qed.

Lemma lower_idempotent s : pystr.lower (pystr.lower s) = pystr.lower s.
Proof.
  induction s as [|c s IH]; simpl; [reflexivity|].
  now rewrite lower_char_idempotent, IH.
Qed.

Lemma lower_is_empty s : pystr.is_empty (pystr.lower s) = pystr.is_empty s.
Proof. now destruct s. Qed.

Lemma is_empty_true s : pystr.is_empty s = true -> s = "".
Proof. destruct s; [reflexivity|discriminate]. Qed.

Lemma lower_lstrip s : pystr.lstrip (pystr.lower s) = pystr.lower (pystr.lstrip s).
Proof.
  induction s as [|c s IH]; simpl; [reflexivity|].
  rewrite isspace_lower_char. now destruct (pystr.isspace c).
Qed.

Lemma lower_rstrip s : pystr.rstrip (pystr.lower s) = pystr.lower (pystr.rstrip s).
Proof.
  induction s as [|c s IH]; simpl; [reflexivity|].
  rewrite isspace_lower_char, IH, lower_is_empty.
  now destruct (pystr.isspace c && pystr.is_empty (pystr.rstrip s)).
Qed.

Lemma lower_strip s : pystr.strip (pystr.lower s) = pystr.lower (pystr.strip s).
Proof. unfold pystr.strip. now rewrite lower_lstrip, lower_rstrip. Qed.

Lemma no_space_lower s : schemas.no_space (pystr.lower s) = schemas.no_space s.
Proof.
  induction s as [|c s IH]; simpl; [reflexivity|].
  now rewrite isspace_lower_char, IH.
Qed.

Lemma no_space_lstrip s : schemas.no_space s = true -> pystr.lstrip s = s.
Proof.
  destruct s as [|c s]; simpl; [reflexivity|].
  now destruct (pystr.isspace c).
Qed.

Lemma no_space_rstrip s : schemas.no_space s = true -> pystr.rstrip s = s.
Proof.
  induction s as [|c s IH]; simpl; [reflexivity|].
  destruct (pystr.isspace c); simpl; [discriminate|].
  intros H. now rewrite IH.
Qed.

Lemma no_space_strip s : schemas.no_space s = true -> pystr.strip s = s.
Proof.
  intros H. unfold pystr.strip. now rewrite no_space_lstrip, no_space_rstrip.
Qed.

Lemma all_space_lstrip ws s :
  pystr.all_space ws = true -> pystr.lstrip (ws ++ s) = pystr.lstrip s.
Proof.
  induction ws as [|c ws IH]; simpl; [reflexivity|].
  destruct (pystr.isspace c); simpl; [exact IH|discriminate].
Qed.

Lemma all_space_rstrip_nil ws : pystr.all_space ws = true -> pystr.rstrip ws = "".
Proof.
  induction ws as [|c ws IH]; simpl; [reflexivity|].
  destruct (pystr.isspace c); simpl; [|discriminate].
  intros H. now rewrite IH.
Qed.

Lemma all_space_rstrip s ws :
  pystr.all_space ws = true -> pystr.rstrip (s ++ ws) = pystr.rstrip s.
Proof.
  intros H. induction s as [|c s IH]; simpl.
  - now apply all_space_rstrip_nil.
  - now rewrite IH.
Qed.

Lemma all_space_lstrip_nil ws : pystr.all_space ws = true -> pystr.lstrip ws = "".
Proof.
  induction ws as [|c ws IH]; simpl; [reflexivity|].
  destruct (pystr.isspace c); simpl; [exact IH|discriminate].
Qed.

(** Stripping what is left after the leading blanks went. *)
Lemma lstrip_app_space s ws :
  pystr.all_space ws = true ->
  pystr.rstrip (pystr.lstrip (s ++ ws)) = pystr.rstrip (pystr.lstrip s).
Proof.
  intros H. induction s as [|c s IH]; simpl.
  - now rewrite all_space_lstrip_nil.
  - destruct (pystr.isspace c); [exact IH|].
    change (String c (s ++ ws)) with (String c s ++ ws)%string.
    now apply all_space_rstrip.
Qed.

Lemma strip_surrounded ws1 s ws2 :
  pystr.all_space ws1 = true -> pystr.all_space ws2 = true ->
  pystr.strip (ws1 ++ s ++ ws2) = pystr.strip s.
Proof.
  intros H1 H2. unfold pystr.strip.
  rewrite all_space_lstrip by exact H1. now apply lstrip_app_space.
Qed.

Lemma strip_idempotent_lstrip s : pystr.lstrip (pystr.lstrip s) = pystr.lstrip s.
Proof.
  induction s as [|c s IH]; simpl; [reflexivity|].
  destruct (pystr.isspace c) eqn:E; [exact IH|]. simpl. now rewrite E.
Qed.

Lemma len_zero s : (pystr.len s =? 0) = pystr.is_empty s.
Proof. destruct s; reflexivity. Qed.

(* ================================================================== *)
(** ** The duplicate gate *)
(* ================================================================== *)

Lemma check_existing_true db cid e :
  crud.check_existing_booking db cid e = true <->
  exists b, In b (bookings db)
            /\ Booking.class_id b = cid /\ Booking.client_email b = e.
Proof.
  unfold crud.check_existing_booking. split.
  - destruct (find _ _) as [b|] eqn:F; [intros _|discriminate].
    apply find_some in F. destruct F as [Hin Hb].
    apply andb_true_iff in Hb. destruct Hb as [H1 H2].
    exists b. repeat split; [exact Hin|lia|now apply String.eqb_eq].
  - intros (b & Hin & H1 & H2).
    destruct (find _ _) as [b'|] eqn:F; [reflexivity|].
    apply (find_none _ _ F) in Hin.
    rewrite H1, H2, Z.eqb_refl, String.eqb_refl in Hin. discriminate.
Qed.

Lemma check_existing_false_count db cid e :
  emails_normalized db ->
  crud.check_existing_booking db cid (pystr.lower e) = false ->
  pair_count db cid e = O.
Proof.
  intros Hn Hc. unfold pair_count.
  destruct (filter (same_pair cid e) (bookings db)) as [|b l] eqn:F;
    [reflexivity|].
  exfalso.
  assert (Hb : In b (filter (same_pair cid e) (bookings db)))
    by (rewrite F; now left).
  apply filter_In in Hb. destruct Hb as [Hin Hb].
  apply andb_true_iff in Hb. destruct Hb as [H1 H2].
  apply String.eqb_eq in H2. rewrite (Hn b Hin) in H2.
  assert (crud.check_existing_booking db cid (pystr.lower e) = true);
    [|congruence].
  apply check_existing_true. exists b. repeat split; [exact Hin|lia|exact H2].
Qed.

Lemma same_pair_lower cid e b :
  same_pair cid (pystr.lower e) b = same_pair cid e b.
Proof. unfold same_pair. now rewrite lower_idempotent. Qed.

Lemma pair_count_with_row db b cid e :
  pair_count (with_row db b) cid e
  = (pair_count db cid e + if same_pair cid e b then 1 else 0)%nat.
Proof.
  unfold pair_count, with_row. simpl.
  rewrite filter_app, length_app. simpl.
  now destruct (same_pair cid e b).
Qed.

Lemma same_pair_count db cid e cid' e' b :
  same_pair cid e b = true -> same_pair cid' e' b = true ->
  pair_count db cid' e' = pair_count db cid e.
Proof.
  unfold same_pair. intros H H'.
  apply andb_true_iff in H, H'. destruct H as [H1 H2], H' as [H1' H2'].
  apply String.eqb_eq in H2, H2'.
  assert (cid' = cid) as -> by lia.
  unfold pair_count, same_pair. now rewrite <- H2, H2'.
Qed.

Lemma duplicate_step IST now stamp booking_data db :
  emails_normalized db -> pairs_unique db ->
  emails_normalized (snd (routes.create_booking IST now stamp booking_data db))
  /\ pairs_unique (snd (routes.create_booking IST now stamp booking_data db)).
Proof.
  intros Hn Hu.
  destruct (create_booking_cases IST now stamp booking_data db)
    as [[e ->]|[c [(_ & _ & _ & Hd) ->]]]; [now split|].
  simpl. split.
  - intros b Hin. simpl in Hin. apply in_app_or in Hin.
    destruct Hin as [Hin|[<-|[]]]; [now apply Hn|].
    simpl. apply lower_idempotent.
  - intros cid e. rewrite pair_count_with_row.
    destruct (same_pair cid e (inserted_row stamp booking_data db)) eqn:S;
      [|specialize (Hu cid e); lia].
    assert (S0 : same_pair (schemas.class_id booking_data)
                   (schemas.client_email booking_data)
                   (inserted_row stamp booking_data db) = true).
    { unfold same_pair. simpl.
      now rewrite Z.eqb_refl, lower_idempotent, String.eqb_refl. }
    rewrite (same_pair_count db _ _ _ _ _ S0 S).
    now rewrite (check_existing_false_count db _ _ Hn Hd).
Qed.

Lemma reachable_keeps_rows IST init db b :
  reachable IST init db -> In b (bookings init) -> In b (bookings db).
Proof.
  intros Hr Hin. destruct (reachable_bookings_grow IST init db Hr) as [more ->].
  apply in_or_app. now left.
Qed.

Lemma create_booking_ok IST now stamp booking_data db b db1 :
  routes.create_booking IST now stamp booking_data db = (Ok b, db1) ->
  b = inserted_row stamp booking_data db /\ db1 = with_row db b
  /\ exists c, gates_pass now booking_data db c.
Proof.
  destruct (create_booking_cases IST now stamp booking_data db)
    as [[e ->]|[c [Hg ->]]]; [discriminate|].
  intros [= <- <-]. repeat split. now exists c.
Qed.

(** Once the pair is in the table, the workflow stops at one of its
    gates; it is the duplicate gate when the two before it let the
    request through. *)
Lemma booked_pair_is_refused IST now stamp booking_data db b :
  In b (bookings db) ->
  Booking.class_id b = schemas.class_id booking_data ->
  Booking.client_email b = pystr.lower (schemas.client_email booking_data) ->
  exists e,
    routes.create_booking IST now stamp booking_data db = (Err e, db)
    /\ (forall c,
          crud.get_class_by_id db (schemas.class_id booking_data)
          = pydatetime.Return (Some c) ->
          now <= FitnessClass.datetime_utc c ->
          0 < models.available_slots db c ->
          e = already_booked c
                (pystr.lower (schemas.client_email booking_data))).
Proof.
  intros Hin Hc He.
  assert (Hd : crud.check_existing_booking db (schemas.class_id booking_data)
                 (pystr.lower (schemas.client_email booking_data)) = true).
  { apply check_existing_true. now exists b. }
  unfold routes.create_booking, bind, query, raise, update, ret, uncaught.
  destruct (crud.get_class_by_id db (schemas.class_id booking_data))
    as [[c|]|err] eqn:Hf.
  2:{ eexists. split; [reflexivity|]. discriminate. }
  2:{ unfold unexpected_error, raise. eexists. split; [reflexivity|].
      discriminate. }
  destruct (Z.ltb_spec (FitnessClass.datetime_utc c) now).
  { eexists. split; [reflexivity|]. intros c' [= <-]. lia. }
  destruct (Z.leb_spec (models.available_slots db c) 0).
  { unfold unexpected_error, raise.
    destruct (models.datetime_ist IST c);
      (eexists; split; [reflexivity|]; intros c' [= <-]; lia). }
  rewrite Hd. eexists. split; [reflexivity|]. now intros c' [= <-].
Qed.

(** A class scheduled before the clock reading is refused, whatever
    its capacity and whoever asks. *)
Lemma started_class_is_refused IST now stamp booking_data db c :
  crud.get_class_by_id db (schemas.class_id booking_data)
  = pydatetime.Return (Some c) ->
  FitnessClass.datetime_utc c < now ->
  routes.create_booking IST now stamp booking_data db
  = (Err already_started, db).
Proof.
  intros Hf Ht.
  unfold routes.create_booking, bind, query, raise, uncaught. rewrite Hf.
  destruct (Z.ltb_spec (FitnessClass.datetime_utc c) now); [reflexivity|lia].
Qed.

(* ================================================================== *)
(** ** [ORDER BY], [OFFSET] and [LIMIT] *)
(* ================================================================== *)

Section OrderByFacts.
Context {A : Type}.
Variable key : A -> Z.

Lemma insert_by_perm x l : Permutation (sql.insert_by key x l) (x :: l).
Proof.
  induction l as [|y l IH]; simpl; [reflexivity|].
  destruct (key x <=? key y); [reflexivity|].
  rewrite IH. apply perm_swap.
Qed.

Lemma order_by_perm l : Permutation (sql.order_by key l) l.
Proof.
  induction l as [|x l IH]; simpl; [reflexivity|].
  rewrite insert_by_perm. now constructor.
Qed.

Lemma insert_by_sorted x l :
  StronglySorted (le_by key) l -> StronglySorted (le_by key) (sql.insert_by key x l).
Proof.
  induction 1 as [|y l Hs IH Hall]; simpl.
  - repeat constructor.
  - destruct (Z.leb_spec (key x) (key y)).
    + constructor; [now constructor|].
      constructor; [assumption|].
      eapply Forall_impl; [|exact Hall]. unfold le_by. intros; lia.
    + constructor; [exact IH|].
      apply (Permutation_Forall (Permutation_sym (insert_by_perm x l))).
      constructor; [unfold le_by; lia|exact Hall].
Qed.

Lemma order_by_sorted l : StronglySorted (le_by key) (sql.order_by key l).
Proof.
  induction l as [|x l IH]; simpl; [constructor|].
  now apply insert_by_sorted.
Qed.

Lemma order_by_In x l : In x (sql.order_by key l) <-> In x l.
Proof.
  split; apply Permutation_in;
    [apply order_by_perm|symmetry; apply order_by_perm].
Qed.

End OrderByFacts.

Lemma order_by_desc_In {A} (key : A -> Z) x l :
  In x (sql.order_by_desc key l) <-> In x l.
Proof. apply order_by_In. Qed.

Lemma sorted_skipn {A} (R : A -> A -> Prop) n l :
  StronglySorted R l -> StronglySorted R (skipn n l).
Proof.
  revert l. induction n as [|n IH]; intros l H; [exact H|].
  destruct l as [|x l]; [constructor|].
  simpl. apply IH. now inversion H.
Qed.

Lemma In_firstn {A} n (l : list A) x : In x (firstn n l) -> In x l.
Proof.
  intros H. rewrite <- (firstn_skipn n l). apply in_or_app. now left.
Qed.

Lemma sorted_firstn {A} (R : A -> A -> Prop) n l :
  StronglySorted R l -> StronglySorted R (firstn n l).
Proof.
  revert l. induction n as [|n IH]; intros l H; [constructor|].
  destruct l as [|x l]; [constructor|].
  inversion H as [|? ? Hs Hall]; subst. simpl.
  constructor; [now apply IH|].
  rewrite Forall_forall in *. intros y Hy. apply Hall.
  eapply In_firstn; exact Hy.
Qed.

Lemma In_skipn {A} n (l : list A) x : In x (skipn n l) -> In x l.
Proof.
  intros H. rewrite <- (firstn_skipn n l). apply in_or_app. now right.
Qed.

Lemma limit_firstn {A} n (l : list A) :
  0 <= n -> sql.limit n l = firstn (Z.to_nat n) l.
Proof.
  intros H. unfold sql.limit.
  destruct (Z.ltb_spec n 0); [lia|reflexivity].
Qed.

Lemma gtb_ltb_filter now l :
  filter (fun c => FitnessClass.datetime_utc c >? now) l
  = filter (fun c => now <? FitnessClass.datetime_utc c) l.
Proof.
  apply filter_ext. intros c. apply Z.gtb_ltb.
Qed.

(* ================================================================== *)
(** ** GET /bookings *)
(* ================================================================== *)

Lemma rstrip_idempotent s : pystr.rstrip (pystr.rstrip s) = pystr.rstrip s.
Proof.
  induction s as [|c s IH]; simpl; [reflexivity|].
  destruct (pystr.isspace c && pystr.is_empty (pystr.rstrip s)) eqn:E;
    [reflexivity|].
  simpl. now rewrite IH, E.
Qed.

Lemma lstrip_starts_clean s : starts_clean (pystr.lstrip s) = true.
Proof.
  induction s as [|c s IH]; simpl; [reflexivity|].
  destruct (pystr.isspace c) eqn:E; [exact IH|]. simpl. now rewrite E.
Qed.

Lemma rstrip_starts_clean s :
  starts_clean s = true -> starts_clean (pystr.rstrip s) = true.
Proof.
  destruct s as [|c s]; simpl; [reflexivity|].
  destruct (pystr.isspace c) eqn:E; simpl; [discriminate|].
  now rewrite E.
Qed.

Lemma starts_clean_lstrip s : starts_clean s = true -> pystr.lstrip s = s.
Proof.
  destruct s as [|c s]; simpl; [reflexivity|].
  now destruct (pystr.isspace c).
Qed.

Lemma strip_idempotent s : pystr.strip (pystr.strip s) = pystr.strip s.
Proof.
  unfold pystr.strip.
  rewrite starts_clean_lstrip
    by (apply rstrip_starts_clean, lstrip_starts_clean).
  apply rstrip_idempotent.
Qed.

Lemma strip_empty s : pystr.is_empty s = true -> pystr.is_empty (pystr.strip s) = true.
Proof. intros H. apply is_empty_true in H. now subst. Qed.

(** The route on a request that carries the parameter. *)
Lemma get_bookings_some IST s db :
  routes.get_bookings IST (Some s) db
  = if pystr.is_empty (pystr.strip s) then (Err email_required, db)
    else
      match schemas.new_BookingListResponse IST db
              (crud.get_bookings_by_email db (pystr.lower (pystr.strip s)))
      with
      | pydatetime.Return resp => (Ok resp, db)
      | pydatetime.Raise _ => (Err bookings_not_fetched, db)
      end.
Proof.
  unfold routes.get_bookings, bind, lift, try_except,
    dependencies.validate_email_query.
  rewrite len_zero.
  destruct (pystr.is_empty s) eqn:E.
  - now rewrite (strip_empty s E).
  - simpl. destruct (pystr.is_empty (pystr.strip s)); [reflexivity|].
    now rewrite lower_idempotent.
Qed.

(** *** Building the response models *)

Lemma build_all_return {A B} (build : A -> pydatetime.result B) rows items :
  schemas.build_all build rows = pydatetime.Return items ->
  Forall2 (fun row item => build row = pydatetime.Return item) rows items.
Proof.
  revert items. induction rows as [|row rows IH]; simpl; intros items.
  - intros [= <-]. constructor.
  - destruct (build row) as [item|] eqn:E; simpl; [|discriminate].
    destruct (schemas.build_all build rows) as [rest|]; simpl; [|discriminate].
    intros [= <-]. constructor; auto.
Qed.

Lemma build_all_Forall2 {A B} (build : A -> pydatetime.result B) rows items :
  Forall2 (fun row item => build row = pydatetime.Return item) rows items ->
  schemas.build_all build rows = pydatetime.Return items.
Proof.
  induction 1 as [|row item rows items H _ IH]; simpl; [reflexivity|].
  now rewrite H, IH.
Qed.

Lemma build_all_raises {A B} (build : A -> pydatetime.result B) rows row e :
  In row rows -> build row = pydatetime.Raise e ->
  exists e', schemas.build_all build rows = pydatetime.Raise e'.
Proof.
  induction rows as [|x rows IH]; simpl; [tauto|].
  intros [->|Hin] He.
  - rewrite He. simpl. eauto.
  - destruct (build x); simpl; [|eauto].
    destruct (IH Hin He) as [e' ->]. simpl. eauto.
Qed.

Lemma build_all_shown {A B} (build : A -> pydatetime.result B) rows :
  forallb (fun row => shown (build row)) rows = true ->
  exists items, schemas.build_all build rows = pydatetime.Return items.
Proof.
  induction rows as [|x rows IH]; simpl; [eauto|].
  intros H. apply andb_prop in H as [Hx H].
  destruct (build x); [|discriminate]. simpl.
  destruct (IH H) as [items ->]. simpl. eauto.
Qed.

Lemma build_all_not_shown {A B} (build : A -> pydatetime.result B) rows :
  forallb (fun row => shown (build row)) rows = false ->
  exists e, schemas.build_all build rows = pydatetime.Raise e.
Proof.
  induction rows as [|x rows IH]; simpl; [discriminate|].
  intros H. destruct (build x); simpl; [|eauto].
  simpl in H. destruct (IH H) as [e ->]. simpl. eauto.
Qed.

Lemma build_all_length {A B} (build : A -> pydatetime.result B) rows items :
  schemas.build_all build rows = pydatetime.Return items ->
  List.length items = List.length rows.
Proof.
  intros H. apply build_all_return in H.
  induction H; simpl; congruence.
Qed.



Lemma get_bookings_by_email_In db e b :
  In b (crud.get_bookings_by_email db e)
  <-> In b (bookings db) /\ Booking.client_email b = e.
Proof.
  unfold crud.get_bookings_by_email.
  rewrite order_by_desc_In, filter_In.
  now rewrite String.eqb_eq.
Qed.

(* ================================================================== *)
(** ** ISO-8601 texts and [datetime.fromisoformat_py310] *)
(* ================================================================== *)

Section IsoTexts.
Import pydatetime.

Lemma digit_spec k : 0 <= k < 10 ->
  is_digit (digit k) = true /\ pystr.code (digit k) - 48 = k.
Proof.
  intros H.
  assert (E : k = 0 \/ k = 1 \/ k = 2 \/ k = 3 \/ k = 4 \/ k = 5 \/ k = 6
              \/ k = 7 \/ k = 8 \/ k = 9) by lia.
  repeat (destruct E as [->|E]; [split; reflexivity|]). subst. split; reflexivity.
Qed.

Lemma two_digits_spec n : 0 <= n < 100 ->
  exists a b, two_digits n = String a (String b "")
    /\ is_digit a = true /\ is_digit b = true
    /\ 10 * (pystr.code a - 48) + (pystr.code b - 48) = n.
Proof.
  intros H. exists (digit (n / 10)), (digit (n mod 10)).
  destruct (digit_spec (n / 10)) as [H1 H2].
  { split; [apply Z.div_pos; lia|apply Z.div_lt_upper_bound; lia]. }
  destruct (digit_spec (n mod 10)) as [H3 H4].
  { apply Z.mod_pos_bound; lia. }
  repeat split; try assumption.
  rewrite H2, H4. symmetry. apply Z.div_mod. lia.
Qed.

Lemma digit_is_plain c : is_digit c = true ->
  Ascii.eqb c "Z" = false /\ Ascii.eqb c "-" = false /\ Ascii.eqb c "+" = false.
Proof. each_char c; intros H; try discriminate H; repeat split. Qed.

Ltac use_digits :=
  repeat match goal with
  | H : is_digit ?c = true |- context [is_digit ?c] => rewrite H
  | H : is_digit ?c = true |- context [Ascii.eqb ?c "Z"] =>
      rewrite (proj1 (digit_is_plain c H))
  | H : is_digit ?c = true |- context [Ascii.eqb ?c "-"] =>
      rewrite (proj1 (proj2 (digit_is_plain c H)))
  | H : is_digit ?c = true |- context [Ascii.eqb ?c "+"] =>
      rewrite (proj2 (proj2 (digit_is_plain c H)))
  end.

Ltac run := cbn -[Z.mul Z.add Z.sub Z.div Z.modulo Z.opp Z.ltb Z.leb is_digit pystr.code]; use_digits.

Ltac digits_of n a b Ha Hb E :=
  let H := fresh in
  assert (H : 0 <= n < 100) by (try lia; Z.div_mod_to_equations; lia);
  destruct (two_digits_spec n H) as (a & b & -> & Ha & Hb & E); clear H.

(** Slices, searches and replacements. *)
Lemma string_length_app (a b : string) :
  String.length (a ++ b) = (String.length a + String.length b)%nat.
Proof. induction a as [|c a IH]; simpl; [reflexivity|now rewrite IH]. Qed.

Lemma substring_prefix (a b : string) :
  substring 0 (String.length a) (a ++ b) = a.
Proof.
  induction a as [|c a IH]; simpl; [now destruct b|now rewrite IH].
Qed.

Lemma substring_all (a : string) n : substring 0 (String.length a + n) a = a.
Proof.
  induction a as [|c a IH]; simpl; [now destruct n|now rewrite IH].
Qed.

Lemma substring_skip (a b : string) n m :
  substring (String.length a + n) m (a ++ b) = substring n m b.
Proof. induction a as [|c a IH]; simpl; [reflexivity|exact IH]. Qed.

Lemma slice_from_app (a b : string) n :
  slice_from (String.length a + n) (a ++ b) = slice_from n b.
Proof.
  unfold slice_from. rewrite string_length_app, substring_skip.
  f_equal. lia.
Qed.

Lemma slice_from_0 (a : string) : slice_from 0 a = a.
Proof.
  unfold slice_from. rewrite Nat.sub_0_r.
  rewrite <- (Nat.add_0_r (String.length a)). apply substring_all.
Qed.

Lemma find_char_app_none c (a b : string) :
  find_char c a = None ->
  find_char c (a ++ b)
  = match find_char c b with
    | Some i => Some (String.length a + i)%nat
    | None => None
    end.
Proof.
  induction a as [|x a IH]; simpl.
  - now destruct (find_char c b).
  - destruct (Ascii.eqb x c); [discriminate|].
    destruct (find_char c a); [discriminate|]. intros _.
    rewrite IH by reflexivity. now destruct (find_char c b).
Qed.

Lemma time_text_length h mi s frac :
  String.length (time_text h mi s frac)
  = match frac with Some _ => 15%nat | None => 8%nat end.
Proof. now destruct frac. Qed.

Lemma date_text_length y mo d : String.length (date_text y mo d) = 10%nat.
Proof. reflexivity. Qed.

Lemma parse_date y mo d : 0 <= y < 10000 -> 0 <= mo < 100 -> 0 <= d < 100 ->
  parse_isoformat_date (date_text y mo d) = Some (y, mo, d)
  /\ find_char "Z" (date_text y mo d) = None.
Proof.
  intros Hy Hm Hd. unfold date_text, four_digits.
  destruct (two_digits_spec (y / 100)) as (y1 & y2 & -> & Hy1 & Hy2 & Ey1).
  { split; [apply Z.div_pos; lia|apply Z.div_lt_upper_bound; lia]. }
  destruct (two_digits_spec (y mod 100)) as (y3 & y4 & -> & Hy3 & Hy4 & Ey2).
  { apply Z.mod_pos_bound; lia. }
  destruct (two_digits_spec mo Hm) as (m1 & m2 & -> & Hm1 & Hm2 & Em).
  destruct (two_digits_spec d Hd) as (d1 & d2 & -> & Hd1 & Hd2 & Ed).
  unfold parse_isoformat_date, parse_digits.
  split; repeat (progress run); [|reflexivity].
  pose proof (Z.div_mod y 100). repeat f_equal; lia.
Qed.


Lemma parse_time h mi s frac :
  0 <= h < 100 -> 0 <= mi < 100 -> 0 <= s < 100 ->
  0 <= fraction_us frac < 1000000 ->
  parse_hh_mm_ss_ff (time_text h mi s frac) = Some (h, mi, s, fraction_us frac)
  /\ find_char "-" (time_text h mi s frac) = None
  /\ find_char "+" (time_text h mi s frac) = None
  /\ find_char "Z" (time_text h mi s frac) = None.
Proof.
  intros Hh Hmi Hs Hus. unfold time_text, six_digits, four_digits.
  digits_of h h1 h2 Hh1 Hh2 Eh.
  digits_of mi i1 i2 Hi1 Hi2 Ei.
  digits_of s s1 s2 Hs1 Hs2 Es.
  destruct frac as [us|]; simpl fraction_us in *.
  - digits_of (us / 10000) u1 u2 Hu1 Hu2 Eu1.
    digits_of ((us mod 10000) / 100) u3 u4 Hu3 Hu4 Eu2.
    digits_of ((us mod 10000) mod 100) u5 u6 Hu5 Hu6 Eu3.
    pose proof (Z.div_mod us 10000 ltac:(lia)) as Du.
    pose proof (Z.div_mod (us mod 10000) 100 ltac:(lia)) as Du'.
    unfold parse_hh_mm_ss_ff, two_at, parse_digits, slice_from.
    repeat split; repeat (progress run); try reflexivity.
    repeat f_equal; lia.
  - unfold parse_hh_mm_ss_ff, two_at, parse_digits, slice_from.
    repeat split; repeat (progress run); try reflexivity.
    repeat f_equal; lia.
Qed.

Lemma parse_zone hh mm :
  0 <= hh < 100 -> 0 <= mm < 100 ->
  parse_hh_mm_ss_ff (two_digits hh ++ ":" ++ two_digits mm) = Some (hh, mm, 0, 0)
  /\ find_char "-" (two_digits hh ++ ":" ++ two_digits mm) = None
  /\ find_char "Z" (two_digits hh ++ ":" ++ two_digits mm) = None.
Proof.
  intros Hh Hm.
  digits_of hh o1 o2 Ho1 Ho2 Eo1.
  digits_of mm o3 o4 Ho3 Ho4 Eo2.
  unfold parse_hh_mm_ss_ff, two_at, parse_digits.
  repeat split; repeat (progress run); try reflexivity.
  repeat f_equal; lia.
Qed.

Lemma append_empty (a : string) : (a ++ "")%string = a.
Proof. induction a as [|c a IH]; simpl; [reflexivity|now rewrite IH]. Qed.

Lemma substring_0_0 (s : string) : substring 0 0 s = "".
Proof. now destruct s. Qed.

Lemma slice_from_S n c (s : string) :
  slice_from (S n) (String c s) = slice_from n s.
Proof. reflexivity. Qed.

Lemma zone_in_a_day (sign hh mm : Z) :
  (sign = 1 \/ sign = -1) -> 0 <= hh <= 23 -> 0 <= mm <= 59 ->
  (- US_PER_DAY <? sign * ((hh * 3600 + mm * 60 + 0) * US_PER_SECOND + 0))
  && (sign * ((hh * 3600 + mm * 60 + 0) * US_PER_SECOND + 0) <? US_PER_DAY)
  = true.
Proof.
  intros Hs Hh Hm. apply andb_true_iff.
  split; apply Z.ltb_lt; cbv [US_PER_DAY US_PER_SECOND]; lia.
Qed.

Lemma parse_time_and_zone h mi s frac z :
  0 <= h < 100 -> 0 <= mi < 100 -> 0 <= s < 100 ->
  0 <= fraction_us frac < 1000000 ->
  z <> Zulu -> check_designator z = true ->
  parse_isoformat_time (time_text h mi s frac ++ designator_text z)
  = Some (h, mi, s, fraction_us frac, designator_offset z).
Proof.
  intros Hh Hmi Hs Hus Hz Hcz.
  destruct (parse_time h mi s frac Hh Hmi Hs Hus) as (Ht & Hminus & Hplus & _).
  unfold parse_isoformat_time.
  rewrite string_length_app, time_text_length.
  replace ((match frac with Some _ => 15 | None => 8 end
            + String.length (designator_text z) <? 2)%nat) with false
    by (now destruct frac).
  destruct z as [| |neg hh mm]; [|congruence|].
  - simpl designator_text. rewrite append_empty, Hminus, Hplus, Ht.
    reflexivity.
  - simpl in Hcz. rewrite !andb_true_iff, !Z.leb_le in Hcz.
    destruct (parse_zone hh mm) as (Hz1 & Hz2 & _); [lia|lia|].
    assert (E : exists sign,
               (sign = "-"%char /\ neg = true \/ sign = "+"%char /\ neg = false)
               /\ designator_text (Offset neg hh mm)
                  = String sign (two_digits hh ++ ":" ++ two_digits mm)).
    { destruct neg; eexists; (split; [|reflexivity]); tauto. }
    destruct E as (sign & Hsign & ->).
    assert (Hlen : String.length (two_digits hh ++ ":" ++ two_digits mm) = 5%nat)
      by reflexivity.
    revert Hz1 Hz2 Hlen Ht Hminus Hplus.
    generalize (two_digits hh ++ ":" ++ two_digits mm)%string as tz.
    generalize (time_text h mi s frac) as t.
    intros t tz Hz1 Hz2 Hlen Ht Hminus Hplus.
    assert (Hpos : match find_char "-" (t ++ String sign tz) with
                   | Some i => Some i
                   | None => find_char "+" (t ++ String sign tz)
                   end = Some (String.length t + 0)%nat).
    { rewrite !find_char_app_none by assumption.
      destruct Hsign as [[-> _]|[-> _]]; cbn [find_char Ascii.eqb Bool.eqb];
        [reflexivity|].
      now rewrite Hz2. }
    rewrite Hpos.
    rewrite Nat.add_0_r at 1. rewrite substring_prefix, Ht.
    replace (S (String.length t + 0)) with (String.length t + 1)%nat by lia.
    rewrite slice_from_app, slice_from_S, slice_from_0.
    rewrite substring_skip, Hlen. cbn [obind Nat.eqb orb negb].
    rewrite Hz1. cbn [obind].
    destruct Hsign as [[-> ->]|[-> ->]];
      cbn -[Z.mul Z.add Z.ltb Z.opp US_PER_DAY US_PER_SECOND];
      rewrite ?substring_0_0; cbn [String.eqb];
      (rewrite zone_in_a_day by lia); do 3 f_equal; cbv [US_PER_SECOND]; lia.
Qed.

Lemma string_app_assoc (a b c : string) :
  ((a ++ b) ++ c)%string = (a ++ (b ++ c))%string.
Proof. induction a as [|x a IH]; simpl; [reflexivity|now rewrite IH]. Qed.

Lemma replace_app c new (a b : string) :
  pystr.replace c new (a ++ b)
  = (pystr.replace c new a ++ pystr.replace c new b)%string.
Proof.
  induction a as [|x a IH]; simpl; [reflexivity|].
  rewrite IH. destruct (Ascii.eqb x c); [|reflexivity].
  now rewrite string_app_assoc.
Qed.

Lemma replace_absent c new (s : string) :
  find_char c s = None -> pystr.replace c new s = s.
Proof.
  induction s as [|x s IH]; simpl; [reflexivity|].
  destruct (Ascii.eqb x c); [discriminate|].
  destruct (find_char c s); [discriminate|].
  intros _. now rewrite IH.
Qed.

Lemma replace_Z_iso_text y mo d sep h mi s frac z :
  0 <= y < 10000 -> 0 <= mo < 100 -> 0 <= d < 100 ->
  0 <= h < 100 -> 0 <= mi < 100 -> 0 <= s < 100 ->
  0 <= fraction_us frac < 1000000 ->
  check_designator z = true ->
  pystr.replace "Z" "+00:00" (iso_text y mo d sep h mi s frac z)
  = iso_text y mo d sep h mi s frac (spelled_out z).
Proof.
  intros Hy Hmo Hd Hh Hmi Hs Hus Hcz.
  destruct (parse_date y mo d Hy Hmo Hd) as [_ Hdz].
  destruct (parse_time h mi s frac Hh Hmi Hs Hus) as (_ & _ & _ & Htz).
  unfold iso_text. rewrite replace_app, (replace_absent _ _ _ Hdz).
  f_equal.
  replace (pystr.replace "Z" "+00:00"
             (String (separator_char sep)
                (time_text h mi s frac ++ designator_text z)))
    with (String (separator_char sep)
            (pystr.replace "Z" "+00:00"
               (time_text h mi s frac ++ designator_text z)))
    by (now destruct sep).
  rewrite replace_app, (replace_absent _ _ _ Htz).
  do 2 f_equal.
  destruct z as [| |neg hh mm]; [reflexivity|reflexivity|].
  simpl in Hcz. rewrite !andb_true_iff, !Z.leb_le in Hcz.
  destruct (parse_zone hh mm) as (_ & _ & Hzz); [lia|lia|].
  simpl designator_text. rewrite replace_app, (replace_absent _ _ _ Hzz).
  now destruct neg.
Qed.

Lemma fromisoformat_py310_iso_text y mo d sep h mi s frac z :
  0 <= y < 10000 -> 0 <= mo < 100 -> 0 <= d < 100 ->
  0 <= h < 100 -> 0 <= mi < 100 -> 0 <= s < 100 ->
  0 <= fraction_us frac < 1000000 ->
  z <> Zulu -> check_designator z = true ->
  fromisoformat_py310 (iso_text y mo d sep h mi s frac z)
  = new_datetime y mo d h mi s (fraction_us frac) (designator_offset z).
Proof.
  intros Hy Hmo Hd Hh Hmi Hs Hus Hz Hcz.
  destruct (parse_date y mo d Hy Hmo Hd) as [Hdate _].
  pose proof (parse_time_and_zone h mi s frac z Hh Hmi Hs Hus Hz Hcz) as Htime.
  unfold fromisoformat_py310, iso_text.
  change 11%nat with (String.length (date_text y mo d) + 1)%nat.
  change 10%nat with (String.length (date_text y mo d)).
  rewrite substring_prefix, Hdate, slice_from_app.
  rewrite slice_from_S, slice_from_0, Htime.
  reflexivity.
Qed.

End IsoTexts.

Lemma days_in_month_le year month :
  1 <= month <= 12 -> pydatetime.days_in_month year month <= 31.
Proof.
  intros H. unfold pydatetime.days_in_month.
  destruct ((month =? 2) && pydatetime.is_leap year); [lia|].
  assert (E : month = 1 \/ month = 2 \/ month = 3 \/ month = 4 \/ month = 5
              \/ month = 6 \/ month = 7 \/ month = 8 \/ month = 9
              \/ month = 10 \/ month = 11 \/ month = 12) by lia.
  repeat (destruct E as [->|E]; [simpl; lia|]). subst. simpl. lia.
Qed.

Lemma spelled_out_offset z :
  pydatetime.designator_offset (spelled_out z) = pydatetime.designator_offset z.
Proof. now destruct z. Qed.

Lemma astimezone_utc_instant t off :
  pydatetime.astimezone_utc (pydatetime.mk_datetime t (Some off))
  = utc_instant (t - off).
Proof.
  unfold pydatetime.astimezone_utc, pydatetime.add, utc_instant. simpl.
  rewrite Z.add_opp_r. now destruct (pydatetime.in_range (t - off)).
Qed.

(* ================================================================== *)
(** ** The scenarios of [tests/test_api.py], run on the model *)
(* ================================================================== *)

Example booking_unknown_class :
  sample.book (schemas.mk_BookingCreate 9999 "John Doe" "john@example.com")
    sample.db
  = (Err (mk_HTTPException HTTP_404_NOT_FOUND
            (Message "Class with ID 9999 not found")), sample.db).
Proof. reflexivity. Qed.

Example booking_success :
  fst (sample.book sample.john sample.db)
  = Ok (Booking.mk 1 1 "John Doe" "john@example.com" (sample.now + 1000000)).
Proof. reflexivity. Qed.

Example booking_duplicate :
  fst (sample.book sample.john (snd (sample.book sample.john sample.db)))
  = Err (already_booked sample.yoga "john@example.com").
Proof. reflexivity. Qed.

Example booking_full_class :
  fst (sample.book sample.second_user
         (snd (sample.book sample.first_user sample.db)))
  = Err (fully_booked sample.hiit
           (pydatetime.mk_datetime
              (pydatetime.wall_ticks 2024 1 7 15 30 0 0)
              (Some (19800 * pydatetime.US_PER_SECOND)))).
Proof. reflexivity. Qed.

Example classes_pagination :
  fst (routes.get_classes config.Asia_Kolkata sample.now None (Some 1)
         sample.db)
  = Ok (schemas.ClassListResponse.mk 1 [sample.yoga_shown 10])
  /\ fst (routes.get_classes config.Asia_Kolkata sample.now (Some 1) None
            sample.db)
     = Ok (schemas.ClassListResponse.mk 1 [sample.hiit_shown 1])
  /\ fst (routes.get_classes config.Asia_Kolkata sample.now None (Some 0)
            sample.db)
     = dependencies.validation_error.
Proof. repeat split. Qed.

Example bookings_without_email :
  fst (routes.get_bookings config.Asia_Kolkata None sample.db)
  = dependencies.validation_error.
Proof. reflexivity. Qed.

(** An instant before [datetime.min] cannot be held: the conversion
    to UTC raises. *)
Example parse_out_of_range :
  timezone.parse_ist_string config.Asia_Kolkata
    pydatetime.fromisoformat_py310 "0001-01-01T00:00:00+05:30"
  = pydatetime.Raise pydatetime.OverflowError.
Proof. reflexivity. Qed.

Example parse_rejects_month_13 :
  timezone.parse_ist_string config.Asia_Kolkata
    pydatetime.fromisoformat_py310 "2024-13-05T10:00:00"
  = pydatetime.Raise pydatetime.ValueError.
Proof. reflexivity. Qed.

(* ================================================================== *)
(** ** Helpers of the further properties *)
(* ================================================================== *)

Lemma sorted_weaken {A} (R R' : A -> A -> Prop) l :
  (forall a b, R a b -> R' a b) ->
  StronglySorted R l -> StronglySorted R' l.
Proof.
  intros HR. induction 1 as [|x l _ IH Hall]; constructor; [exact IH|].
  eapply Forall_impl; [|exact Hall]. intros b. apply HR.
Qed.

Lemma next_id_above ids x : In x ids -> x < next_id ids.
Proof.
  unfold next_id. induction ids as [|y ids IH]; cbn [fold_right In]; [tauto|].
  intros [->|H]; [lia|]. specialize (IH H). lia.
Qed.

Lemma In_limit {A} n (l : list A) x : In x (sql.limit n l) -> In x l.
Proof.
  unfold sql.limit. destruct (n <? 0); [tauto|apply In_firstn].
Qed.

Lemma bind_int_return n m :
  sql.bind_int n = pydatetime.Return m ->
  m = n /\ sql.INT64_MIN <= n <= sql.INT64_MAX.
Proof.
  unfold sql.bind_int.
  destruct (Z.leb_spec sql.INT64_MIN n);
    destruct (Z.leb_spec n sql.INT64_MAX); simpl; try discriminate.
  intros [= <-]. split; [reflexivity|lia].
Qed.

Lemma bind_int_in_range n :
  sql.INT64_MIN <= n <= sql.INT64_MAX -> sql.bind_int n = pydatetime.Return n.
Proof.
  intros [Hlo Hhi]. unfold sql.bind_int.
  apply Z.leb_le in Hlo, Hhi. now rewrite Hlo, Hhi.
Qed.

Lemma bind_int_out_of_range n :
  n < sql.INT64_MIN \/ sql.INT64_MAX < n ->
  sql.bind_int n = pydatetime.Raise pydatetime.OverflowError.
Proof.
  intros H. unfold sql.bind_int.
  destruct (Z.leb_spec sql.INT64_MIN n);
    destruct (Z.leb_spec n sql.INT64_MAX); simpl; try reflexivity; lia.
Qed.

Lemma get_upcoming_classes_in_range now db skip limit :
  sql.INT64_MIN <= skip <= sql.INT64_MAX ->
  sql.INT64_MIN <= limit <= sql.INT64_MAX ->
  crud.get_upcoming_classes now db skip limit
  = pydatetime.Return (window now db skip limit).
Proof.
  intros Hs Hl. unfold crud.get_upcoming_classes.
  rewrite (bind_int_in_range _ Hl). simpl.
  now rewrite (bind_int_in_range _ Hs).
Qed.

Lemma get_upcoming_classes_return now db skip limit listed :
  crud.get_upcoming_classes now db skip limit = pydatetime.Return listed ->
  listed = window now db skip limit
  /\ sql.INT64_MIN <= skip <= sql.INT64_MAX
  /\ sql.INT64_MIN <= limit <= sql.INT64_MAX.
Proof.
  unfold crud.get_upcoming_classes.
  destruct (sql.bind_int limit) as [l|] eqn:El; simpl; [|discriminate].
  destruct (sql.bind_int skip) as [k|] eqn:Ek; simpl; [|discriminate].
  apply bind_int_return in El as [-> ?], Ek as [-> ?].
  intros [= <-]. auto.
Qed.

Lemma In_window now db skip limit c :
  In c (window now db skip limit) ->
  In c (fitness_classes db) /\ now < FitnessClass.datetime_utc c.
Proof.
  unfold window, sql.offset. intros H.
  apply In_limit, In_skipn in H. rewrite order_by_In in H.
  rewrite gtb_ltb_filter in H. apply filter_In in H.
  now rewrite Z.ltb_lt in H.
Qed.

Lemma utc_instant_return t d :
  utc_instant t = pydatetime.Return d ->
  d = pydatetime.mk_datetime t (Some 0) /\ pydatetime.in_range t = true.
Proof.
  unfold utc_instant. destruct (pydatetime.in_range t); [|discriminate].
  now intros [= <-].
Qed.

Lemma astimezone_return zone t off d :
  pydatetime.astimezone zone (pydatetime.mk_datetime t (Some off))
  = pydatetime.Return d ->
  pydatetime.in_range (t - off) = true
  /\ d = pydatetime.mk_datetime
           (t - off + pydatetime.utcoffset_of_utc zone (t - off))
           (Some (pydatetime.utcoffset_of_utc zone (t - off)))
  /\ pydatetime.in_range (pydatetime.ticks d) = true.
Proof.
  unfold pydatetime.astimezone. rewrite astimezone_utc_instant.
  unfold utc_instant, pydatetime.add.
  destruct (pydatetime.in_range (t - off)); [|discriminate]. simpl.
  destruct (pydatetime.in_range
              (t - off + pydatetime.utcoffset_of_utc zone (t - off))) eqn:E;
    [|discriminate].
  intros [= <-]. simpl. now rewrite E.
Qed.

Lemma order_by_sorted_id {A} (key : A -> Z) l :
  StronglySorted (le_by key) l -> sql.order_by key l = l.
Proof.
  induction 1 as [|x l _ IH Hall]; simpl; [reflexivity|].
  rewrite IH. destruct l as [|y l]; [reflexivity|]. simpl.
  inversion Hall as [|? ? Hxy _]; subst. unfold le_by in Hxy.
  destruct (Z.leb_spec (key x) (key y)); [reflexivity|lia].
Qed.

(** One entry of the seed list, when it is computed. *)
Lemma at_time_return IST wall offset hour minute days d :
  pydatetime.check_time_fields hour minute 0 0 = true ->
  seed_data.at_time IST (pydatetime.mk_datetime wall (Some offset))
    hour minute days = pydatetime.Return d ->
  d = pydatetime.mk_datetime
        (wall - wall mod pydatetime.US_PER_DAY
         + (hour * 3600 + minute * 60) * pydatetime.US_PER_SECOND
         + days * pydatetime.US_PER_DAY - offset)
        (Some 0).
Proof.
  intros Hchk. unfold seed_data.at_time, pydatetime.replace_time.
  rewrite Hchk. cbn [pydatetime.rbind pydatetime.ticks pydatetime.tzinfo].
  unfold pydatetime.add. cbn [pydatetime.ticks pydatetime.tzinfo].
  destruct (pydatetime.in_range _); [|discriminate].
  cbn [pydatetime.rbind]. unfold timezone.ist_to_utc.
  cbn [pydatetime.tzinfo pydatetime.rbind]. rewrite astimezone_utc_instant.
  intros H. apply utc_instant_return in H. destruct H as [-> _].
  f_equal. lia.
Qed.

Lemma at_time_succeeds IST wall offset hour minute days :
  pydatetime.check_time_fields hour minute 0 0 = true ->
  pydatetime.in_range
    (wall - wall mod pydatetime.US_PER_DAY
     + (hour * 3600 + minute * 60) * pydatetime.US_PER_SECOND
     + days * pydatetime.US_PER_DAY) = true ->
  pydatetime.in_range
    (wall - wall mod pydatetime.US_PER_DAY
     + (hour * 3600 + minute * 60) * pydatetime.US_PER_SECOND
     + days * pydatetime.US_PER_DAY - offset) = true ->
  exists d,
    seed_data.at_time IST (pydatetime.mk_datetime wall (Some offset))
      hour minute days = pydatetime.Return d.
Proof.
  intros Hchk H1 H2. unfold seed_data.at_time, pydatetime.replace_time.
  rewrite Hchk. cbn [pydatetime.rbind pydatetime.ticks pydatetime.tzinfo].
  unfold pydatetime.add. cbn [pydatetime.ticks pydatetime.tzinfo].
  replace (wall - wall mod pydatetime.US_PER_DAY
           + ((hour * 3600 + minute * 60 + 0) * pydatetime.US_PER_SECOND + 0)
           + days * pydatetime.US_PER_DAY)
    with (wall - wall mod pydatetime.US_PER_DAY
          + (hour * 3600 + minute * 60) * pydatetime.US_PER_SECOND
          + days * pydatetime.US_PER_DAY) by lia.
  rewrite H1. cbn [pydatetime.rbind]. unfold timezone.ist_to_utc.
  cbn [pydatetime.tzinfo pydatetime.rbind]. rewrite astimezone_utc_instant.
  unfold utc_instant. rewrite H2. eauto.
Qed.

Lemma check_existing_after_row db b cid e :
  crud.check_existing_booking db cid e = false ->
  Booking.client_email b <> e ->
  crud.check_existing_booking (with_row db b) cid e = false.
Proof.
  intros H Hne.
  destruct (crud.check_existing_booking (with_row db b) cid e) eqn:E;
    [|reflexivity].
  apply check_existing_true in E. destruct E as (x & Hx & Hc & He).
  simpl in Hx. apply in_app_or in Hx. destruct Hx as [Hx|[<-|[]]].
  - rewrite <- H. symmetry. apply check_existing_true. now exists x.
  - contradiction.
Qed.

Lemma gates_pass_accepts IST now stamp booking_data db c :
  gates_pass now booking_data db c ->
  routes.create_booking IST now stamp booking_data db
  = (Ok (inserted_row stamp booking_data db),
     with_row db (inserted_row stamp booking_data db)).
Proof.
  intros (Hf & Ht & Hs & Hd).
  unfold routes.create_booking, bind, query, raise, update, ret, uncaught.
  rewrite Hf.
  destruct (Z.ltb_spec (FitnessClass.datetime_utc c) now); [lia|].
  destruct (Z.leb_spec (models.available_slots db c) 0); [lia|].
  now rewrite Hd.
Qed.

Lemma shown_then_stored IST t shown :
  timezone.datetime_to_ist IST (pydatetime.mk_datetime t None)
  = pydatetime.Return shown ->
  timezone.ist_to_utc IST shown
  = pydatetime.Return (pydatetime.mk_datetime t (Some 0))
  /\ instant shown = Some t.
Proof.
  unfold timezone.datetime_to_ist, pydatetime.localize_fixed. simpl.
  intros H. apply astimezone_return in H.
  rewrite !Z.sub_0_r in H. destruct H as (Hr & -> & _).
  unfold timezone.ist_to_utc, instant. simpl.
  rewrite astimezone_utc_instant. unfold utc_instant.
  replace (t + pydatetime.utcoffset_of_utc IST t
           - pydatetime.utcoffset_of_utc IST t) with t by lia.
  rewrite Hr. split; reflexivity.
Qed.

(* ================================================================== *)
(** ** Request validation and response models *)
(* ================================================================== *)

Lemma validate_BookingCreate_some EmailStr body booking_data :
  schemas.validate_BookingCreate EmailStr body = Some booking_data ->
  EmailStr (schemas.raw_client_email body)
  = Some (schemas.client_email booking_data)
  /\ schemas.class_id booking_data = schemas.raw_class_id body
  /\ schemas.client_name booking_data = schemas.raw_client_name body
  /\ 1 <= pystr.len (schemas.raw_client_name body) <= 100.
Proof.
  unfold schemas.validate_BookingCreate.
  destruct (Z.leb_spec 1 (pystr.len (schemas.raw_client_name body)));
    [|discriminate].
  destruct (Z.leb_spec (pystr.len (schemas.raw_client_name body)) 100);
    [|discriminate].
  simpl. destruct (EmailStr (schemas.raw_client_email body)) as [address|];
    [|discriminate].
  intros [= <-]. simpl. repeat split; assumption.
Qed.

Lemma sample_EmailStr_guarantee : schemas.EmailStr_guarantee sample.EmailStr.
Proof.
  intros text address. unfold sample.EmailStr.
  destruct (pydatetime.find_char "@" _) as [i|]; [|discriminate].
  match goal with
  | |- (if ?cond then _ else _) = _ -> _ => destruct cond eqn:E
  end; [|discriminate].
  intros [= <-].
  apply andb_prop in E as [E Hns]. apply andb_prop in E as [_ Hne].
  split; [now apply negb_true_iff|exact Hns].
Qed.

Lemma FitnessClassResponse_from_attributes_return IST db c item :
  schemas.FitnessClassResponse_from_attributes IST db c
  = pydatetime.Return item ->
  models.datetime_ist IST c
  = pydatetime.Return (schemas.FitnessClassResponse.datetime_ist item)
  /\ item
     = schemas.FitnessClassResponse.mk
         (FitnessClass.id c) (FitnessClass.name c) (FitnessClass.instructor c)
         (schemas.FitnessClassResponse.datetime_ist item)
         (models.available_slots db c) (FitnessClass.total_slots c).
Proof.
  unfold schemas.FitnessClassResponse_from_attributes.
  destruct (models.datetime_ist IST c) as [t|]; simpl; [|discriminate].
  intros [= <-]. split; reflexivity.
Qed.

Lemma FitnessClassResponse_from_attributes_shown IST db c :
  shown (schemas.FitnessClassResponse_from_attributes IST db c)
  = shown (models.datetime_ist IST c).
Proof.
  unfold schemas.FitnessClassResponse_from_attributes.
  now destruct (models.datetime_ist IST c).
Qed.


(** GET /classes once the parameters are accepted. *)
Lemma get_classes_accepted IST now skip limit db k l :
  dependencies.get_pagination_params skip limit
  = Ok (dependencies.mk_pagination k l) ->
  routes.get_classes IST now skip limit db
  = match pydatetime.rbind (crud.get_upcoming_classes now db k l)
            (schemas.new_ClassListResponse IST db) with
    | pydatetime.Return resp => (Ok resp, db)
    | pydatetime.Raise _ => (Err classes_not_fetched, db)
    end.
Proof.
  intros H. unfold routes.get_classes, bind, lift, try_except.
  rewrite H. reflexivity.
Qed.

Lemma get_pagination_params_cases skip limit :
  let k := match skip with Some n => n | None => 0 end in
  let l := match limit with Some n => n | None => 10 end in
  (0 <= k /\ 1 <= l <= 100
   /\ dependencies.get_pagination_params skip limit
      = Ok (dependencies.mk_pagination k l))
  \/ ((k < 0 \/ l < 1 \/ 100 < l)
      /\ dependencies.get_pagination_params skip limit
         = dependencies.validation_error).
Proof.
  intros k l. unfold dependencies.get_pagination_params. fold k l.
  destruct (Z.leb_spec 0 k); simpl; [|right; split; [lia|reflexivity]].
  destruct (Z.leb_spec 1 l); simpl; [|right; split; [lia|reflexivity]].
  destruct (Z.leb_spec l 100); simpl; [|right; split; [lia|reflexivity]].
  left. repeat split; lia.
Qed.

Lemma new_ClassListResponse_return IST db classes resp :
  schemas.new_ClassListResponse IST db classes = pydatetime.Return resp ->
  schemas.ClassListResponse.total resp = Z.of_nat (List.length classes)
  /\ List.length (schemas.ClassListResponse.classes resp)
     = List.length classes
  /\ Forall2 (fun c item =>
                schemas.FitnessClassResponse_from_attributes IST db c
                = pydatetime.Return item)
             classes (schemas.ClassListResponse.classes resp).
Proof.
  unfold schemas.new_ClassListResponse.
  destruct (schemas.build_all _ classes) as [items|] eqn:E; simpl;
    [|discriminate].
  intros [= <-]. simpl. split; [reflexivity|]. split.
  - now apply build_all_length in E.
  - now apply build_all_return.
Qed.

Lemma new_BookingListResponse_return IST db rows resp :
  schemas.new_BookingListResponse IST db rows = pydatetime.Return resp ->
  schemas.BookingListResponse.total resp = Z.of_nat (List.length rows)
  /\ List.length (schemas.BookingListResponse.bookings resp)
     = List.length rows
  /\ Forall2 (fun b item =>
                schemas.BookingResponse_from_attributes IST db b
                = pydatetime.Return item)
             rows (schemas.BookingListResponse.bookings resp).
Proof.
  unfold schemas.new_BookingListResponse.
  destruct (schemas.build_all _ rows) as [items|] eqn:E; simpl;
    [|discriminate].
  intros [= <-]. simpl. split; [reflexivity|]. split.
  - now apply build_all_length in E.
  - now apply build_all_return.
Qed.

Lemma new_BookingListResponse_shown IST db rows :
  forallb (fun b => shown (schemas.BookingResponse_from_attributes IST db b))
          rows = true ->
  exists resp, schemas.new_BookingListResponse IST db rows
               = pydatetime.Return resp.
Proof.
  intros H. apply build_all_shown in H as [items E].
  unfold schemas.new_BookingListResponse. rewrite E. simpl. eauto.
Qed.

Lemma new_BookingListResponse_not_shown IST db rows :
  forallb (fun b => shown (schemas.BookingResponse_from_attributes IST db b))
          rows = false ->
  exists e, schemas.new_BookingListResponse IST db rows = pydatetime.Raise e.
Proof.
  intros H. apply build_all_not_shown in H as [e E].
  unfold schemas.new_BookingListResponse. rewrite E. simpl. eauto.
Qed.

Lemma forallb_same {A} (f g : A -> bool) l :
  (forall x, f x = g x) -> forallb f l = forallb g l.
Proof.
  intros H. induction l as [|x l IH]; simpl; [reflexivity|].
  now rewrite H, IH.
Qed.

Lemma new_ClassListResponse_shown IST db classes :
  forallb (fun c => shown (models.datetime_ist IST c)) classes = true ->
  exists resp, schemas.new_ClassListResponse IST db classes
               = pydatetime.Return resp.
Proof.
  intros H.
  assert (H' : forallb (fun c => shown
                 (schemas.FitnessClassResponse_from_attributes IST db c))
                 classes = true).
  { rewrite <- H. apply forallb_same. intros c.
    apply FitnessClassResponse_from_attributes_shown. }
  apply build_all_shown in H' as [items E].
  unfold schemas.new_ClassListResponse. rewrite E. simpl. eauto.
Qed.

Lemma new_ClassListResponse_not_shown IST db classes :
  forallb (fun c => shown (models.datetime_ist IST c)) classes = false ->
  exists e, schemas.new_ClassListResponse IST db classes = pydatetime.Raise e.
Proof.
  intros H.
  assert (H' : forallb (fun c => shown
                 (schemas.FitnessClassResponse_from_attributes IST db c))
                 classes = false).
  { rewrite <- H. apply forallb_same. intros c.
    apply FitnessClassResponse_from_attributes_shown. }
  apply build_all_not_shown in H' as [e E].
  unfold schemas.new_ClassListResponse. rewrite E. simpl. eauto.
Qed.

(** POST /book on a validated body, by the outcome of its function. *)
Lemma main_book_cases IST now stamp booking_data db :
  main.book IST now stamp booking_data db
  = match routes.create_booking IST now stamp booking_data db with
    | (Ok row, db1) =>
        match schemas.BookingResponse_from_attributes IST db1 row with
        | pydatetime.Return item => (Ok item, db1)
        | pydatetime.Raise _ => (Err unexpected, db1)
        end
    | (Err e, db1) => (Err e, db1)
    end.
Proof.
  unfold main.book, bind, uncaught, unexpected_error, raise.
  destruct (routes.create_booking IST now stamp booking_data db)
    as [[row|e] db1]; reflexivity.
Qed.

(** The row just stored can be shown when its class and its time
    stamp can. *)
Lemma inserted_row_is_shown IST stamp booking_data db c :
  class_ids_unique db -> In c (fitness_classes db) ->
  schemas.class_id booking_data = FitnessClass.id c ->
  shown (models.datetime_ist IST c) = true ->
  shown (timezone.datetime_to_ist IST (pydatetime.mk_datetime stamp None))
  = true ->
  exists item,
    schemas.BookingResponse_from_attributes IST
      (with_row db (inserted_row stamp booking_data db))
      (inserted_row stamp booking_data db)
    = pydatetime.Return item.
Proof.
  intros Hu Hin Hid Hc Hs.
  unfold schemas.BookingResponse_from_attributes.
  change (models.booked_at_ist IST (inserted_row stamp booking_data db))
    with (timezone.datetime_to_ist IST (pydatetime.mk_datetime stamp None)).
  destruct (timezone.datetime_to_ist IST _) as [at_|]; [|discriminate].
  cbn [pydatetime.rbind].
  unfold models.fitness_class_of.
  cbn [with_row fitness_classes inserted_row Booking.class_id].
  rewrite (find_class_unique _ c _ Hu Hin (eq_sym Hid)).
  unfold schemas.FitnessClassResponse_from_attributes.
  destruct (models.datetime_ist IST c) as [t|]; [|discriminate].
  cbn [pydatetime.rbind]. eauto.
Qed.

(* ================================================================== *)
(** ** Properties of the create-booking workflow *)
(* ================================================================== *)

(** C1. Capacity invariant.  From a store whose class ids are unique
    and whose classes are not overbooked, every state reached by
    sequential runs of POST /book keeps, for every class, the number
    of bookings that reference it within [total_slots]; so
    [available_slots] is never negative.  The reason is the gate: a
    request for a class with [available_slots <= 0] leaves the store
    as it is. *)
Theorem capacity_invariant IST init db :
  class_ids_unique init -> capacity_ok init -> reachable IST init db ->
  forall c, In c (fitness_classes db) ->
    booking_count db (FitnessClass.id c) <= FitnessClass.total_slots c
    /\ 0 <= models.available_slots db c
    /\ (models.available_slots db c <= 0 ->
        forall now stamp booking_data,
          schemas.class_id booking_data = FitnessClass.id c ->
          snd (routes.create_booking IST now stamp booking_data db) = db).
Proof.
  intros Hu Hc Hr.
  assert (Hinv : class_ids_unique db /\ capacity_ok db).
  { induction Hr as [|db now stamp bd Hr [IHu IHc]]; [now split|].
    split; [|now apply capacity_step].
    unfold class_ids_unique. now rewrite create_booking_classes. }
  destruct Hinv as [Hu' Hc'].
  intros c Hin. pose proof (Hc' c Hin) as Hle.
  rewrite available_slots_count.
  repeat split; try lia.
  intros Hfull now stamp bd Hid.
  destruct (create_booking_cases IST now stamp bd db)
    as [[e ->]|[c' [(Hf & _ & Hs & _) _]]]; [reflexivity|].
  exfalso. apply get_class_by_id_return in Hf as [Hf _].
  rewrite (find_class_unique _ c _ Hu' Hin (eq_sym Hid)) in Hf.
  injection Hf as <-. rewrite available_slots_count in Hs. lia.
Qed.

Lemma capacity_invariant_witness :
  let s := snd (sample.book sample.second_user
                  (snd (sample.book sample.first_user sample.db))) in
  booking_count s (FitnessClass.id sample.hiit)
  <= FitnessClass.total_slots sample.hiit
  /\ 0 <= models.available_slots s sample.hiit
  /\ (models.available_slots s sample.hiit <= 0 ->
      forall now stamp booking_data,
        schemas.class_id booking_data = FitnessClass.id sample.hiit ->
        snd (routes.create_booking config.Asia_Kolkata now stamp
               booking_data s) = s).
Proof.
  intros s. apply (capacity_invariant config.Asia_Kolkata sample.db s).
  - unfold class_ids_unique. simpl.
    repeat constructor; simpl; intuition discriminate.
  - intros c [<-|[<-|[]]]; vm_compute; discriminate.
  - apply reach_book, reach_book, reach_init.
  - simpl. right. left. reflexivity.
Defined.

(** C3. Atomicity.  Whenever the function of POST /book raises, the
    store after the call is the store before it; and a request that
    fails a gate (unknown class, or a lookup that raises; class
    already started; no slot left; same class and e-mail already
    booked) does end in an error and leaves the store as it is. *)
Theorem create_booking_failure_is_atomic IST now stamp booking_data db :
  (forall e db',
     routes.create_booking IST now stamp booking_data db = (Err e, db') ->
     db' = db)
  /\ ((exists raised,
         crud.get_class_by_id db (schemas.class_id booking_data)
         = pydatetime.Raise raised)
      \/ crud.get_class_by_id db (schemas.class_id booking_data)
         = pydatetime.Return None
      \/ (exists c,
            crud.get_class_by_id db (schemas.class_id booking_data)
            = pydatetime.Return (Some c)
            /\ (FitnessClass.datetime_utc c < now
                \/ models.available_slots db c <= 0
                \/ crud.check_existing_booking db
                     (schemas.class_id booking_data)
                     (pystr.lower (schemas.client_email booking_data)) = true))
      -> exists e,
           routes.create_booking IST now stamp booking_data db = (Err e, db)).
Proof.
  destruct (create_booking_cases IST now stamp booking_data db)
    as [[e0 E]|[c [(Hf & Ht & Hs & Hd) E]]]; rewrite E.
  - split; [intros e db' [= _ <-]; reflexivity|]. intros _. now exists e0.
  - split; [discriminate|].
    intros [[raised Hn]|[Hn|[c' [Hf' H]]]]; [congruence|congruence|].
    assert (c' = c) as -> by congruence.
    destruct H as [H|[H|H]]; [lia|lia|congruence].
Qed.

Lemma create_booking_failure_is_atomic_witness :
  exists e,
    routes.create_booking config.Asia_Kolkata sample.now sample.now
      sample.second_user (snd (sample.book sample.first_user sample.db))
    = (Err e, snd (sample.book sample.first_user sample.db)).
Proof.
  apply (create_booking_failure_is_atomic config.Asia_Kolkata).
  right. right. exists sample.hiit. split; [reflexivity|].
  right. left. vm_compute. discriminate.
Defined.

(** C2, as the code has it.  From a store whose e-mails are in lower
    case and whose (class, e-mail) pairs are unique, every state
    reached by sequential runs of POST /book holds at most one booking
    per class and normalized e-mail.  After a successful booking, any
    later request for the same class and the same normalized e-mail is
    answered with an error and inserts nothing; the error is the 409
    "You have already booked this class" whenever the class is not yet
    past the clock and still has a free slot, the two gates that come
    first. *)
Theorem one_booking_per_pair IST init db :
  emails_normalized init -> pairs_unique init -> reachable IST init db ->
  (forall cid e, (pair_count db cid e <= 1)%nat)
  /\ (forall now stamp booking_data b db1,
        routes.create_booking IST now stamp booking_data db = (Ok b, db1) ->
        forall db2 now' stamp' again,
          reachable IST db1 db2 ->
          schemas.class_id again = schemas.class_id booking_data ->
          pystr.lower (schemas.client_email again)
          = pystr.lower (schemas.client_email booking_data) ->
          exists e,
            routes.create_booking IST now' stamp' again db2 = (Err e, db2)
            /\ (forall c,
                  crud.get_class_by_id db2 (schemas.class_id again)
                  = pydatetime.Return (Some c) ->
                  now' <= FitnessClass.datetime_utc c ->
                  0 < models.available_slots db2 c ->
                  e = already_booked c
                        (pystr.lower (schemas.client_email again)))).
Proof.
  intros Hn Hu Hr. split.
  - assert (H : emails_normalized db /\ pairs_unique db).
    { induction Hr as [|db now stamp bd _ [IHn IHu]]; [now split|].
      now apply duplicate_step. }
    apply H.
  - intros now stamp bd b db1 Hok db2 now' stamp' again Hr2 Hc He.
    apply create_booking_ok in Hok. destruct Hok as (Hb & -> & _).
    apply (booked_pair_is_refused IST now' stamp' again db2 b).
    + apply (reachable_keeps_rows IST _ _ _ Hr2). simpl.
      apply in_or_app. right. now left.
    + rewrite Hb, Hc. reflexivity.
    + rewrite Hb, He. reflexivity.
Qed.

Lemma one_booking_per_pair_witness :
  let s := snd (sample.book sample.john sample.db) in
  (forall cid e, (pair_count s cid e <= 1)%nat)
  /\ exists e,
       sample.book (schemas.mk_BookingCreate 1 "J. Doe" "JOHN@example.com")
         (snd (sample.book sample.john s))
       = (Err e, snd (sample.book sample.john s)).
Proof.
  intros s.
  assert (Hn : emails_normalized sample.db) by (intros b []).
  assert (Hu : pairs_unique sample.db) by (intros cid e; apply Nat.le_0_l).
  split.
  - apply (one_booking_per_pair config.Asia_Kolkata sample.db s Hn Hu).
    apply reach_book, reach_init.
  - destruct (one_booking_per_pair config.Asia_Kolkata sample.db sample.db
                Hn Hu (reach_init _ _)) as [_ H].
    destruct (H sample.now (sample.now + 1000000) sample.john _ _ eq_refl
                (snd (sample.book sample.john s)) sample.now
                (sample.now + 1000000)
                (schemas.mk_BookingCreate 1 "J. Doe" "JOHN@example.com"))
      as [e [E _]].
    + apply reach_book, reach_init.
    + reflexivity.
    + reflexivity.
    + exists e. exact E.
Defined.

(** C2 as worded fails on a class with one slot: the first booking
    takes the slot, and the same request sent again is stopped by the
    capacity gate, which answers "Class is fully booked". *)
Lemma second_attempt_may_be_fully_booked :
  ~ second_attempt_already_booked config.Asia_Kolkata sample.db
      sample.now (sample.now + 1000000) sample.now (sample.now + 1000000)
      sample.first_user.
Proof.
  intros H. destruct (H _ _ eq_refl) as [c E].
  vm_compute in E. discriminate E.
Qed.

(** C4 at the boundary.  A class whose scheduled instant equals the
    clock reading passes the schedule gate: with a free slot and no
    earlier booking of the pair, the request is accepted and the row
    inserted. *)
Theorem class_starting_now_is_bookable IST now stamp booking_data db c :
  crud.get_class_by_id db (schemas.class_id booking_data)
  = pydatetime.Return (Some c) ->
  FitnessClass.datetime_utc c = now ->
  0 < models.available_slots db c ->
  crud.check_existing_booking db (schemas.class_id booking_data)
    (pystr.lower (schemas.client_email booking_data)) = false ->
  routes.create_booking IST now stamp booking_data db
  = (Ok (inserted_row stamp booking_data db),
     with_row db (inserted_row stamp booking_data db)).
Proof.
  intros Hf Ht Hs Hd.
  destruct (create_booking_cases IST now stamp booking_data db)
    as [[e E]|[c' [_ E]]]; [|exact E].
  exfalso. revert E.
  unfold routes.create_booking, bind, query, raise, update, ret, uncaught.
  rewrite Hf.
  destruct (Z.ltb_spec (FitnessClass.datetime_utc c) now); [lia|].
  destruct (Z.leb_spec (models.available_slots db c) 0); [lia|].
  rewrite Hd. discriminate.
Qed.

Lemma class_starting_now_is_bookable_witness :
  routes.create_booking config.Asia_Kolkata
    (FitnessClass.datetime_utc sample.yoga)
    (FitnessClass.datetime_utc sample.yoga) sample.john sample.db
  = (Ok (inserted_row (FitnessClass.datetime_utc sample.yoga)
           sample.john sample.db),
     with_row sample.db
       (inserted_row (FitnessClass.datetime_utc sample.yoga)
          sample.john sample.db)).
Proof.
  apply (class_starting_now_is_bookable config.Asia_Kolkata _ _ _ _
           sample.yoga).
  - reflexivity.
  - reflexivity.
  - vm_compute. reflexivity.
  - reflexivity.
Defined.

(* ================================================================== *)
(** ** Listings *)
(* ================================================================== *)

(** C5. For [skip >= 0] and [1 <= limit <= 100], as long as [skip]
    fits the 64-bit integer of the statement, the list of upcoming
    classes is returned: it holds only classes of the store scheduled
    strictly after the clock reading, is in ascending order of the
    scheduled instant, and is the window [skip, skip + limit) of a
    sorted arrangement of all such classes.  With [skip = 0] and
    [limit = 1] and at least one upcoming class (two, say) the answer
    is exactly one class, and none is scheduled earlier.  A larger
    [skip] is not bound: the call raises [OverflowError] and returns
    no list. *)
Theorem get_upcoming_classes_correct now db skip limit :
  0 <= skip -> 1 <= limit <= 100 ->
  (skip <= sql.INT64_MAX ->
   exists listed,
     crud.get_upcoming_classes now db skip limit = pydatetime.Return listed
     /\ Forall (fun c => In c (fitness_classes db)
                         /\ now < FitnessClass.datetime_utc c)
               listed
     /\ StronglySorted by_time listed
     /\ (exists sorted,
           Permutation sorted (upcoming now db)
           /\ StronglySorted by_time sorted
           /\ listed = firstn (Z.to_nat limit) (skipn (Z.to_nat skip) sorted))
     /\ (skip = 0 -> limit = 1 -> upcoming now db <> [] ->
         exists first,
           listed = [first]
           /\ In first (fitness_classes db)
           /\ now < FitnessClass.datetime_utc first
           /\ forall c, In c (fitness_classes db) ->
                now < FitnessClass.datetime_utc c ->
                FitnessClass.datetime_utc first
                <= FitnessClass.datetime_utc c))
  /\ (sql.INT64_MAX < skip ->
      crud.get_upcoming_classes now db skip limit
      = pydatetime.Raise pydatetime.OverflowError).
Proof.
  intros Hskip Hlimit. split.
  2:{ intros Hbig. unfold crud.get_upcoming_classes.
      rewrite bind_int_in_range by (unfold sql.INT64_MIN, sql.INT64_MAX; lia).
      simpl. rewrite bind_int_out_of_range by (right; exact Hbig).
      reflexivity. }
  intros Hfit. exists (window now db skip limit).
  split.
  { apply get_upcoming_classes_in_range;
      unfold sql.INT64_MIN, sql.INT64_MAX in *; lia. }
  set (listed := window now db skip limit).
  assert (E : listed
              = firstn (Z.to_nat limit)
                  (skipn (Z.to_nat skip)
                     (sql.order_by FitnessClass.datetime_utc (upcoming now db)))).
  { unfold listed, window, upcoming, sql.offset.
    rewrite limit_firstn by lia. now rewrite gtb_ltb_filter. }
  pose proof (order_by_sorted FitnessClass.datetime_utc (upcoming now db))
    as Hsorted.
  assert (Hin : forall c,
             In c (sql.order_by FitnessClass.datetime_utc (upcoming now db))
             <-> In c (fitness_classes db) /\ now < FitnessClass.datetime_utc c).
  { intros c. rewrite order_by_In. unfold upcoming.
    rewrite filter_In, Z.ltb_lt. reflexivity. }
  split; [|split; [|split]].
  - rewrite E. apply Forall_forall. intros c Hc.
    apply Hin. eapply In_skipn, In_firstn, Hc.
  - rewrite E. now apply sorted_firstn, sorted_skipn.
  - exists (sql.order_by FitnessClass.datetime_utc (upcoming now db)).
    repeat split; [apply order_by_perm|exact Hsorted|exact E].
  - intros -> -> Hne. rewrite E. simpl.
    destruct (sql.order_by FitnessClass.datetime_utc (upcoming now db))
      as [|first rest] eqn:S.
    + exfalso. apply Hne.
      apply Permutation_nil. rewrite <- S. apply order_by_perm.
    + exists first. destruct (proj1 (Hin first) (or_introl eq_refl)) as [H1 H2].
      repeat split; [exact H1|exact H2|].
      intros c Hc Hnow.
      destruct (proj2 (Hin c) (conj Hc Hnow)) as [<-|Hrest]; [lia|].
      inversion Hsorted as [|? ? _ Hall]; subst.
      rewrite Forall_forall in Hall. exact (Hall c Hrest).
Qed.

Lemma get_upcoming_classes_correct_witness :
  (exists listed first,
     crud.get_upcoming_classes sample.now sample.db 0 1
     = pydatetime.Return listed
     /\ listed = [first]
     /\ In first (fitness_classes sample.db)
     /\ sample.now < FitnessClass.datetime_utc first
     /\ forall c, In c (fitness_classes sample.db) ->
          sample.now < FitnessClass.datetime_utc c ->
          FitnessClass.datetime_utc first <= FitnessClass.datetime_utc c)
  /\ crud.get_upcoming_classes sample.now sample.db (2 ^ 63) 1
     = pydatetime.Raise pydatetime.OverflowError.
Proof.
  split.
  - destruct (get_upcoming_classes_correct sample.now sample.db 0 1)
      as [H _]; [lia|lia|].
    destruct H as (listed & E & _ & _ & _ & Hone); [discriminate|].
    destruct Hone as (first & H); [reflexivity|reflexivity|discriminate|].
    exists listed, first. split; [exact E|exact H].
  - destruct (get_upcoming_classes_correct sample.now sample.db (2 ^ 63) 1)
      as [_ H]; [lia|lia|].
    apply H. reflexivity.
Defined.

(** C8. In every list answer of GET /classes and of GET /bookings,
    [total] is the length of the list in that answer.  For GET
    /classes this is the size of the page, which can be smaller than
    the number of upcoming classes in the store: the sample store has
    two, and with [limit=1] the answer has [total = 1]. *)
Theorem total_is_page_length :
  (forall IST now skip limit db resp db',
     routes.get_classes IST now skip limit db = (Ok resp, db') ->
     schemas.ClassListResponse.total resp
     = Z.of_nat (List.length (schemas.ClassListResponse.classes resp)))
  /\ (forall IST email db resp db',
        routes.get_bookings IST email db = (Ok resp, db') ->
        schemas.BookingListResponse.total resp
        = Z.of_nat (List.length (schemas.BookingListResponse.bookings resp)))
  /\ (exists resp,
        routes.get_classes config.Asia_Kolkata sample.now None (Some 1)
          sample.db
        = (Ok resp, sample.db)
        /\ schemas.ClassListResponse.total resp = 1
        /\ List.length (upcoming sample.now sample.db) = 2%nat).
Proof.
  split; [|split].
  - intros IST now skip limit db resp db'.
    destruct (get_pagination_params_cases skip limit)
      as [(_ & _ & E)|(_ & E)].
    + rewrite (get_classes_accepted _ _ _ _ _ _ _ E).
      destruct (crud.get_upcoming_classes now db _ _) as [classes|]; simpl;
        [|discriminate].
      destruct (schemas.new_ClassListResponse IST db classes) as [r|] eqn:N;
        [|discriminate].
      intros [= <- _].
      apply new_ClassListResponse_return in N as (Ht & Hl & _).
      now rewrite Ht, Hl.
    + unfold routes.get_classes, bind, lift. rewrite E. discriminate.
  - intros IST [s|] db resp db'.
    + rewrite get_bookings_some.
      destruct (pystr.is_empty (pystr.strip s)); [discriminate|].
      destruct (schemas.new_BookingListResponse IST db _) as [r|] eqn:N;
        [|discriminate].
      intros [= <- _].
      apply new_BookingListResponse_return in N as (Ht & Hl & _).
      now rewrite Ht, Hl.
    + discriminate.
  - eexists. repeat split.
Qed.

Lemma total_is_page_length_witness :
  schemas.ClassListResponse.total
    (schemas.ClassListResponse.mk 1 [sample.yoga_shown 10]) = 1
  /\ schemas.BookingListResponse.total
       (schemas.BookingListResponse.mk 0 []) = 0.
Proof.
  destruct total_is_page_length as (Hc & Hb & _). split.
  - exact (Hc config.Asia_Kolkata sample.now None (Some 1) sample.db
             (schemas.ClassListResponse.mk 1 [sample.yoga_shown 10])
             sample.db eq_refl).
  - exact (Hb config.Asia_Kolkata (Some "nonexistent@example.com") sample.db
             (schemas.BookingListResponse.mk 0 []) sample.db eq_refl).
Defined.

(* ================================================================== *)
(** ** E-mail handling *)
(* ================================================================== *)




(** C7, as the code has it.  GET /bookings without the [email]
    parameter is answered 422; with an empty or blank [email] it is
    answered 400 "Email parameter is required and cannot be empty";
    with an [email] under which nothing is stored it succeeds with an
    empty list and [total = 0].  No case touches the store. *)
Theorem get_bookings_validation IST db :
  routes.get_bookings IST None db
  = (Err (mk_HTTPException HTTP_422_UNPROCESSABLE_ENTITY
            (Message "Validation error")), db)
  /\ (forall s, pystr.strip s = "" ->
        routes.get_bookings IST (Some s) db = (Err email_required, db))
  /\ (forall s, pystr.strip s <> "" ->
        (forall b, In b (bookings db) ->
           Booking.client_email b <> pystr.lower (pystr.strip s)) ->
        routes.get_bookings IST (Some s) db
        = (Ok (schemas.BookingListResponse.mk 0 []), db)).
Proof.
  repeat split.
  - intros s Hs. now rewrite get_bookings_some, Hs.
  - intros s Hs Hnone. rewrite get_bookings_some.
    destruct (pystr.is_empty (pystr.strip s)) eqn:E;
      [now apply is_empty_true in E|].
    destruct (crud.get_bookings_by_email db (pystr.lower (pystr.strip s)))
      as [|b l] eqn:F; [reflexivity|].
    exfalso.
    assert (Hb : In b (crud.get_bookings_by_email db
                         (pystr.lower (pystr.strip s))))
      by (rewrite F; now left).
    apply get_bookings_by_email_In in Hb. destruct Hb as [Hin Hb].
    exact (Hnone b Hin Hb).
Qed.

Lemma get_bookings_validation_witness :
  routes.get_bookings config.Asia_Kolkata (Some "   ") sample.db
  = (Err email_required, sample.db)
  /\ routes.get_bookings config.Asia_Kolkata (Some "nonexistent@example.com")
       sample.db
     = (Ok (schemas.BookingListResponse.mk 0 []), sample.db).
Proof.
  destruct (get_bookings_validation config.Asia_Kolkata sample.db)
    as (_ & H400 & H200). split.
  - apply H400. reflexivity.
  - apply H200; [discriminate|intros b []].
Defined.

(** C7 as worded fails on an empty [email]: the answer is 400, not 422. *)
Lemma empty_email_is_not_422 :
  ~ missing_or_blank_is_422 config.Asia_Kolkata (Some "") sample.db.
Proof.
  intros H. destruct H as [d E].
  - right. exists "". split; reflexivity.
  - vm_compute in E. discriminate E.
Qed.

(** C10, as the code has it.  GET /bookings strips and lowers its
    parameter before the query: an address with blanks around it is
    answered exactly as its stripped lower-case form is, and when
    something is left of it the answer is built from the bookings
    stored under the stripped, lower-cased address, and from no
    others.  The function of POST /book only lowers the address it is
    given; but that address comes from [EmailStr], which has dropped
    the blanks around the text of the body, so the stored address has
    none either. *)
Theorem email_query_is_stripped :
  (forall IST db ws1 e ws2,
     pystr.all_space ws1 = true -> pystr.all_space ws2 = true ->
     routes.get_bookings IST (Some (ws1 ++ e ++ ws2)%string) db
     = routes.get_bookings IST (Some (pystr.strip (pystr.lower e))) db)
  /\ (forall IST db ws1 e ws2,
        pystr.all_space ws1 = true -> pystr.all_space ws2 = true ->
        pystr.strip e <> "" ->
        routes.get_bookings IST (Some (ws1 ++ e ++ ws2)%string) db
        = match schemas.new_BookingListResponse IST db
                  (crud.get_bookings_by_email db
                     (pystr.lower (pystr.strip e))) with
          | pydatetime.Return resp => (Ok resp, db)
          | pydatetime.Raise _ => (Err bookings_not_fetched, db)
          end
        /\ forall b,
             In b (crud.get_bookings_by_email db (pystr.lower (pystr.strip e)))
             <-> In b (bookings db)
                 /\ Booking.client_email b = pystr.lower (pystr.strip e))
  /\ (forall IST now stamp booking_data db b db1,
        routes.create_booking IST now stamp booking_data db = (Ok b, db1) ->
        Booking.client_email b
        = pystr.lower (schemas.client_email booking_data))
  /\ (forall EmailStr IST now stamp body booking_data db b db1,
        schemas.EmailStr_guarantee EmailStr ->
        schemas.validate_BookingCreate EmailStr body = Some booking_data ->
        routes.create_booking IST now stamp booking_data db = (Ok b, db1) ->
        EmailStr (schemas.raw_client_email body)
        = Some (schemas.client_email booking_data)
        /\ pystr.strip (Booking.client_email b) = Booking.client_email b).
Proof.
  split; [|split; [|split]].
  - intros IST db ws1 e ws2 H1 H2.
    rewrite !get_bookings_some, strip_surrounded by assumption.
    now rewrite strip_idempotent, lower_strip, lower_idempotent,
      lower_is_empty.
  - intros IST db ws1 e ws2 H1 H2 Hne. split.
    + rewrite get_bookings_some, strip_surrounded by assumption.
      destruct (pystr.is_empty (pystr.strip e)) eqn:E; [|reflexivity].
      now apply is_empty_true in E.
    + intros b. apply get_bookings_by_email_In.
  - intros IST now stamp bd db b db1 Hok.
    apply create_booking_ok in Hok. destruct Hok as (-> & _). reflexivity.
  - intros EmailStr IST now stamp body bd db b db1 Hg Hv Hok.
    apply validate_BookingCreate_some in Hv as (Hv & _).
    destruct (Hg _ _ Hv) as [_ Hns].
    apply create_booking_ok in Hok. destruct Hok as (-> & _).
    split; [exact Hv|]. simpl.
    apply no_space_strip. now rewrite no_space_lower.
Qed.

Lemma email_query_is_stripped_witness :
  routes.get_bookings config.Asia_Kolkata (Some "  John@Example.com ")
    (snd (sample.book sample.john sample.db))
  = (Ok (schemas.BookingListResponse.mk 1
           [schemas.BookingResponse.mk 1 1 "John Doe" "john@example.com"
              (pydatetime.mk_datetime
                 (pydatetime.wall_ticks 2024 1 5 15 30 1 0)
                 (Some (19800 * pydatetime.US_PER_SECOND)))
              (sample.yoga_shown 9)]),
     snd (sample.book sample.john sample.db))
  /\ pystr.strip
       (Booking.client_email
          (inserted_row sample.now
             (schemas.mk_BookingCreate 1 "Ann" "Ann@example.com") sample.db))
     = Booking.client_email
         (inserted_row sample.now
            (schemas.mk_BookingCreate 1 "Ann" "Ann@example.com") sample.db).
Proof.
  destruct email_query_is_stripped as (_ & Hq & _ & Hs). split.
  - destruct (Hq config.Asia_Kolkata
                (snd (sample.book sample.john sample.db))
                "  " "John@Example.com" " " eq_refl eq_refl) as [E _];
      [discriminate|].
    exact E.
  - destruct (Hs sample.EmailStr config.Asia_Kolkata sample.now sample.now
                sample.padded_body
                (schemas.mk_BookingCreate 1 "Ann" "Ann@example.com")
                sample.db _ _ sample_EmailStr_guarantee eq_refl eq_refl)
      as [_ E].
    exact E.
Defined.

(** C10 as worded fails in its last part: a body whose address has
    blanks around it is accepted, and the address is stored without
    them. *)
Lemma stored_email_is_stripped_by_validation :
  ~ stored_email_is_not_stripped sample.EmailStr config.Asia_Kolkata
      sample.now (sample.now + 1000000) sample.padded_body sample.db.
Proof.
  intros H.
  pose proof (H (schemas.mk_BookingCreate 1 "Ann" "Ann@example.com")
                _ _ eq_refl eq_refl) as E.
  vm_compute in E. discriminate E.
Qed.

(* ================================================================== *)
(** ** Parsing date-time texts *)
(* ================================================================== *)



(* ================================================================== *)
(** ** Further properties: pagination and listings *)
(* ================================================================== *)

(** GET /classes and its pagination parameters.  The request is
    answered 422 exactly when [skip] is negative or [limit] is outside
    1..100 (an absent parameter counts as 0 and 10).  Otherwise, when
    [skip] fits the 64-bit integer of the statement and the display
    time of every class of the page can be computed, it succeeds with
    the page, which holds at most [limit] classes, hence at most 100,
    each shown with its attributes; when [skip] does not fit, or the
    display time of a class of the page cannot be computed, the answer
    is the 500 of the route.  The store is left as it was in every
    case. *)
Theorem get_classes_pagination IST now skip limit db :
  let s := match skip with Some n => n | None => 0 end in
  let l := match limit with Some n => n | None => 10 end in
  let page := window now db s l in
  (s < 0 \/ l < 1 \/ 100 < l ->
   routes.get_classes IST now skip limit db
   = (dependencies.validation_error, db))
  /\ (0 <= s <= sql.INT64_MAX -> 1 <= l <= 100 ->
      Z.of_nat (List.length page) <= l <= 100
      /\ (forallb (fun c => shown (models.datetime_ist IST c)) page = true ->
          exists items,
            routes.get_classes IST now skip limit db
            = (Ok (schemas.ClassListResponse.mk
                     (Z.of_nat (List.length page)) items), db)
            /\ Forall2 (fun c item =>
                          schemas.FitnessClassResponse_from_attributes IST db c
                          = pydatetime.Return item)
                       page items)
      /\ (forallb (fun c => shown (models.datetime_ist IST c)) page = false ->
          routes.get_classes IST now skip limit db
          = (Err classes_not_fetched, db)))
  /\ (sql.INT64_MAX < s -> 1 <= l <= 100 ->
      routes.get_classes IST now skip limit db
      = (Err classes_not_fetched, db)).
Proof.
  intros s l page.
  destruct (get_pagination_params_cases skip limit) as [(Hs & Hl & E)|(H & E)].
  - change (0 <= s) in Hs. change (1 <= l <= 100) in Hl.
    change (dependencies.get_pagination_params skip limit
            = Ok (dependencies.mk_pagination s l)) in E.
    rewrite (get_classes_accepted IST now _ _ db _ _ E).
    split; [lia|]. split.
    + intros Hfit _.
      rewrite get_upcoming_classes_in_range
        by (unfold sql.INT64_MIN, sql.INT64_MAX in *; lia).
      cbn [pydatetime.rbind]. fold page. split; [|split].
      * split; [|lia]. unfold page, window.
        rewrite limit_firstn by lia. rewrite length_firstn. lia.
      * intros Hshown.
        destruct (new_ClassListResponse_shown IST db page Hshown) as [r N].
        rewrite N.
        apply new_ClassListResponse_return in N as (Ht & _ & Hall).
        exists (schemas.ClassListResponse.classes r). split; [|exact Hall].
        destruct r as [t items]. simpl in *. now subst t.
      * intros Hshown.
        destruct (new_ClassListResponse_not_shown IST db page Hshown)
          as [e N].
        now rewrite N.
    + intros Hbig _. unfold crud.get_upcoming_classes.
      rewrite bind_int_in_range
        by (unfold sql.INT64_MIN, sql.INT64_MAX; lia).
      cbn [pydatetime.rbind].
      rewrite bind_int_out_of_range by (right; exact Hbig).
      reflexivity.
  - change (s < 0 \/ l < 1 \/ 100 < l) in H.
    unfold routes.get_classes, bind, lift. rewrite E.
    split; [reflexivity|]. split; intros; unfold sql.INT64_MAX in *; lia.
Qed.

Lemma get_classes_pagination_witness :
  routes.get_classes config.Asia_Kolkata sample.now (Some (-1)) None sample.db
  = (dependencies.validation_error, sample.db)
  /\ (exists items,
        routes.get_classes config.Asia_Kolkata sample.now (Some 1) (Some 100)
          sample.db
        = (Ok (schemas.ClassListResponse.mk
                 (Z.of_nat (List.length (window sample.now sample.db 1 100)))
                 items), sample.db)
        /\ Forall2 (fun c item =>
                      schemas.FitnessClassResponse_from_attributes
                        config.Asia_Kolkata sample.db c
                      = pydatetime.Return item)
                   (window sample.now sample.db 1 100) items)
  /\ routes.get_classes config.Asia_Kolkata sample.now (Some 2) None
       sample.late_db
     = (Err classes_not_fetched, sample.late_db)
  /\ routes.get_classes config.Asia_Kolkata sample.now (Some (2 ^ 63)) None
       sample.db
     = (Err classes_not_fetched, sample.db).
Proof.
  split; [|split; [|split]].
  - apply (get_classes_pagination config.Asia_Kolkata sample.now (Some (-1))
             None sample.db).
    left. reflexivity.
  - destruct (get_classes_pagination config.Asia_Kolkata sample.now (Some 1)
                (Some 100) sample.db) as (_ & H & _).
    destruct H as (_ & H & _); [unfold sql.INT64_MAX; lia|lia|].
    apply H. reflexivity.
  - destruct (get_classes_pagination config.Asia_Kolkata sample.now (Some 2)
                None sample.late_db) as (_ & H & _).
    destruct H as (_ & _ & H); [unfold sql.INT64_MAX; lia|lia|].
    apply H. reflexivity.
  - destruct (get_classes_pagination config.Asia_Kolkata sample.now
                (Some (2 ^ 63)) None sample.db) as (_ & _ & H).
    apply H; [reflexivity|lia].
Defined.

(** Consecutive pages of upcoming classes fit together: at one clock
    reading and on one store, as long as the numbers fit the 64-bit
    integers of the statements, the page of [l1] classes from [skip]
    followed by the page of [l2] classes from [skip + l1] is the page
    of [l1 + l2] classes from [skip].  No class is listed twice or
    lost between the pages. *)
Theorem get_upcoming_classes_pages_concat now db skip l1 l2 :
  0 <= skip -> 0 <= l1 -> 0 <= l2 ->
  skip + l1 <= sql.INT64_MAX -> l1 + l2 <= sql.INT64_MAX ->
  exists page1 page2,
    crud.get_upcoming_classes now db skip l1 = pydatetime.Return page1
    /\ crud.get_upcoming_classes now db (skip + l1) l2
       = pydatetime.Return page2
    /\ crud.get_upcoming_classes now db skip (l1 + l2)
       = pydatetime.Return (page1 ++ page2).
Proof.
  intros Hs H1 H2 Hfit1 Hfit2.
  rewrite !get_upcoming_classes_in_range
    by (unfold sql.INT64_MIN, sql.INT64_MAX in *; lia).
  eexists. eexists. split; [reflexivity|]. split; [reflexivity|].
  f_equal. symmetry. unfold window, sql.offset.
  rewrite !limit_firstn by lia.
  set (rows := sql.order_by FitnessClass.datetime_utc _).
  rewrite !Z2Nat.inj_add by lia.
  rewrite (Nat.add_comm (Z.to_nat skip)), <- skipn_skipn.
  generalize (skipn (Z.to_nat skip) rows) as rest. intros rest.
  generalize (Z.to_nat l1) as n, (Z.to_nat l2) as m.
  intros n. revert rest. induction n as [|n IH]; intros rest m.
  - reflexivity.
  - destruct rest as [|c rest]; simpl.
    + now rewrite firstn_nil.
    + now rewrite IH.
Qed.

Lemma get_upcoming_classes_pages_concat_witness :
  exists page1 page2,
    crud.get_upcoming_classes sample.now sample.db 0 1
    = pydatetime.Return page1
    /\ crud.get_upcoming_classes sample.now sample.db (0 + 1) 1
       = pydatetime.Return page2
    /\ crud.get_upcoming_classes sample.now sample.db 0 (1 + 1)
       = pydatetime.Return (page1 ++ page2).
Proof.
  apply (get_upcoming_classes_pages_concat sample.now sample.db 0 1 1);
    unfold sql.INT64_MAX; lia.
Defined.

(** GET /bookings with a usable [email] never writes.  The rows it
    lists are exactly the stored bookings whose e-mail equals the
    stripped, lower-cased parameter, each once, the most recently
    booked first.  When every one of them can be shown the answer is
    the list of their response models in that order, and [total]
    counts them; when one cannot, the answer is the 500 of the
    route. *)
Theorem get_bookings_listing IST s db :
  pystr.strip s <> "" ->
  let email := pystr.lower (pystr.strip s) in
  let rows := crud.get_bookings_by_email db email in
  Permutation rows
    (filter (fun b => String.eqb (Booking.client_email b) email)
            (bookings db))
  /\ StronglySorted newest_first rows
  /\ (forall b, In b rows <->
        In b (bookings db) /\ Booking.client_email b = email)
  /\ (bookings_can_be_shown IST db email = true ->
      exists items,
        routes.get_bookings IST (Some s) db
        = (Ok (schemas.BookingListResponse.mk
                 (Z.of_nat (List.length rows)) items), db)
        /\ Forall2 (fun b item =>
                      schemas.BookingResponse_from_attributes IST db b
                      = pydatetime.Return item)
                   rows items)
  /\ (bookings_can_be_shown IST db email = false ->
      routes.get_bookings IST (Some s) db = (Err bookings_not_fetched, db)).
Proof.
  intros Hs email rows. rewrite get_bookings_some.
  destruct (pystr.is_empty (pystr.strip s)) eqn:E;
    [now apply is_empty_true in E|].
  fold email rows.
  split; [|split; [|split; [|split]]].
  - apply order_by_perm.
  - unfold rows, crud.get_bookings_by_email, sql.order_by_desc.
    eapply sorted_weaken;
      [|apply (order_by_sorted (fun x => - Booking.booked_at x))].
    unfold le_by, newest_first. intros a b H. lia.
  - intros b. apply get_bookings_by_email_In.
  - intros Hshown. unfold bookings_can_be_shown in Hshown. fold rows in Hshown.
    destruct (new_BookingListResponse_shown IST db rows Hshown) as [r N].
    rewrite N.
    apply new_BookingListResponse_return in N as (Ht & _ & Hall).
    exists (schemas.BookingListResponse.bookings r). split; [|exact Hall].
    destruct r as [t items]. simpl in *. now subst t.
  - intros Hshown. unfold bookings_can_be_shown in Hshown. fold rows in Hshown.
    destruct (new_BookingListResponse_not_shown IST db rows Hshown) as [e N].
    now rewrite N.
Qed.

Lemma get_bookings_listing_witness :
  (exists items,
     routes.get_bookings config.Asia_Kolkata (Some " John@Example.com ")
       (snd (sample.book sample.john sample.db))
     = (Ok (schemas.BookingListResponse.mk
              (Z.of_nat
                 (List.length
                    (crud.get_bookings_by_email
                       (snd (sample.book sample.john sample.db))
                       (pystr.lower (pystr.strip " John@Example.com ")))))
              items),
        snd (sample.book sample.john sample.db))
     /\ Forall2 (fun b item =>
                   schemas.BookingResponse_from_attributes
                     config.Asia_Kolkata
                     (snd (sample.book sample.john sample.db)) b
                   = pydatetime.Return item)
                (crud.get_bookings_by_email
                   (snd (sample.book sample.john sample.db))
                   (pystr.lower (pystr.strip " John@Example.com ")))
                items)
  /\ routes.get_bookings config.Asia_Kolkata (Some "ann@example.com")
       (snd (routes.create_booking config.Asia_Kolkata sample.now sample.now
               (schemas.mk_BookingCreate 3 "Ann" "ann@example.com")
               sample.late_db))
     = (Err bookings_not_fetched,
        snd (routes.create_booking config.Asia_Kolkata sample.now sample.now
               (schemas.mk_BookingCreate 3 "Ann" "ann@example.com")
               sample.late_db)).
Proof.
  split.
  - destruct (get_bookings_listing config.Asia_Kolkata " John@Example.com "
                (snd (sample.book sample.john sample.db)))
      as (_ & _ & _ & H & _); [discriminate|].
    apply H. reflexivity.
  - destruct (get_bookings_listing config.Asia_Kolkata "ann@example.com"
                (snd (routes.create_booking config.Asia_Kolkata sample.now
                        sample.now
                        (schemas.mk_BookingCreate 3 "Ann" "ann@example.com")
                        sample.late_db)))
      as (_ & _ & _ & _ & H); [discriminate|].
    apply H. reflexivity.
Defined.

(** What [validate_email_query] hands to the route is in normal form:
    not empty, with no blank at either end, in lower case; validating
    it again returns it unchanged. *)
Theorem validate_email_query_normal_form email v :
  dependencies.validate_email_query email = Ok v ->
  v <> ""
  /\ pystr.strip v = v
  /\ pystr.lower v = v
  /\ dependencies.validate_email_query (Some v) = Ok v.
Proof.
  unfold dependencies.validate_email_query.
  destruct email as [s|]; [|discriminate].
  rewrite len_zero.
  destruct (pystr.is_empty s) eqn:Es; simpl; [discriminate|].
  destruct (pystr.is_empty (pystr.strip s)) eqn:E; [discriminate|].
  intros [= <-].
  assert (Hstrip : pystr.strip (pystr.lower (pystr.strip s))
                   = pystr.lower (pystr.strip s))
    by (now rewrite lower_strip, strip_idempotent).
  assert (Hne : pystr.is_empty (pystr.lower (pystr.strip s)) = false)
    by (now rewrite lower_is_empty).
  repeat split.
  - intros H. rewrite H in Hne. discriminate.
  - exact Hstrip.
  - apply lower_idempotent.
  - rewrite len_zero, Hstrip, Hne, lower_idempotent. reflexivity.
Qed.

Lemma validate_email_query_normal_form_witness :
  "jane@example.com" <> ""
  /\ pystr.strip "jane@example.com" = "jane@example.com"
  /\ pystr.lower "jane@example.com" = "jane@example.com"
  /\ dependencies.validate_email_query (Some "jane@example.com")
     = Ok "jane@example.com".
Proof.
  apply (validate_email_query_normal_form (Some "  Jane@Example.COM ")).
  reflexivity.
Defined.



(* ================================================================== *)
(** ** Further properties: the booking workflow *)
(* ================================================================== *)



(** The first gate that fails decides the error of the function of
    POST /book: a class id that does not fit the 64-bit integer of the
    statement makes the lookup raise, and the answer is 500; an
    unknown class is 404 whatever else holds; a class scheduled before
    the clock reading is 400 whatever its capacity; a class without a
    free slot is 409 "Class is fully booked" with its display time
    even when the pair is already booked, and 500 when that display
    time cannot be computed; only then comes 409 "You have already
    booked this class". *)
Theorem create_booking_first_failure IST now stamp booking_data db e db' :
  routes.create_booking IST now stamp booking_data db = (Err e, db') ->
  (forall raised,
     crud.get_class_by_id db (schemas.class_id booking_data)
     = pydatetime.Raise raised ->
     e = unexpected
     /\ (schemas.class_id booking_data < sql.INT64_MIN
         \/ sql.INT64_MAX < schemas.class_id booking_data))
  /\ (crud.get_class_by_id db (schemas.class_id booking_data)
      = pydatetime.Return None ->
      e = class_not_found (schemas.class_id booking_data))
  /\ (forall c,
        crud.get_class_by_id db (schemas.class_id booking_data)
        = pydatetime.Return (Some c) ->
        (FitnessClass.datetime_utc c < now -> e = already_started)
        /\ (now <= FitnessClass.datetime_utc c ->
            models.available_slots db c <= 0 ->
            (forall shown,
               models.datetime_ist IST c = pydatetime.Return shown ->
               e = fully_booked c shown)
            /\ (forall raised,
                  models.datetime_ist IST c = pydatetime.Raise raised ->
                  e = unexpected))
        /\ (now <= FitnessClass.datetime_utc c ->
            0 < models.available_slots db c ->
            e = already_booked c
                  (pystr.lower (schemas.client_email booking_data))
            /\ crud.check_existing_booking db
                 (schemas.class_id booking_data)
                 (pystr.lower (schemas.client_email booking_data)) = true)).
Proof.
  unfold routes.create_booking, bind, query, raise, update, ret, uncaught,
    unexpected_error.
  destruct (crud.get_class_by_id db (schemas.class_id booking_data))
    as [[c|]|err] eqn:Hf.
  2:{ intros [= <- _]. split; [discriminate|].
      split; [reflexivity|discriminate]. }
  2:{ intros [= <- _]. split; [|split; discriminate].
      intros raised _. split; [reflexivity|].
      destruct (Z_le_gt_dec sql.INT64_MIN (schemas.class_id booking_data));
        [|left; lia].
      destruct (Z_le_gt_dec (schemas.class_id booking_data) sql.INT64_MAX);
        [|right; lia].
      rewrite get_class_by_id_in_range in Hf by lia. discriminate. }
  intros Hres. split; [discriminate|]. split; [discriminate|].
  intros c' [= <-]. revert Hres.
  destruct (Z.ltb_spec (FitnessClass.datetime_utc c) now) as [Hlt|Hge].
  { intros [= <- _]. repeat split; try reflexivity; lia. }
  destruct (Z.leb_spec (models.available_slots db c) 0) as [Hfull|Hfree].
  { intros Hres. repeat split; try lia.
    - intros shown Hshown. rewrite Hshown in Hres.
      now injection Hres as <- _.
    - intros raised Hraised. rewrite Hraised in Hres.
      now injection Hres as <- _. }
  destruct (crud.check_existing_booking db (schemas.class_id booking_data)
              (pystr.lower (schemas.client_email booking_data)));
    [|discriminate].
  intros [= <- _]. repeat split; try reflexivity; lia.
Qed.

Lemma create_booking_first_failure_witness :
  (exists e,
     sample.book sample.first_user
       (snd (sample.book sample.first_user sample.db))
     = (Err e, snd (sample.book sample.first_user sample.db))
     /\ e = fully_booked sample.hiit
              (pydatetime.mk_datetime
                 (pydatetime.wall_ticks 2024 1 7 15 30 0 0)
                 (Some (19800 * pydatetime.US_PER_SECOND))))
  /\ exists e,
       sample.book (schemas.mk_BookingCreate (2 ^ 63) "Ann" "ann@example.com")
         sample.db
       = (Err e, sample.db)
       /\ e = unexpected.
Proof.
  split.
  - eexists. split; [reflexivity|].
    destruct (create_booking_first_failure config.Asia_Kolkata sample.now
                (sample.now + 1000000) sample.first_user
                (snd (sample.book sample.first_user sample.db)) _ _ eq_refl)
      as (_ & _ & H).
    destruct (H sample.hiit eq_refl) as (_ & Hfull & _).
    destruct Hfull as [Hfull _];
      [vm_compute; discriminate|vm_compute; discriminate|].
    apply Hfull. reflexivity.
  - eexists. split; [reflexivity|].
    destruct (create_booking_first_failure config.Asia_Kolkata sample.now
                (sample.now + 1000000)
                (schemas.mk_BookingCreate (2 ^ 63) "Ann" "ann@example.com")
                sample.db _ _ eq_refl)
      as (H & _).
    destruct (H pydatetime.OverflowError eq_refl) as [E _]. exact E.
Defined.

(** A successful booking takes exactly one slot of the class booked
    and none of any other class. *)
Theorem booking_takes_one_slot IST now stamp booking_data db b db1 :
  routes.create_booking IST now stamp booking_data db = (Ok b, db1) ->
  forall c,
    models.available_slots db1 c
    = models.available_slots db c
      - (if FitnessClass.id c =? schemas.class_id booking_data
         then 1 else 0).
Proof.
  intros Hok c. apply create_booking_ok in Hok.
  destruct Hok as (-> & -> & _).
  rewrite !available_slots_count, booking_count_with_row. simpl.
  rewrite (Z.eqb_sym (FitnessClass.id c)).
  destruct (schemas.class_id booking_data =? FitnessClass.id c); lia.
Qed.

Lemma booking_takes_one_slot_witness :
  models.available_slots (snd (sample.book sample.john sample.db)) sample.yoga
  = models.available_slots sample.db sample.yoga
    - (if FitnessClass.id sample.yoga =? schemas.class_id sample.john
       then 1 else 0).
Proof.
  apply (booking_takes_one_slot config.Asia_Kolkata sample.now
           (sample.now + 1000000) sample.john sample.db
           (inserted_row (sample.now + 1000000) sample.john sample.db)).
  reflexivity.
Defined.

(** Sequential runs of POST /book never touch the class table and
    never remove, reorder or rewrite a booking: the booking table of a
    reached state is the initial one with rows added at the end. *)
Theorem workflow_only_appends IST init db :
  reachable IST init db ->
  fitness_classes db = fitness_classes init
  /\ exists added, bookings db = bookings init ++ added.
Proof.
  intros Hr. split.
  - now apply (reachable_classes IST).
  - now apply (reachable_bookings_grow IST).
Qed.

Lemma workflow_only_appends_witness :
  fitness_classes (snd (sample.book sample.john sample.db))
  = fitness_classes sample.db
  /\ exists added,
       bookings (snd (sample.book sample.john sample.db))
       = bookings sample.db ++ added.
Proof.
  apply (workflow_only_appends config.Asia_Kolkata).
  apply reach_book, reach_init.
Defined.

(** Referential integrity.  From a store in which every booking
    points at a stored class, every state reached by sequential runs
    of POST /book is such a store: the workflow books existing
    classes only. *)
Theorem bookings_always_reference_classes IST init db :
  bookings_reference_classes init -> reachable IST init db ->
  bookings_reference_classes db.
Proof.
  intros Hinit Hr.
  induction Hr as [|db now stamp bd _ IH]; [exact Hinit|].
  destruct (create_booking_cases IST now stamp bd db)
    as [[e ->]|[c [(Hf & _) ->]]]; [exact IH|].
  intros b Hin. simpl in Hin. apply in_app_or in Hin.
  destruct Hin as [Hin|[<-|[]]]; simpl.
  - now apply IH.
  - apply get_class_by_id_found in Hf. destruct Hf as [Hc Hid].
    exists c. split; [exact Hc|exact Hid].
Qed.

Lemma bookings_always_reference_classes_witness :
  bookings_reference_classes
    (snd (sample.book sample.first_user
            (snd (sample.book sample.john sample.db)))).
Proof.
  apply (bookings_always_reference_classes config.Asia_Kolkata sample.db).
  - intros b [].
  - apply reach_book, reach_book, reach_init.
Defined.

(** Stored e-mails stay in lower case: from a store whose booking
    e-mails are all lower-case, every state reached by sequential runs
    of POST /book has only lower-case booking e-mails. *)
Theorem stored_emails_stay_normalized IST init db :
  emails_normalized init -> reachable IST init db -> emails_normalized db.
Proof.
  intros Hinit Hr.
  induction Hr as [|db now stamp bd _ IH]; [exact Hinit|].
  destruct (create_booking_cases IST now stamp bd db)
    as [[e ->]|[c [_ ->]]]; [exact IH|].
  intros b Hin. simpl in Hin. apply in_app_or in Hin.
  destruct Hin as [Hin|[<-|[]]]; [now apply IH|].
  simpl. apply lower_idempotent.
Qed.

Lemma stored_emails_stay_normalized_witness :
  emails_normalized (snd (sample.book sample.john sample.db)).
Proof.
  apply (stored_emails_stay_normalized config.Asia_Kolkata sample.db).
  - intros b [].
  - apply reach_book, reach_init.
Defined.

(** Booking ids stay unique: from a store whose booking ids are
    pairwise distinct, every state reached by sequential runs of POST
    /book has pairwise distinct booking ids. *)
Theorem booking_ids_stay_unique IST init db :
  booking_ids_unique init -> reachable IST init db -> booking_ids_unique db.
Proof.
  intros Hinit Hr.
  induction Hr as [|db now stamp bd _ IH]; [exact Hinit|].
  destruct (create_booking_cases IST now stamp bd db)
    as [[e ->]|[c [_ ->]]]; [exact IH|].
  unfold booking_ids_unique in *. simpl. rewrite map_app. simpl.
  apply NoDup_app; [exact IH|repeat constructor; intros []|].
  intros x Hx [<-|[]].
  apply next_id_above in Hx. lia.
Qed.

Lemma booking_ids_stay_unique_witness :
  booking_ids_unique
    (snd (sample.book sample.first_user
            (snd (sample.book sample.john sample.db)))).
Proof.
  apply (booking_ids_stay_unique config.Asia_Kolkata sample.db).
  - constructor.
  - apply reach_book, reach_book, reach_init.
Defined.

(** The listing and the booking agree on one side: with unique class
    ids, a class that GET /classes lists at a clock reading is never
    refused by POST /book at that reading as unknown (404) or as
    already started (400). *)
Theorem listed_class_passes_schedule_gate IST now stamp db skip limit listed
  c booking_data e db' :
  class_ids_unique db ->
  crud.get_upcoming_classes now db skip limit = pydatetime.Return listed ->
  In c listed ->
  schemas.class_id booking_data = FitnessClass.id c ->
  routes.create_booking IST now stamp booking_data db = (Err e, db') ->
  status_code e <> HTTP_404_NOT_FOUND
  /\ status_code e <> HTTP_400_BAD_REQUEST.
Proof.
  intros Hu Hlisted Hin Hid Herr.
  apply get_upcoming_classes_return in Hlisted as (-> & _).
  apply In_window in Hin. destruct Hin as [Hin Hnow].
  revert Herr.
  unfold routes.create_booking, bind, query, raise, update, ret, uncaught.
  destruct (crud.get_class_by_id db (schemas.class_id booking_data))
    as [found|raised] eqn:Hf.
  2:{ unfold unexpected_error, raise. intros [= <- _]. split; discriminate. }
  apply get_class_by_id_return in Hf as [-> _].
  rewrite (find_class_unique _ c _ Hu Hin (eq_sym Hid)).
  destruct (Z.ltb_spec (FitnessClass.datetime_utc c) now) as [Hlt|_]; [lia|].
  destruct (Z.leb_spec (models.available_slots db c) 0) as [_|_].
  { unfold unexpected_error, raise.
    destruct (models.datetime_ist IST c); intros [= <- _];
      split; discriminate. }
  destruct (crud.check_existing_booking db (schemas.class_id booking_data)
              (pystr.lower (schemas.client_email booking_data)));
    [|discriminate].
  intros [= <- _]. split; discriminate.
Qed.

Lemma listed_class_passes_schedule_gate_witness :
  status_code
    (fully_booked sample.hiit
       (pydatetime.mk_datetime (pydatetime.wall_ticks 2024 1 7 15 30 0 0)
          (Some (19800 * pydatetime.US_PER_SECOND))))
  <> HTTP_404_NOT_FOUND
  /\ status_code
       (fully_booked sample.hiit
          (pydatetime.mk_datetime (pydatetime.wall_ticks 2024 1 7 15 30 0 0)
             (Some (19800 * pydatetime.US_PER_SECOND))))
     <> HTTP_400_BAD_REQUEST.
Proof.
  apply (listed_class_passes_schedule_gate config.Asia_Kolkata sample.now
           (sample.now + 1000000)
           (snd (sample.book sample.first_user sample.db)) 0 10
           [sample.yoga; sample.hiit] sample.hiit
           sample.second_user _
           (snd (sample.book sample.first_user sample.db))).
  - unfold class_ids_unique. simpl.
    repeat constructor; simpl; intuition discriminate.
  - reflexivity.
  - simpl. right. left. reflexivity.
  - reflexivity.
  - reflexivity.
Defined.

(* ================================================================== *)
(** ** Further properties: time conversion *)
(* ================================================================== *)

(** Storage to display and back.  A naive UTC reading that
    [datetime_to_ist] can show comes back from [ist_to_utc] as the
    same reading, now marked UTC; and the value shown denotes that
    very instant. *)
Theorem utc_to_ist_to_utc IST t shown :
  timezone.datetime_to_ist IST (pydatetime.mk_datetime t None)
  = pydatetime.Return shown ->
  timezone.ist_to_utc IST shown
  = pydatetime.Return (pydatetime.mk_datetime t (Some 0))
  /\ instant shown = Some t.
Proof.
  apply shown_then_stored.
Qed.

Lemma utc_to_ist_to_utc_witness :
  timezone.ist_to_utc config.Asia_Kolkata
    (pydatetime.mk_datetime (pydatetime.wall_ticks 2024 1 5 15 30 0 0)
       (Some (19800 * pydatetime.US_PER_SECOND)))
  = pydatetime.Return
      (pydatetime.mk_datetime (pydatetime.wall_ticks 2024 1 5 10 0 0 0)
         (Some 0))
  /\ instant
       (pydatetime.mk_datetime (pydatetime.wall_ticks 2024 1 5 15 30 0 0)
          (Some (19800 * pydatetime.US_PER_SECOND)))
     = Some (pydatetime.wall_ticks 2024 1 5 10 0 0 0).
Proof.
  apply (utc_to_ist_to_utc config.Asia_Kolkata
           (pydatetime.wall_ticks 2024 1 5 10 0 0 0)).
  reflexivity.
Defined.

(** Display to storage and back.  For a naive wall-clock reading
    within the range of [datetime], at which the two look-ups of the
    zone agree, what [ist_to_utc] stores is shown again by
    [datetime_to_ist] as the same wall-clock reading, in the zone:
    the value [localize] gave it. *)
Theorem ist_to_utc_to_ist IST wall stored :
  pydatetime.in_range wall = true ->
  zone_consistent IST wall ->
  timezone.ist_to_utc IST (pydatetime.mk_datetime wall None)
  = pydatetime.Return stored ->
  timezone.datetime_to_ist IST stored
  = pydatetime.Return
      (pydatetime.mk_datetime wall
         (Some (pydatetime.utcoffset_of_wall IST wall)))
  /\ timezone.datetime_to_ist IST stored
     = pydatetime.localize IST (pydatetime.mk_datetime wall None).
Proof.
  intros Hwall Hzone.
  unfold timezone.ist_to_utc, pydatetime.localize, pydatetime.add.
  cbn [pydatetime.tzinfo pydatetime.ticks].
  destruct (pydatetime.in_range (wall + - pydatetime.US_PER_DAY));
    [|discriminate].
  cbn [pydatetime.rbind].
  destruct (pydatetime.in_range (wall + pydatetime.US_PER_DAY));
    [|discriminate].
  cbn [pydatetime.rbind].
  rewrite astimezone_utc_instant. intros H.
  apply utc_instant_return in H. destruct H as [-> Hr].
  assert (E : timezone.datetime_to_ist IST
                (pydatetime.mk_datetime
                   (wall - pydatetime.utcoffset_of_wall IST wall) (Some 0))
              = pydatetime.Return
                  (pydatetime.mk_datetime wall
                     (Some (pydatetime.utcoffset_of_wall IST wall)))).
  { unfold timezone.datetime_to_ist, pydatetime.astimezone.
    cbn [pydatetime.tzinfo].
    rewrite astimezone_utc_instant, Z.sub_0_r. unfold utc_instant.
    rewrite Hr. cbv zeta. unfold pydatetime.add.
    cbn [pydatetime.ticks pydatetime.tzinfo].
    unfold zone_consistent in Hzone. rewrite Hzone.
    replace (wall - pydatetime.utcoffset_of_wall IST wall
             + pydatetime.utcoffset_of_wall IST wall) with wall by lia.
    rewrite Hwall. reflexivity. }
  split; exact E.
Qed.

Lemma ist_to_utc_to_ist_witness :
  timezone.datetime_to_ist config.Asia_Kolkata
    (pydatetime.mk_datetime (pydatetime.wall_ticks 2024 1 5 4 30 0 0)
       (Some 0))
  = pydatetime.Return
      (pydatetime.mk_datetime (pydatetime.wall_ticks 2024 1 5 10 0 0 0)
         (Some (pydatetime.utcoffset_of_wall config.Asia_Kolkata
                  (pydatetime.wall_ticks 2024 1 5 10 0 0 0))))
  /\ timezone.datetime_to_ist config.Asia_Kolkata
       (pydatetime.mk_datetime (pydatetime.wall_ticks 2024 1 5 4 30 0 0)
          (Some 0))
     = pydatetime.localize config.Asia_Kolkata
         (pydatetime.mk_datetime (pydatetime.wall_ticks 2024 1 5 10 0 0 0)
            None).
Proof.
  apply (ist_to_utc_to_ist config.Asia_Kolkata
           (pydatetime.wall_ticks 2024 1 5 10 0 0 0)).
  - reflexivity.
  - reflexivity.
  - reflexivity.
Defined.

(** The two conversions to storage hand back UTC values only: whatever
    the input, a value returned by [ist_to_utc] or by
    [parse_ist_string] carries the offset zero and lies within
    [datetime.min .. datetime.max]; an aware input keeps its instant. *)
Theorem storage_values_are_utc IST :
  (forall dt stored,
     timezone.ist_to_utc IST dt = pydatetime.Return stored ->
     pydatetime.tzinfo stored = Some 0
     /\ pydatetime.in_range (pydatetime.ticks stored) = true
     /\ (pydatetime.tzinfo dt <> None -> instant stored = instant dt))
  /\ (forall fromisoformat text stored,
        timezone.parse_ist_string IST fromisoformat text
        = pydatetime.Return stored ->
        pydatetime.tzinfo stored = Some 0
        /\ pydatetime.in_range (pydatetime.ticks stored) = true).
Proof.
  assert (Hutc : forall dt stored,
            timezone.ist_to_utc IST dt = pydatetime.Return stored ->
            pydatetime.tzinfo stored = Some 0
            /\ pydatetime.in_range (pydatetime.ticks stored) = true
            /\ (pydatetime.tzinfo dt <> None -> instant stored = instant dt)).
  { intros [t [off|]] stored; unfold timezone.ist_to_utc;
      cbn [pydatetime.tzinfo pydatetime.rbind].
    - rewrite astimezone_utc_instant. intros H.
      apply utc_instant_return in H. destruct H as [-> Hr].
      repeat split; try exact Hr.
      intros _. unfold instant. simpl. now rewrite Z.sub_0_r.
    - unfold pydatetime.localize, pydatetime.add.
      cbn [pydatetime.tzinfo pydatetime.ticks].
      destruct (pydatetime.in_range (t + - pydatetime.US_PER_DAY));
        [|discriminate].
      cbn [pydatetime.rbind].
      destruct (pydatetime.in_range (t + pydatetime.US_PER_DAY));
        [|discriminate].
      cbn [pydatetime.rbind].
      rewrite astimezone_utc_instant. intros H.
      apply utc_instant_return in H. destruct H as [-> Hr].
      repeat split; try exact Hr.
      intros H. now elim H. }
  split; [exact Hutc|].
  intros fromisoformat text stored. unfold timezone.parse_ist_string.
  destruct (fromisoformat _) as [dt|]; [|discriminate].
  intros H. destruct (Hutc dt stored H) as (H1 & H2 & _). now split.
Qed.

Lemma storage_values_are_utc_witness :
  pydatetime.tzinfo
    (pydatetime.mk_datetime (pydatetime.wall_ticks 2024 1 5 4 30 0 0)
       (Some 0)) = Some 0
  /\ pydatetime.in_range
       (pydatetime.ticks
          (pydatetime.mk_datetime (pydatetime.wall_ticks 2024 1 5 4 30 0 0)
             (Some 0))) = true.
Proof.
  destruct (storage_values_are_utc config.Asia_Kolkata) as [_ H].
  apply (H pydatetime.fromisoformat_py310 "2024-01-05T10:00:00"). reflexivity.
Defined.

(** The display time of a class denotes the stored instant: when
    [datetime_ist] returns, the value is the stored reading shifted by
    the offset of the zone at that instant, it is what
    [datetime_to_ist] makes of the column, and [ist_to_utc] takes it
    back to the stored reading. *)
Theorem class_display_time IST c shown :
  models.datetime_ist IST c = pydatetime.Return shown ->
  instant shown = Some (FitnessClass.datetime_utc c)
  /\ pydatetime.tzinfo shown
     = Some (pydatetime.utcoffset_of_utc IST (FitnessClass.datetime_utc c))
  /\ timezone.datetime_to_ist IST
       (pydatetime.mk_datetime (FitnessClass.datetime_utc c) None)
     = pydatetime.Return shown
  /\ timezone.ist_to_utc IST shown
     = pydatetime.Return
         (pydatetime.mk_datetime (FitnessClass.datetime_utc c) (Some 0)).
Proof.
  intros H.
  assert (H' : timezone.datetime_to_ist IST
                 (pydatetime.mk_datetime (FitnessClass.datetime_utc c) None)
               = pydatetime.Return shown) by exact H.
  destruct (shown_then_stored IST _ _ H') as [Hback Hinst].
  repeat split; try assumption.
  unfold models.datetime_ist, pydatetime.localize_fixed in H. simpl in H.
  apply astimezone_return in H. rewrite !Z.sub_0_r in H.
  destruct H as (_ & -> & _). reflexivity.
Qed.

Lemma class_display_time_witness :
  instant
    (pydatetime.mk_datetime (pydatetime.wall_ticks 2024 1 6 15 30 0 0)
       (Some (19800 * pydatetime.US_PER_SECOND)))
  = Some (FitnessClass.datetime_utc sample.yoga)
  /\ pydatetime.tzinfo
       (pydatetime.mk_datetime (pydatetime.wall_ticks 2024 1 6 15 30 0 0)
          (Some (19800 * pydatetime.US_PER_SECOND)))
     = Some (pydatetime.utcoffset_of_utc config.Asia_Kolkata
               (FitnessClass.datetime_utc sample.yoga))
  /\ timezone.datetime_to_ist config.Asia_Kolkata
       (pydatetime.mk_datetime (FitnessClass.datetime_utc sample.yoga) None)
     = pydatetime.Return
         (pydatetime.mk_datetime (pydatetime.wall_ticks 2024 1 6 15 30 0 0)
            (Some (19800 * pydatetime.US_PER_SECOND)))
  /\ timezone.ist_to_utc config.Asia_Kolkata
       (pydatetime.mk_datetime (pydatetime.wall_ticks 2024 1 6 15 30 0 0)
          (Some (19800 * pydatetime.US_PER_SECOND)))
     = pydatetime.Return
         (pydatetime.mk_datetime (FitnessClass.datetime_utc sample.yoga)
            (Some 0)).
Proof.
  apply (class_display_time config.Asia_Kolkata sample.yoga). reflexivity.
Defined.

(** The display time of a booking denotes the stored instant, as for
    a class: when [booked_at_ist] returns, the value carries the
    offset of the zone at the stored reading, denotes that reading,
    and [ist_to_utc] takes it back to it. *)
Theorem booking_display_time IST b shown :
  models.booked_at_ist IST b = pydatetime.Return shown ->
  instant shown = Some (Booking.booked_at b)
  /\ pydatetime.tzinfo shown
     = Some (pydatetime.utcoffset_of_utc IST (Booking.booked_at b))
  /\ timezone.ist_to_utc IST shown
     = pydatetime.Return
         (pydatetime.mk_datetime (Booking.booked_at b) (Some 0)).
Proof.
  intros H.
  assert (H' : timezone.datetime_to_ist IST
                 (pydatetime.mk_datetime (Booking.booked_at b) None)
               = pydatetime.Return shown) by exact H.
  destruct (shown_then_stored IST _ _ H') as [Hback Hinst].
  repeat split; try assumption.
  unfold models.booked_at_ist, pydatetime.localize_fixed in H. simpl in H.
  apply astimezone_return in H. rewrite !Z.sub_0_r in H.
  destruct H as (_ & -> & _). reflexivity.
Qed.

Lemma booking_display_time_witness :
  instant
    (pydatetime.mk_datetime (pydatetime.wall_ticks 2024 1 5 15 30 1 0)
       (Some (19800 * pydatetime.US_PER_SECOND)))
  = Some (Booking.booked_at
            (inserted_row (sample.now + 1000000) sample.john sample.db))
  /\ pydatetime.tzinfo
       (pydatetime.mk_datetime (pydatetime.wall_ticks 2024 1 5 15 30 1 0)
          (Some (19800 * pydatetime.US_PER_SECOND)))
     = Some (pydatetime.utcoffset_of_utc config.Asia_Kolkata
               (Booking.booked_at
                  (inserted_row (sample.now + 1000000) sample.john
                     sample.db)))
  /\ timezone.ist_to_utc config.Asia_Kolkata
       (pydatetime.mk_datetime (pydatetime.wall_ticks 2024 1 5 15 30 1 0)
          (Some (19800 * pydatetime.US_PER_SECOND)))
     = pydatetime.Return
         (pydatetime.mk_datetime
            (Booking.booked_at
               (inserted_row (sample.now + 1000000) sample.john sample.db))
            (Some 0)).
Proof.
  apply (booking_display_time config.Asia_Kolkata
           (inserted_row (sample.now + 1000000) sample.john sample.db)).
  reflexivity.
Defined.

(** With the parser of the interpreters up to 3.10, on whose reading
    of these texts the later ones agree: a date without a time of day
    is read as midnight of that day in the display zone.  For every
    valid date, [parse_ist_string] on [YYYY-MM-DD] yields the UTC
    value of that midnight less the offset the zone assigns to it,
    when the midnight is at least a day away from both ends of the
    range of [datetime] and [datetime] can hold the instant, and
    raises [OverflowError] otherwise; the last day of the calendar,
    9999-12-31, is refused in this way. *)
Theorem parse_ist_string_date_only IST year month day :
  pydatetime.check_date_fields year month day = true ->
  let wall := pydatetime.wall_ticks year month day 0 0 0 0 in
  timezone.parse_ist_string IST pydatetime.fromisoformat_py310
    (pydatetime.date_text year month day)
  = if pydatetime.localizable wall
    then utc_instant (wall - pydatetime.utcoffset_of_wall IST wall)
    else pydatetime.Raise pydatetime.OverflowError.
Proof.
  intros Hdate wall. pose proof Hdate as Hd.
  unfold pydatetime.check_date_fields in Hd.
  rewrite !andb_true_iff, !Z.leb_le in Hd.
  assert (Hday : pydatetime.days_in_month year month <= 31)
    by (apply days_in_month_le; lia).
  destruct (parse_date year month day) as [Hparse HnoZ]; [lia|lia|lia|].
  unfold timezone.parse_ist_string.
  rewrite (replace_absent _ _ _ HnoZ).
  unfold pydatetime.fromisoformat_py310.
  replace (substring 0 10 (pydatetime.date_text year month day))
    with (pydatetime.date_text year month day) by reflexivity.
  rewrite Hparse.
  replace (pydatetime.slice_from 11 (pydatetime.date_text year month day))
    with "" by reflexivity.
  cbn [pystr.is_empty]. unfold pydatetime.new_datetime.
  rewrite Hdate.
  replace (pydatetime.check_time_fields 0 0 0 0) with true by reflexivity.
  cbn [andb]. cbv iota. cbn [pydatetime.rbind pydatetime.tzinfo].
  fold wall.
  unfold pydatetime.localize, pydatetime.localizable, pydatetime.add.
  cbn [pydatetime.ticks pydatetime.tzinfo]. rewrite Z.add_opp_r.
  destruct (pydatetime.in_range (wall - pydatetime.US_PER_DAY));
    [|reflexivity].
  cbn [pydatetime.rbind andb].
  destruct (pydatetime.in_range (wall + pydatetime.US_PER_DAY));
    [|reflexivity].
  cbn [pydatetime.rbind]. apply astimezone_utc_instant.
Qed.

Lemma parse_ist_string_date_only_witness :
  (timezone.parse_ist_string config.Asia_Kolkata
     pydatetime.fromisoformat_py310 "2024-01-05"
   = utc_instant (pydatetime.wall_ticks 2024 1 4 18 30 0 0))
  /\ timezone.parse_ist_string config.Asia_Kolkata
       pydatetime.fromisoformat_py310 "9999-12-31"
     = pydatetime.Raise pydatetime.OverflowError.
Proof.
  split.
  - exact (parse_ist_string_date_only config.Asia_Kolkata 2024 1 5 eq_refl).
  - exact (parse_ist_string_date_only config.Asia_Kolkata 9999 12 31 eq_refl).
Defined.

(* ================================================================== *)
(** ** Further properties: seeding *)
(* ================================================================== *)

(** [create_sample_classes] never touches the booking table and never
    seeds in part: afterwards the class table is either empty or holds
    the six sample classes, with ids 1 to 6, every one scheduled
    strictly after the clock reading of the run and each later than
    the one before, so that listing the upcoming classes at that
    reading returns the whole table in its order.  The six classes are
    there whenever the clock reading and its display-zone reading are
    at least four days inside the range of [datetime]. *)
Theorem seeding_replaces_class_table IST utcnow db :
  let db' := seed_data.create_sample_classes IST utcnow db in
  let o := pydatetime.utcoffset_of_utc IST utcnow in
  bookings db' = bookings db
  /\ (fitness_classes db' = []
      \/ (map FitnessClass.id (fitness_classes db') = [1; 2; 3; 4; 5; 6]
          /\ Forall (fun c => utcnow < FitnessClass.datetime_utc c)
                    (fitness_classes db')
          /\ StronglySorted
               (fun a b => FitnessClass.datetime_utc a
                           < FitnessClass.datetime_utc b)
               (fitness_classes db')
          /\ crud.get_upcoming_classes utcnow db' 0 10
             = pydatetime.Return (fitness_classes db')))
  /\ (0 <= utcnow -> 0 <= utcnow + o ->
      utcnow + 4 * pydatetime.US_PER_DAY <= pydatetime.MAX_TICKS ->
      utcnow + o + 4 * pydatetime.US_PER_DAY <= pydatetime.MAX_TICKS ->
      fitness_classes db' <> []).
Proof.
  intros db' o. subst db'.
  unfold seed_data.create_sample_classes, pydatetime.now. fold o.
  unfold pydatetime.add. cbn [pydatetime.ticks pydatetime.tzinfo].
  assert (Hday : 0 <= (utcnow + o) mod pydatetime.US_PER_DAY
                 < pydatetime.US_PER_DAY)
    by (apply Z.mod_pos_bound; reflexivity).
  assert (Hsucc :
            0 <= utcnow -> 0 <= utcnow + o ->
            utcnow + 4 * pydatetime.US_PER_DAY <= pydatetime.MAX_TICKS ->
            utcnow + o + 4 * pydatetime.US_PER_DAY <= pydatetime.MAX_TICKS ->
            forall hour minute days e,
              pydatetime.check_time_fields hour minute 0 0 = true ->
              1 <= days <= 3 ->
              seed_data.at_time IST
                (pydatetime.mk_datetime (utcnow + o) (Some o))
                hour minute days <> pydatetime.Raise e).
  { intros H1 H2 H3 H4 hour minute days e Hchk Hdays Hraise.
    destruct (at_time_succeeds IST (utcnow + o) o hour minute days Hchk)
      as [d Hd]; [| |congruence];
      unfold pydatetime.check_time_fields in Hchk;
      rewrite !andb_true_iff, !Z.leb_le in Hchk;
      unfold pydatetime.in_range; apply andb_true_iff;
      rewrite !Z.leb_le;
      revert Hday H3 H4;
      generalize ((utcnow + o) mod pydatetime.US_PER_DAY);
      cbv [pydatetime.MAX_TICKS pydatetime.MAX_ORDINAL pydatetime.US_PER_DAY
           pydatetime.US_PER_SECOND]; intros; lia. }
  destruct (pydatetime.in_range (utcnow + o)) eqn:Hw; cbn [pydatetime.rbind].
  2:{ split; [reflexivity|]. split; [now left|].
      intros H1 H2 H3 H4. exfalso.
      unfold pydatetime.in_range in Hw.
      apply andb_false_iff in Hw. rewrite !Z.leb_gt in Hw.
      revert H4 Hw.
      cbv [pydatetime.MAX_TICKS pydatetime.MAX_ORDINAL pydatetime.US_PER_DAY
           pydatetime.US_PER_SECOND]. lia. }
  unfold seed_data.sample_classes.
  destruct (seed_data.at_time _ _ 6 30 1) as [t1|e1] eqn:E1;
    cbn [pydatetime.rbind].
  2:{ split; [reflexivity|]. split; [now left|]. intros H1 H2 H3 H4.
      now elim (Hsucc H1 H2 H3 H4 6 30 1 e1). }
  destruct (seed_data.at_time _ _ 7 30 1) as [t2|e2] eqn:E2;
    cbn [pydatetime.rbind].
  2:{ split; [reflexivity|]. split; [now left|]. intros H1 H2 H3 H4.
      now elim (Hsucc H1 H2 H3 H4 7 30 1 e2). }
  destruct (seed_data.at_time _ _ 18 0 2) as [t3|e3] eqn:E3;
    cbn [pydatetime.rbind].
  2:{ split; [reflexivity|]. split; [now left|]. intros H1 H2 H3 H4.
      now elim (Hsucc H1 H2 H3 H4 18 0 2 e3). }
  destruct (seed_data.at_time _ _ 19 30 2) as [t4|e4] eqn:E4;
    cbn [pydatetime.rbind].
  2:{ split; [reflexivity|]. split; [now left|]. intros H1 H2 H3 H4.
      now elim (Hsucc H1 H2 H3 H4 19 30 2 e4). }
  destruct (seed_data.at_time _ _ 8 0 3) as [t5|e5] eqn:E5;
    cbn [pydatetime.rbind].
  2:{ split; [reflexivity|]. split; [now left|]. intros H1 H2 H3 H4.
      now elim (Hsucc H1 H2 H3 H4 8 0 3 e5). }
  destruct (seed_data.at_time _ _ 17 0 3) as [t6|e6] eqn:E6;
    cbn [pydatetime.rbind].
  2:{ split; [reflexivity|]. split; [now left|]. intros H1 H2 H3 H4.
      now elim (Hsucc H1 H2 H3 H4 17 0 3 e6). }
  apply at_time_return in E1, E2, E3, E4, E5, E6; try reflexivity.
  cbn [fold_left seed_data.add_class app map database.next_id fold_right
       FitnessClass.id seed_data.name seed_data.instructor
       seed_data.datetime_utc seed_data.total_slots
       database.fitness_classes database.bookings].
  assert (Hord : utcnow < pydatetime.ticks t1
                 /\ pydatetime.ticks t1 < pydatetime.ticks t2
                 /\ pydatetime.ticks t2 < pydatetime.ticks t3
                 /\ pydatetime.ticks t3 < pydatetime.ticks t4
                 /\ pydatetime.ticks t4 < pydatetime.ticks t5
                 /\ pydatetime.ticks t5 < pydatetime.ticks t6).
  { subst t1 t2 t3 t4 t5 t6. cbn [pydatetime.ticks].
    revert Hday. generalize ((utcnow + o) mod pydatetime.US_PER_DAY).
    cbv [pydatetime.US_PER_DAY pydatetime.US_PER_SECOND]. intros; lia. }
  clear E1 E2 E3 E4 E5 E6 Hsucc Hday Hw.
  destruct Hord as (H01 & H12 & H23 & H34 & H45 & H56).
  split; [reflexivity|]. split; [|discriminate].
  right. split; [reflexivity|]. split; [|split].
  - repeat constructor; cbn [FitnessClass.datetime_utc]; lia.
  - repeat constructor; cbn [FitnessClass.datetime_utc]; lia.
  - rewrite get_upcoming_classes_in_range
      by (unfold sql.INT64_MIN, sql.INT64_MAX; lia).
    f_equal. unfold window.
    cbn [database.fitness_classes].
    rewrite gtb_ltb_filter.
    cbn [filter FitnessClass.datetime_utc].
    rewrite !(proj2 (Z.ltb_lt _ _)) by lia.
    rewrite order_by_sorted_id;
      [reflexivity|
       repeat constructor; unfold le_by; cbn [FitnessClass.datetime_utc]; lia].
Qed.

Lemma seeding_replaces_class_table_witness :
  fitness_classes
    (seed_data.create_sample_classes config.Asia_Kolkata sample.now sample.db)
  <> [].
Proof.
  destruct (seeding_replaces_class_table config.Asia_Kolkata sample.now
              sample.db) as (_ & _ & H).
  apply H; vm_compute; discriminate.
Defined.

(* ================================================================== *)
(** ** Further properties: the persistence layer *)
(* ================================================================== *)

(** [crud.create_booking] checks nothing, as its docstring says: it
    always appends exactly one row, with the e-mail as given, and so
    takes one slot of the class named even when none is left.  The
    capacity rule rests on the route alone. *)
Theorem crud_create_booking_is_unchecked stamp booking db :
  let (row, db') := crud.create_booking stamp booking db in
  bookings db' = bookings db ++ [row]
  /\ fitness_classes db' = fitness_classes db
  /\ Booking.client_email row = schemas.client_email booking
  /\ forall c,
       FitnessClass.id c = schemas.class_id booking ->
       models.available_slots db' c = models.available_slots db c - 1.
Proof.
  unfold crud.create_booking. repeat split.
  intros c Hid. unfold models.available_slots, models.bookings_of. simpl.
  rewrite filter_app, length_app. simpl.
  rewrite Hid, Z.eqb_refl. simpl. lia.
Qed.

Lemma crud_create_booking_is_unchecked_witness :
  models.available_slots
    (snd (crud.create_booking sample.now sample.second_user
            (snd (sample.book sample.first_user sample.db))))
    sample.hiit
  = models.available_slots (snd (sample.book sample.first_user sample.db))
      sample.hiit - 1.
Proof.
  pose proof (crud_create_booking_is_unchecked sample.now sample.second_user
                (snd (sample.book sample.first_user sample.db))) as H.
  cbv beta iota delta [crud.create_booking] in H.
  destruct H as (_ & _ & _ & H). apply H. reflexivity.
Defined.

(** Insert, then look up.  After [crud.create_booking] the pair of
    the row is found by [check_existing_booking] and the row is listed
    by [get_bookings_by_email] under its e-mail; the look-up compares
    e-mails as they are, so it answers true exactly when a stored row
    has that class id and that very e-mail. *)
Theorem crud_insert_then_lookup stamp booking db :
  let (row, db') := crud.create_booking stamp booking db in
  crud.check_existing_booking db' (schemas.class_id booking)
    (schemas.client_email booking) = true
  /\ In row (crud.get_bookings_by_email db' (schemas.client_email booking))
  /\ forall class_id email,
       crud.check_existing_booking db' class_id email = true <->
       crud.check_existing_booking db class_id email = true
       \/ (class_id = schemas.class_id booking
           /\ email = schemas.client_email booking).
Proof.
  unfold crud.create_booking.
  set (row := Booking.mk _ _ _ _ _).
  set (db' := mk_Session _ _).
  assert (Hin : In row (bookings db'))
    by (simpl; apply in_or_app; right; now left).
  split; [|split].
  - apply check_existing_true. exists row. now repeat split.
  - apply get_bookings_by_email_In. now split.
  - intros class_id email. rewrite !check_existing_true. split.
    + intros (b & Hb & Hc & He). simpl in Hb. apply in_app_or in Hb.
      destruct Hb as [Hb|[<-|[]]]; [left; now exists b|].
      right. simpl in Hc, He. now split.
    + intros [(b & Hb & Hc & He)|[-> ->]].
      * exists b. repeat split; try assumption.
        simpl. apply in_or_app. now left.
      * exists row. now repeat split.
Qed.

Lemma crud_insert_then_lookup_witness :
  crud.check_existing_booking
    (snd (crud.create_booking sample.now sample.john sample.db)) 1
    "john@example.com" = true
  <-> crud.check_existing_booking sample.db 1 "john@example.com" = true
      \/ (1 = schemas.class_id sample.john
          /\ "john@example.com" = schemas.client_email sample.john).
Proof.
  pose proof (crud_insert_then_lookup sample.now sample.john sample.db) as H.
  cbv beta iota delta [crud.create_booking] in H.
  destruct H as (_ & _ & H). apply H.
Defined.

(* ================================================================== *)
(** ** Further properties: filling a class *)
(* ================================================================== *)

(** Requests served one after the other by POST /book for one class
    that has not started, whose display time can be computed, from
    clients with pairwise different lower-cased e-mails none of whom
    holds a booking of it, at clock readings that can be displayed:
    as many succeed as the class has free slots, the first ones, and
    all later ones are refused; the free slots go down by the number
    of successes. *)
Theorem sequential_bookings_fill_the_class IST c requests :
  forall db,
    class_ids_unique db -> In c (fitness_classes db) ->
    sql.INT64_MIN <= FitnessClass.id c <= sql.INT64_MAX ->
    shown (models.datetime_ist IST c) = true ->
    (forall r, In r requests ->
       schemas.class_id (body r) = FitnessClass.id c
       /\ clock r <= FitnessClass.datetime_utc c
       /\ shown (timezone.datetime_to_ist IST
                   (pydatetime.mk_datetime (stamp r) None)) = true
       /\ crud.check_existing_booking db (FitnessClass.id c)
            (normalized_email r) = false) ->
    NoDup (map normalized_email requests) ->
    0 <= models.available_slots db c ->
    let booked :=
      Nat.min (List.length requests)
              (Z.to_nat (models.available_slots db c)) in
    map is_ok (fst (book_all IST requests db))
    = repeat true booked ++ repeat false (List.length requests - booked)
    /\ models.available_slots (snd (book_all IST requests db)) c
       = models.available_slots db c - Z.of_nat booked.
Proof.
  induction requests as [|r rest IH];
    intros db Hu Hc Hfit Hshown Hreq Hnd Hslots booked.
  - subst booked. simpl. split; [reflexivity|lia].
  - destruct (Hreq r (or_introl eq_refl)) as (Hid & Hclock & Hstamp & Hnew).
    inversion Hnd as [|? ? Hfresh Hnd']; subst.
    assert (Hf : crud.get_class_by_id db (schemas.class_id (body r))
                 = pydatetime.Return (Some c)).
    { rewrite get_class_by_id_in_range by (rewrite Hid; exact Hfit).
      f_equal. now apply find_class_unique; [| |symmetry]. }
    cbn [book_all]. rewrite main_book_cases.
    destruct (create_booking_cases IST (clock r) (stamp r) (body r) db)
      as [[e E]|[c' [(Hf' & _ & Hfree & _) E]]]; rewrite E.
    + (* refused: no slot is left *)
      assert (Hfull : models.available_slots db c = 0).
      { destruct (Z.eq_dec (models.available_slots db c) 0) as [H0|Hpos];
          [exact H0|].
        exfalso.
        assert (Hg : gates_pass (clock r) (body r) db c).
        { unfold gates_pass. rewrite Hid.
          repeat split; [now rewrite <- Hid|exact Hclock|lia|exact Hnew]. }
        rewrite (gates_pass_accepts IST _ (stamp r) _ _ _ Hg) in E.
        discriminate. }
      specialize (IH db Hu Hc Hfit Hshown).
      destruct (book_all IST rest db) as [answers db2] eqn:Erest.
      destruct IH as [IHok IHslots]; try assumption.
      { intros r' Hr'. apply Hreq. now right. }
      subst booked. rewrite Hfull in *. cbn [fst snd map is_ok].
      cbn [fst snd] in IHok, IHslots.
      rewrite IHok, IHslots.
      replace (Nat.min (List.length (r :: rest)) (Z.to_nat 0)) with O
        by (cbn; lia).
      replace (Nat.min (List.length rest) (Z.to_nat 0)) with O by lia.
      cbn [repeat app List.length]. rewrite !Nat.sub_0_r.
      split; [reflexivity|lia].
    + (* accepted: one slot is taken, and the row is shown *)
      assert (c' = c) as -> by congruence.
      destruct (inserted_row_is_shown IST (stamp r) (body r) db c
                  Hu Hc Hid Hshown Hstamp) as [item Hitem].
      rewrite Hitem.
      set (row := inserted_row (stamp r) (body r) db) in *.
      assert (Hstep : models.available_slots (with_row db row) c
                      = models.available_slots db c - 1).
      { rewrite !available_slots_count, booking_count_with_row.
        subst row. cbn [inserted_row Booking.class_id].
        rewrite Hid, Z.eqb_refl. lia. }
      specialize (IH (with_row db row) Hu Hc Hfit Hshown).
      destruct (book_all IST rest (with_row db row)) as [answers db2]
        eqn:Erest.
      destruct IH as [IHok IHslots]; try assumption.
      { intros r' Hr'.
        destruct (Hreq r' (or_intror Hr')) as (H1 & H2 & H3 & H4).
        repeat split; try assumption.
        apply check_existing_after_row; [exact H4|].
        subst row. cbn [inserted_row Booking.client_email].
        intros Heq. apply Hfresh. unfold normalized_email at 1.
        rewrite Heq. now apply in_map. }
      { lia. }
      subst booked. cbn [fst snd map is_ok].
      cbn [fst snd] in IHok, IHslots.
      rewrite IHok, IHslots, Hstep.
      replace (Nat.min (List.length (r :: rest))
                       (Z.to_nat (models.available_slots db c)))
        with (S (Nat.min (List.length rest)
                         (Z.to_nat (models.available_slots db c - 1))))
        by (cbn [List.length]; lia).
      cbn [repeat app List.length Nat.sub].
      split; [reflexivity|lia].
Qed.

Lemma sequential_bookings_fill_the_class_witness :
  let requests :=
    [mk_request sample.now sample.now sample.first_user;
     mk_request sample.now sample.now sample.second_user] in
  let booked :=
    Nat.min (List.length requests)
            (Z.to_nat (models.available_slots sample.db sample.hiit)) in
  map is_ok (fst (book_all config.Asia_Kolkata requests sample.db))
  = repeat true booked ++ repeat false (List.length requests - booked)
  /\ models.available_slots
       (snd (book_all config.Asia_Kolkata requests sample.db)) sample.hiit
     = models.available_slots sample.db sample.hiit - Z.of_nat booked.
Proof.
  intros requests.
  apply (sequential_bookings_fill_the_class config.Asia_Kolkata sample.hiit
           requests sample.db).
  - unfold class_ids_unique. simpl.
    repeat constructor; simpl; intuition discriminate.
  - right. left. reflexivity.
  - unfold sql.INT64_MIN, sql.INT64_MAX. simpl. lia.
  - reflexivity.
  - intros r [<-|[<-|[]]]; repeat split; vm_compute; congruence.
  - simpl. repeat constructor; simpl; intuition discriminate.
  - vm_compute. discriminate.
Defined.

(* ================================================================== *)
(** ** Further properties: texts of the canonical shape *)
(* ================================================================== *)

(** With the parser of the interpreters up to 3.10, on whose reading
    of these texts the later ones agree: for every text [YYYY-MM-DD],
    [T] or a space, [HH:MM:SS[.ffffff]], followed by no designator, by
    [Z] or by a signed [HH:MM] offset, with valid fields,
    [parse_ist_string] yields the UTC value of the wall-clock reading
    minus the offset written in the text ([Z] is offset zero), or,
    when none is written and the reading is at least a day away from
    both ends of the range of [datetime], minus the offset the display
    zone assigns to the reading.  The value is returned when
    [datetime] can hold the instant; the conversion raises
    [OverflowError] otherwise. *)
Theorem parse_ist_string_iso_texts IST year month day sep hour minute second
  fraction z :
  pydatetime.check_date_fields year month day = true ->
  pydatetime.check_time_fields hour minute second
    (pydatetime.fraction_us fraction) = true ->
  pydatetime.check_designator z = true ->
  let wall :=
    pydatetime.wall_ticks year month day hour minute second
      (pydatetime.fraction_us fraction) in
  timezone.parse_ist_string IST pydatetime.fromisoformat_py310
    (pydatetime.iso_text year month day sep hour minute second fraction z)
  = match pydatetime.designator_offset z with
    | Some offset => utc_instant (wall - offset)
    | None =>
        if pydatetime.localizable wall
        then utc_instant (wall - pydatetime.utcoffset_of_wall IST wall)
        else pydatetime.Raise pydatetime.OverflowError
    end.
Proof.
  intros Hdate Htime Hz wall.
  pose proof Hdate as Hd. pose proof Htime as Ht.
  unfold pydatetime.check_date_fields in Hd.
  unfold pydatetime.check_time_fields in Ht.
  rewrite !andb_true_iff, !Z.leb_le in Hd, Ht.
  assert (Hday : pydatetime.days_in_month year month <= 31)
    by (apply days_in_month_le; lia).
  unfold timezone.parse_ist_string.
  rewrite replace_Z_iso_text by (try assumption; lia).
  rewrite fromisoformat_py310_iso_text;
    [|lia|lia|lia|lia|lia|lia|lia|now destruct z|now destruct z].
  unfold pydatetime.new_datetime. rewrite Hdate, Htime. simpl andb.
  rewrite spelled_out_offset. cbv iota.
  cbn [pydatetime.rbind pydatetime.tzinfo].
  fold wall.
  destruct (pydatetime.designator_offset z) as [offset|].
  - cbn [pydatetime.rbind]. apply astimezone_utc_instant.
  - unfold pydatetime.localize, pydatetime.localizable, pydatetime.add.
    cbn [pydatetime.ticks pydatetime.tzinfo]. rewrite Z.add_opp_r.
    destruct (pydatetime.in_range (wall - pydatetime.US_PER_DAY));
      [|reflexivity].
    cbn [pydatetime.rbind andb].
    destruct (pydatetime.in_range (wall + pydatetime.US_PER_DAY));
      [|reflexivity].
    cbn [pydatetime.rbind]. apply astimezone_utc_instant.
Qed.

Lemma parse_ist_string_iso_texts_witness :
  timezone.parse_ist_string config.Asia_Kolkata
    pydatetime.fromisoformat_py310 "2024-01-05T10:00:00"
  = utc_instant (pydatetime.wall_ticks 2024 1 5 4 30 0 0)
  /\ timezone.parse_ist_string config.Asia_Kolkata
       pydatetime.fromisoformat_py310 "2024-01-05 10:00:00Z"
     = utc_instant (pydatetime.wall_ticks 2024 1 5 10 0 0 0)
  /\ timezone.parse_ist_string config.Asia_Kolkata
       pydatetime.fromisoformat_py310 "2024-01-05T10:00:00.250000-03:00"
     = utc_instant (pydatetime.wall_ticks 2024 1 5 13 0 0 250000)
  /\ timezone.parse_ist_string config.Asia_Kolkata
       pydatetime.fromisoformat_py310 "9999-12-31T10:00:00"
     = pydatetime.Raise pydatetime.OverflowError.
Proof.
  split; [|split; [|split]].
  - exact (parse_ist_string_iso_texts config.Asia_Kolkata 2024 1 5
             pydatetime.LetterT 10 0 0 None pydatetime.Unzoned
             eq_refl eq_refl eq_refl).
  - exact (parse_ist_string_iso_texts config.Asia_Kolkata 2024 1 5
             pydatetime.Space 10 0 0 None pydatetime.Zulu
             eq_refl eq_refl eq_refl).
  - exact (parse_ist_string_iso_texts config.Asia_Kolkata 2024 1 5
             pydatetime.LetterT 10 0 0 (Some 250000)
             (pydatetime.Offset true 3 0) eq_refl eq_refl eq_refl).
  - exact (parse_ist_string_iso_texts config.Asia_Kolkata 9999 12 31
             pydatetime.LetterT 10 0 0 None pydatetime.Unzoned
             eq_refl eq_refl eq_refl).
Defined.

(* ================================================================== *)
(** ** Further properties: the body of POST /book *)
(* ================================================================== *)

(** POST /book validates the body first.  A body whose name is empty
    or longer than 100 characters, or whose address [EmailStr]
    refuses, is answered 422 and nothing is stored.  Any other body is
    served as the validated request, whose address is the one
    [EmailStr] has returned; so whatever the answer, the store is left
    as it was or has gained one row, and the address of that row has
    no whitespace in it. *)
Theorem post_book_validates_first EmailStr IST now stamp body db :
  (pystr.len (schemas.raw_client_name body) < 1
   \/ 100 < pystr.len (schemas.raw_client_name body)
   \/ EmailStr (schemas.raw_client_email body) = None ->
   main.post_book IST EmailStr now stamp body db
   = (dependencies.validation_error, db))
  /\ (forall address,
        1 <= pystr.len (schemas.raw_client_name body) <= 100 ->
        EmailStr (schemas.raw_client_email body) = Some address ->
        main.post_book IST EmailStr now stamp body db
        = main.book IST now stamp
            (schemas.mk_BookingCreate (schemas.raw_class_id body)
               (schemas.raw_client_name body) address) db)
  /\ (schemas.EmailStr_guarantee EmailStr ->
      snd (main.post_book IST EmailStr now stamp body db) = db
      \/ exists row,
           snd (main.post_book IST EmailStr now stamp body db)
           = with_row db row
           /\ Booking.client_email row <> ""
           /\ schemas.no_space (Booking.client_email row) = true).
Proof.
  unfold main.post_book, schemas.validate_BookingCreate, lift.
  split; [|split].
  - intros H.
    destruct (Z.leb_spec 1 (pystr.len (schemas.raw_client_name body)));
      [|reflexivity].
    destruct (Z.leb_spec (pystr.len (schemas.raw_client_name body)) 100);
      [|reflexivity].
    simpl. destruct H as [H|[H|H]]; [lia|lia|]. now rewrite H.
  - intros address [H1 H2] E.
    apply Z.leb_le in H1, H2. now rewrite H1, H2, E.
  - intros Hg.
    destruct ((1 <=? pystr.len (schemas.raw_client_name body))
              && (pystr.len (schemas.raw_client_name body) <=? 100));
      [|now left].
    destruct (EmailStr (schemas.raw_client_email body)) as [address|] eqn:E;
      [|now left].
    destruct (Hg _ _ E) as [Hne Hns].
    rewrite main_book_cases.
    set (bd := schemas.mk_BookingCreate _ _ address).
    destruct (create_booking_cases IST now stamp bd db)
      as [[e ->]|[c [_ ->]]]; [now left|].
    right. exists (inserted_row stamp bd db). split.
    + now destruct (schemas.BookingResponse_from_attributes IST _ _).
    + cbn [inserted_row Booking.client_email bd schemas.client_email].
      split.
      * intros H. rewrite <- lower_is_empty, H in Hne. discriminate.
      * now rewrite no_space_lower.
Qed.

Lemma post_book_validates_first_witness :
  main.post_book config.Asia_Kolkata sample.EmailStr sample.now sample.now
    (schemas.mk_BookingRequest 1 "" "test@example.com") sample.db
  = (dependencies.validation_error, sample.db)
  /\ main.post_book config.Asia_Kolkata sample.EmailStr sample.now sample.now
       (schemas.mk_BookingRequest 1 "Test User" "invalid-email") sample.db
     = (dependencies.validation_error, sample.db)
  /\ main.post_book config.Asia_Kolkata sample.EmailStr sample.now sample.now
       sample.padded_body sample.db
     = main.book config.Asia_Kolkata sample.now sample.now
         (schemas.mk_BookingCreate 1 "Ann" "Ann@example.com") sample.db.
Proof.
  split; [|split].
  - apply (post_book_validates_first sample.EmailStr config.Asia_Kolkata).
    left. vm_compute. reflexivity.
  - apply (post_book_validates_first sample.EmailStr config.Asia_Kolkata).
    right. right. reflexivity.
  - apply (post_book_validates_first sample.EmailStr config.Asia_Kolkata
             sample.now sample.now sample.padded_body sample.db).
    + vm_compute. split; discriminate.
    + reflexivity.
Defined.


